(** * git-keeper: fetching submissions, the GUI hash cache, faculty rows

    A shallow embedding of the client-side synchronisation code of
    git-keeper ([gkeepclient/fetch_submissions.py]), of the GUI's
    [Submission.is_fetched] ([gkeepgui/class_information.py]) and of
    [Faculty.from_csv_row] ([gkeepcore/faculty.py]), with the properties the
    specification states about them.

    Python code that prints and calls git is embedded in a state-and-exception
    monad over a [world]: the directories on the local disk, the remotes that
    can be reached, the process-wide hash memo and the log of git commands
    issued so far. *)

From Stdlib Require Import String Ascii.
From stdpp Require Import base option list gmap strings pretty sorting.

(** ** Python exceptions *)

(** Why a faculty row was refused; stands for the text of the message. *)
Inductive faculty_problem :=
  | NotValidRow (csv_row : list string)
  | NotValidEmail (email_address : string).

(** The exception classes that the embedded code raises or catches.
    [FacultyError] is a subclass of [GkeepException]. *)
Inductive exn :=
  | GkeepException (detail : string)
  | FacultyError (problem : faculty_problem)
  | ValueError
  | IndexError
  | KeyError (key : string)
  | AttributeError (attribute : string).

(** [isinstance(e, GkeepException)] *)
Definition is_GkeepException (e : exn) : bool :=
  match e with
  | GkeepException _ | FacultyError _ => true
  | _ => false
  end.

(** [isinstance(e, ValueError)] *)
Definition is_ValueError (e : exn) : bool :=
  match e with
  | ValueError => true
  | _ => false
  end.

(** A computation without state: a value or a raised exception. *)
Inductive result (A : Type) :=
  | Ok (a : A)
  | Raise (e : exn).
Arguments Ok {A} a.
Arguments Raise {A} e.

Definition result_bind {A B} (r : result A) (k : A → result B) : result B :=
  match r with
  | Ok a => k a
  | Raise e => Raise e
  end.

(** [try: r  except <cls>: h] for pure computations. *)
Definition result_catch {A} (cls : exn → bool) (r : result A)
    (h : exn → result A) : result A :=
  match r with
  | Ok a => Ok a
  | Raise e => if cls e then h e else Raise e
  end.

(** ** The fragment of Python's string library that the code uses *)

Module Py.

(** Values that [str.format] receives: strings are inserted as they are,
    integers in decimal. *)
Inductive value :=
  | Str (s : string)
  | Int (z : Z).

(** [str(v)] *)
Definition str (v : value) : string :=
  match v with
  | Str s => s
  | Int z => pretty z
  end.

Definition is_digit (c : ascii) : option nat :=
  let n := nat_of_ascii c in
  if (48 <=? n)%nat && (n <=? 57)%nat then Some (n - 48)%nat else None.

(** Scanner state of [str.format]: in literal text, inside a replacement
    field (with the digits of its index read so far), or after a lone
    closing brace. *)
Inductive format_state :=
  | InText
  | InField (index : option nat)
  | AfterClose.

(** [template.format( *args )] for templates whose replacement fields are
    explicit positions ([{0}], [{1}], ...), with the escapes [{{] and [}}].
    Anything else in a field (automatic numbering, names, conversions,
    format specifications) is outside this fragment and is reported as
    [ValueError]. *)
Fixpoint format_from (st : format_state) (args : list value)
    (template : string) : result string :=
  match template with
  | EmptyString =>
      match st with
      | InText => Ok EmptyString
      | _ => Raise ValueError
      end
  | String c rest =>
      match st with
      | InText =>
          if Ascii.eqb c "{" then format_from (InField None) args rest
          else if Ascii.eqb c "}" then format_from AfterClose args rest
          else result_bind (format_from InText args rest)
                 (λ s, Ok (String c s))
      | InField None =>
          if Ascii.eqb c "{" then
            result_bind (format_from InText args rest)
              (λ s, Ok (String "{" s))
          else
            match is_digit c with
            | Some d => format_from (InField (Some d)) args rest
            | None => Raise ValueError
            end
      | InField (Some n) =>
          if Ascii.eqb c "}" then
            match args !! n with
            | Some v =>
                result_bind (format_from InText args rest)
                  (λ s, Ok (str v +:+ s))
            | None => Raise IndexError
            end
          else
            match is_digit c with
            | Some d => format_from (InField (Some (10 * n + d)%nat)) args rest
            | None => Raise ValueError
            end
      | AfterClose =>
          if Ascii.eqb c "}" then
            result_bind (format_from InText args rest)
              (λ s, Ok (String "}" s))
          else Raise ValueError
      end
  end.

Definition format (template : string) (args : list value) : result string :=
  format_from InText args template.

(** [s.split(sep)] for a separator of one character: the pieces between
    the occurrences of [sep], so one more piece than occurrences. *)
Fixpoint split (sep : ascii) (s : string) : list string :=
  match s with
  | EmptyString => [EmptyString]
  | String c rest =>
      if Ascii.eqb c sep then EmptyString :: split sep rest
      else
        match split sep rest with
        | piece :: pieces => String c piece :: pieces
        | [] => [String c EmptyString]
        end
  end.

(** [a, b = pieces]: unpacking into two names raises [ValueError] unless
    there are exactly two values. *)
Definition unpack2 {A} (pieces : list A) : result (A * A) :=
  match pieces with
  | [a; b] => Ok (a, b)
  | _ => Raise ValueError
  end.

(** [sep in s] for a single character. *)
Fixpoint contains (sep : ascii) (s : string) : bool :=
  match s with
  | EmptyString => false
  | String c rest => Ascii.eqb c sep || contains sep rest
  end.

(** [posixpath.join(a, b)]: an absolute [b] replaces [a]; otherwise the
    two are joined with exactly one separator between them. *)
Definition ends_with_slash (a : string) : bool :=
  match String.length a with
  | O => false
  | S n => bool_decide (String.get n a = Some "/"%char)
  end.

Definition path_join (a b : string) : string :=
  match b with
  | String "/" _ => b
  | _ => if bool_decide (a = EmptyString) || ends_with_slash a
         then a +:+ b
         else a +:+ "/" +:+ b
  end.

End Py.

(** ** Client configuration *)

(** The fields of [gkeepclient.client_configuration.config] that
    [build_clone_url] reads.  The port is whatever the configuration parser
    stored, text or number. *)
Record client_configuration := {
  server_username : string;
  server_host : string;
  server_ssh_port : Py.value;
}.

(** [build_clone_url(path)] *)
Definition build_clone_url (config : client_configuration) (path : string)
    : result string :=
  Py.format "ssh://{0}@{1}:{2}/{3}"
    [Py.Str (server_username config); Py.Str (server_host config);
     server_ssh_port config; Py.Str path].


(** ** The world that the client acts on *)

(** What a local path that is a directory holds: any directory, or a
    non-bare git repository whose HEAD commit may or may not be readable
    (a repository without commits has none). *)
Inductive directory :=
  | PlainDirectory
  | Repository (head : option string).

(** The commands of [gkeepcore.git_commands] that the client runs. *)
Inductive git_call :=
  | IsNonBareRepo (path : string)
  | GitHeadHash (path : string)
  | GitCloneRemote (remote_url path : string)
  | GitPull (path remote_url : string).

(** - [directories]: the local paths that are directories;
    - [remotes]: the clone URLs that answer, with their HEAD commit;
    - [hash_cache]: the memo behind [FetchedHashCache];
    - [git_log]: every git command run so far, oldest first. *)
Record world := {
  directories : gmap string directory;
  remotes : gmap string string;
  hash_cache : gmap string string;
  git_log : list git_call;
}.

Definition set_directories (f : gmap string directory → gmap string directory)
    (w : world) : world :=
  {| directories := f (directories w); remotes := remotes w;
     hash_cache := hash_cache w; git_log := git_log w |}.

Definition set_hash_cache (f : gmap string string → gmap string string)
    (w : world) : world :=
  {| directories := directories w; remotes := remotes w;
     hash_cache := f (hash_cache w); git_log := git_log w |}.

Definition set_git_log (f : list git_call → list git_call) (w : world)
    : world :=
  {| directories := directories w; remotes := remotes w;
     hash_cache := hash_cache w; git_log := f (git_log w) |}.

(** ** State and exceptions *)

Definition M (A : Type) : Type := world → result A * world.

Definition ret {A} (a : A) : M A := λ w, (Ok a, w).

Definition raise {A} (e : exn) : M A := λ w, (Raise e, w).

Definition bind {A B} (m : M A) (k : A → M B) : M B :=
  λ w, match m w with
       | (Ok a, w') => k a w'
       | (Raise e, w') => (Raise e, w')
       end.

(** A pure computation, run without touching the world. *)
Definition lift {A} (r : result A) : M A := λ w, (r, w).

(** [try: body  except <cls> as e: handler(e)] *)
Definition try_except {A} (body : M A) (cls : exn → bool)
    (handler : exn → M A) : M A :=
  λ w, match body w with
       | (Ok a, w') => (Ok a, w')
       | (Raise e, w') => if cls e then handler e w' else (Raise e, w')
       end.

Definition get_world : M world := λ w, (Ok w, w).

Definition modify_world (f : world → world) : M unit := λ w, (Ok tt, f w).

Notation "x <- c1 ;; c2" := (bind c1 (λ x, c2))
  (at level 100, c1 at next level, right associativity,
   format "'[v' x  <-  c1 ;;  '/' c2 ']'").
Notation "c1 ;;; c2" := (bind c1 (λ _, c2))
  (at level 100, right associativity).

(** ** [gkeepcore.git_commands] and [os.path] *)

Definition run_git (c : git_call) : M unit :=
  modify_world (set_git_log (λ l, (l ++ [c])%list)).

(** Modelled from the spec: [gkeepcore.git_commands] is not among the
    sources.  [isRepo(path)]: whether the path is a non-bare repository. *)
Definition is_non_bare_repo (path : string) : M bool :=
  run_git (IsNonBareRepo path) ;;;
  w <- get_world ;;
  ret (match directories w !! path with
       | Some (Repository _) => true
       | _ => false
       end).

(** Modelled from the spec: [headHash(path)] gives the commit at the tip of
    the repository and fails with a transport error if the path is not a
    valid repository or the command fails. *)
Definition git_head_hash (path : string) : M string :=
  run_git (GitHeadHash path) ;;;
  w <- get_world ;;
  match directories w !! path with
  | Some (Repository (Some h)) => ret h
  | _ => raise (GkeepException path)
  end.

(** Modelled from the spec: [clone(url, path)] makes a full copy of the
    remote at [path], and fails with a transport error on a non-zero exit:
    here when the remote does not answer or the destination is already a
    directory.  A failed clone leaves nothing behind. *)
Definition git_clone_remote (remote_url path : string) : M unit :=
  run_git (GitCloneRemote remote_url path) ;;;
  w <- get_world ;;
  match remotes w !! remote_url, directories w !! path with
  | Some h, None =>
      modify_world (set_directories (insert path (Repository (Some h))))
  | _, _ => raise (GkeepException remote_url)
  end.

(** Modelled from the spec: [pull(path, url)] updates an existing copy to
    the remote's HEAD, and fails with a transport error on a non-zero exit:
    here when the remote does not answer or [path] is not a repository.  A
    failed pull leaves the copy as it was. *)
Definition git_pull (path remote_url : string) : M unit :=
  run_git (GitPull path remote_url) ;;;
  w <- get_world ;;
  match remotes w !! remote_url, directories w !! path with
  | Some h, Some (Repository _) =>
      modify_world (set_directories (insert path (Repository (Some h))))
  | _, _ => raise (GkeepException remote_url)
  end.

(** [os.path.isdir(path)] *)
Definition os_path_isdir (path : string) : M bool :=
  w <- get_world ;;
  ret (bool_decide (is_Some (directories w !! path))).

(** ** [gkeepclient/fetch_submissions.py] *)

(** The Python functions below return [None] and report on standard output.
    The embedding returns what they report:
    - [Cloned]: ['Cloning ... success!'];
    - [CloneError e]: ['error cloning: e'];
    - [NotARepository]: ['... exists but is not a git repository'];
    - [ReadError e]: ['Error reading local git repository ...: e'];
    - [UpToDate]: nothing, the hashes are the same;
    - [Pulled]: ['Pulling new content in ... success!'];
    - [PullError e]: ['Pulling new content in ...'] and then [str(e)]. *)
Inductive outcome :=
  | Cloned
  | CloneError (e : exn)
  | NotARepository
  | ReadError (e : exn)
  | UpToDate
  | Pulled
  | PullError (e : exn).

(** [clone_repo(local_repo_path, remote_url)] *)
Definition clone_repo (local_repo_path remote_url : string) : M outcome :=
  try_except
    (git_clone_remote remote_url local_repo_path ;;;
     ret Cloned)
    is_GkeepException
    (λ e, ret (CloneError e)).

(** [pull_repo_if_updated(local_repo_path, remote_url, remote_head_hash)].
    Each early [return] of the Python function is a branch that ends
    here. *)
Definition pull_repo_if_updated
    (local_repo_path remote_url remote_head_hash : string) : M outcome :=
  is_repo <- is_non_bare_repo local_repo_path ;;
  if negb is_repo then ret NotARepository
  else
    read <- try_except
              (h <- git_head_hash local_repo_path ;; ret (inr h))
              is_GkeepException
              (λ e, ret (inl e)) ;;
    match read with
    | inl e => ret (ReadError e)
    | inr local_head_hash =>
        if bool_decide (local_head_hash = remote_head_hash) then ret UpToDate
        else
          try_except
            (git_pull local_repo_path remote_url ;;;
             ret Pulled)
            is_GkeepException
            (λ e, ret (PullError e))
    end.

(** The module-level objects that [fetch_student_submission] reaches for:
    the parsed configuration, [server_interface.user_home_dir] and
    [gkeepcore.path_utils.student_assignment_repo_path] (faculty user name,
    class, assignment, student home directory).  The last two are not among
    the sources and stay parameters. *)
Record environment := {
  config : client_configuration;
  user_home_dir : string → string;
  student_assignment_repo_path : string → string → string → string → string;
}.

(** [fetch_student_submission(class_name, assignment_name,
    assignment_submission_path, remote_head_hash, username,
    last_first_username)] *)
Definition fetch_student_submission (env : environment)
    (class_name assignment_name assignment_submission_path
     remote_head_hash username last_first_username : string) : M outcome :=
  let student_submission_path :=
    Py.path_join assignment_submission_path last_first_username in
  let student_home_dir := user_home_dir env username in
  let remote_repo_path :=
    student_assignment_repo_path env (server_username (config env))
      class_name assignment_name student_home_dir in
  remote_git_url <- lift (build_clone_url (config env) remote_repo_path) ;;
  is_dir <- os_path_isdir student_submission_path ;;
  if is_dir then
    pull_repo_if_updated student_submission_path remote_git_url
      remote_head_hash
  else
    clone_repo student_submission_path remote_git_url.

(** ** [gkeepcore/user_interface.py]: the information snapshot *)

(** A Python [dict] with string keys, in insertion order. *)
Definition dict (V : Type) : Type := list (string * V).

(** [d[key]] *)
Fixpoint getitem {V} (d : dict V) (key : string) : result V :=
  match d with
  | [] => Raise (KeyError key)
  | (k, v) :: rest => if String.eqb k key then Ok v else getitem rest key
  end.

(** [list(d)] *)
Definition keys {V} (d : dict V) : list string := d.*1.

(** The entries of the info dictionary that the fetch loop reads; the other
    keys of each entry are left out. *)
Record student_json := { j_last_first_username : string }.
Record student_repo_json := { j_hash : string }.
Record assignment_json := { j_students_repos : dict student_repo_json }.
Record class_json := {
  j_students : dict student_json;
  j_assignments : dict assignment_json;
}.

(** [JsonInfo]: [info_dict] maps a class name to its entry. *)
Record JsonInfo := { info_dict : dict class_json }.

(** [JsonInfo.student_list(class_name)] *)
Definition student_list (self : JsonInfo) (class_name : string)
    : result (list string) :=
  result_bind (getitem (info_dict self) class_name)
    (λ c, Ok (keys (j_students c))).

(** [JsonInfo.assignment_by_student_hash(class_name, assignment, username)] *)
Definition assignment_by_student_hash (self : JsonInfo)
    (class_name assignment username : string) : result string :=
  result_bind (getitem (info_dict self) class_name) (λ c,
  result_bind (getitem (j_assignments c) assignment) (λ a,
  result_bind (getitem (j_students_repos a) username) (λ r,
  Ok (j_hash r)))).

(** [JsonInfo.last_first_username(class_name, username)] *)
Definition last_first_username (self : JsonInfo)
    (class_name username : string) : result string :=
  result_bind (getitem (info_dict self) class_name) (λ c,
  result_bind (getitem (j_students c) username) (λ s,
  Ok (j_last_first_username s))).

(** The body of the loop [for username in info.student_list(class_name)] of
    [fetch_assignment_submissions], over the user names still to do. *)
Fixpoint fetch_each_student (env : environment) (info : JsonInfo)
    (class_name assignment_name assignment_submissions_path : string)
    (usernames : list string) : M (list outcome) :=
  match usernames with
  | [] => ret []
  | username :: rest =>
      remote_head_hash <-
        lift (assignment_by_student_hash info class_name assignment_name
                username) ;;
      last_first <- lift (last_first_username info class_name username) ;;
      o <- fetch_student_submission env class_name assignment_name
             assignment_submissions_path remote_head_hash username
             last_first ;;
      os <- fetch_each_student env info class_name assignment_name
              assignment_submissions_path rest ;;
      ret (o :: os)
  end.

(** The loop that fetches each student's submission, lines 193 to 201 of
    [fetch_assignment_submissions]; one outcome for each student, in the
    order of the student list. *)
Definition fetch_student_submissions (env : environment) (info : JsonInfo)
    (class_name assignment_name assignment_submissions_path : string)
    : M (list outcome) :=
  usernames <- lift (student_list info class_name) ;;
  fetch_each_student env info class_name assignment_name
    assignment_submissions_path usernames.

(** ** Reading the decision off a run *)

(** What the synchronisation decided for a target: the git command that
    changes the local copy, if one was run. *)
Inductive decision :=
  | NoOp
  | Clone
  | Pull.

Definition mutates (c : git_call) : bool :=
  match c with
  | GitCloneRemote _ _ | GitPull _ _ => true
  | _ => false
  end.

(** The git commands that running [m] in [w] adds to the log. *)
Definition issued {A} (m : M A) (w : world) : list git_call :=
  drop (length (git_log w)) (git_log (m w).2).

Definition decision_of (calls : list git_call) : option decision :=
  match filter (λ c, mutates c = true) calls with
  | [] => Some NoOp
  | [GitCloneRemote _ _] => Some Clone
  | [GitPull _ _] => Some Pull
  | _ => None
  end.

(** The transport error of a clone or a pull was caught and reported. *)
Definition failed (o : outcome) : bool :=
  match o with
  | CloneError _ | PullError _ => true
  | _ => false
  end.

(** A clone or a pull ran to the end, or there was nothing to transfer. *)
Definition succeeded (o : outcome) : bool :=
  match o with
  | Cloned | Pulled | UpToDate => true
  | _ => false
  end.

(** The decision that an outcome reports. *)
Definition decision_of_outcome (o : outcome) : decision :=
  match o with
  | Cloned | CloneError _ => Clone
  | Pulled | PullError _ => Pull
  | NotARepository | ReadError _ | UpToDate => NoOp
  end.

(** The HEAD commit of the local copy at [path], when it can be read. *)
Definition local_head (w : world) (path : string) : option string :=
  match directories w !! path with
  | Some (Repository head) => head
  | _ => None
  end.

(** ** [gkeepgui/class_information.py]: [Submission.is_fetched] *)

(** The attributes of a [Submission] that [is_fetched] reads. *)
Record Submission := {
  fetched_path : option string;
  server_hash : string;
}.

(** Modelled from the spec: [FetchedHashCache] is imported from
    [gkeepclient.fetch_submissions] but not defined in the sources.  The
    spec describes a memo of the last known local HEAD hash per repository
    path, written once per path (the first observation wins) and read many
    times.  An instance is a handle on that memo. *)
Record FetchedHashCache_object := { cache_base_path : string }.

Definition FetchedHashCache (path : string) : M FetchedHashCache_object :=
  ret {| cache_base_path := path |}.

Definition is_cached (cache : FetchedHashCache_object) (path : string)
    : M bool :=
  w <- get_world ;;
  ret (bool_decide (is_Some (hash_cache w !! path))).

Definition get_hash (cache : FetchedHashCache_object) (path : string)
    : M (option string) :=
  w <- get_world ;;
  ret (hash_cache w !! path).

Definition set_hash (cache : FetchedHashCache_object) (path hash : string)
    : M unit :=
  modify_world (set_hash_cache (λ m,
    match m !! path with
    | Some _ => m
    | None => <[path := hash]> m
    end)).

(** [None.<name>]: looking up any attribute on [None] raises. *)
Definition getattr_None {A} (name : string) : M A :=
  raise (AttributeError name).

(** [Submission.is_fetched()].  The variable [local_hash] starts as [None];
    on the cached branch the method is looked up on [local_hash] itself, and
    nothing is assigned. *)
Definition is_fetched (self : Submission) : M bool :=
  match fetched_path self with
  | None => ret false
  | Some path =>
      let local_hash : option string := None in
      cache <- FetchedHashCache path ;;
      cached <- is_cached cache path ;;
      local_hash <-
        (if cached then
           @getattr_None unit "get_hash" ;;;
           ret local_hash
         else
           h <- git_head_hash path ;;
           set_hash cache path h ;;;
           ret (Some h)) ;;
      ret (bool_decide (local_hash = Some (server_hash self)))
  end.

(** ** [gkeepcore/faculty.py] *)

Record Faculty := {
  last_name : string;
  first_name : string;
  username : string;
  email_address : string;
}.

(** [Faculty.from_csv_row(csv_row)] *)
Definition from_csv_row (csv_row : list string) : result Faculty :=
  if bool_decide (length csv_row ≠ 3%nat) then
    Raise (FacultyError (NotValidRow csv_row))
  else
    match csv_row with
    | [last; first; email] =>
        result_bind
          (result_catch is_ValueError
             (Py.unpack2 (Py.split "@" email))
             (λ _, Raise (FacultyError (NotValidEmail email))))
          (λ '(user, domain),
             Ok {| last_name := last; first_name := first;
                   username := user; email_address := email |})
    | _ => Raise ValueError
    end.

(** ** The response poller *)

Inductive ServerResponseType :=
  | SUCCESS
  | ERROR
  | WARNING
  | TIMEOUT.

Record ServerResponse := {
  response_type : ServerResponseType;
  message : option string;
}.

(** SUCCESS, ERROR and TIMEOUT end a polling session; WARNING does not. *)
Definition is_terminal (t : ServerResponseType) : bool :=
  match t with
  | WARNING => false
  | _ => true
  end.

(** One item of the server's message source: when it arrives, counted from
    the start of the poller, and the [(tag, responseType, message)] tuple. *)
Record server_message := {
  arrival : nat;
  msg_tag : string;
  msg_type : ServerResponseType;
  msg_text : string;
}.

Inductive poller_state :=
  | Polling
  | Terminal.

(** Modelled from the spec: [gkeepclient.server_response_poller] is not
    among the sources.  A poller is constructed with an operation tag and a
    timeout [T]. *)
Record ServerResponsePoller := {
  operation_tag : string;
  timeout : nat;
}.

Definition response_of (m : server_message) : ServerResponse :=
  {| response_type := msg_type m; message := Some (msg_text m) |}.

(** The synthetic response for "no message arrived in time". *)
Definition timeout_response : ServerResponse :=
  {| response_type := TIMEOUT; message := None |}.

Definition next_state (t : ServerResponseType) : poller_state :=
  if is_terminal t then Terminal else Polling.

(** Modelled from the spec: the sequence that the poller produces from a
    state, given the messages that the source will deliver, in order of
    arrival.  In [Terminal] nothing is produced.  In [Polling] each
    iteration waits for the next message with the poller's tag: messages
    with another tag are passed over; a message that arrives after more
    than [T] has elapsed, or no message at all, gives the single synthetic
    TIMEOUT and the state [Terminal]; a WARNING is emitted and polling goes
    on; any other message is emitted and the state becomes [Terminal]. *)
Fixpoint produce (self : ServerResponsePoller) (state : poller_state)
    (source : list server_message) : list ServerResponse :=
  match state with
  | Terminal => []
  | Polling =>
      match source with
      | [] => [timeout_response]
      | m :: rest =>
          if negb (String.eqb (msg_tag m) (operation_tag self)) then
            produce self Polling rest
          else if (timeout self <? arrival m)%nat then [timeout_response]
          else response_of m :: produce self (next_state (msg_type m)) rest
      end
  end.

(** [ServerResponsePoller.response_generator()]: a poller starts in
    [Polling]. *)
Definition response_generator (self : ServerResponsePoller)
    (source : list server_message) : list ServerResponse :=
  produce self Polling source.


(** ** Rows that [from_csv_row] accepts *)

(** A row that [from_csv_row] accepts: three fields, the third of which
    splits into exactly two parts at [@]. *)
Definition valid_faculty_row (csv_row : list string) : Prop :=
  length csv_row = 3%nat
  ∧ ∃ email, csv_row !! 2%nat = Some email
             ∧ length (Py.split "@" email) = 2%nat.


(** ** Targets and the transition of one local path *)

(** What [fetch_student_submission] hands to [clone_repo] or
    [pull_repo_if_updated]: the local path of the copy, the clone URL and
    the HEAD hash of the remote according to the snapshot. *)
Record target := {
  t_path : string;
  t_url : string;
  t_hash : string;
}.

(** The last four lines of [fetch_student_submission]: pull if the
    directory exists, clone otherwise. *)
Definition sync_target (t : target) : M outcome :=
  is_dir <- os_path_isdir (t_path t) ;;
  if is_dir then pull_repo_if_updated (t_path t) (t_url t) (t_hash t)
  else clone_repo (t_path t) (t_url t).

(** The target that the loop computes for a student. *)
Definition resolve_target (env : environment) (info : JsonInfo)
    (class_name assignment_name assignment_submissions_path uname : string)
    : result target :=
  result_bind
    (assignment_by_student_hash info class_name assignment_name uname)
    (λ remote_head_hash,
  result_bind (last_first_username info class_name uname) (λ last_first,
  result_bind
    (build_clone_url (config env)
       (student_assignment_repo_path env (server_username (config env))
          class_name assignment_name (user_home_dir env uname)))
    (λ remote_git_url,
  Ok {| t_path := Py.path_join assignment_submissions_path last_first;
        t_url := remote_git_url;
        t_hash := remote_head_hash |}))).

Fixpoint resolve_targets (env : environment) (info : JsonInfo)
    (class_name assignment_name assignment_submissions_path : string)
    (usernames : list string) : result (list target) :=
  match usernames with
  | [] => Ok []
  | uname :: rest =>
      result_bind
        (resolve_target env info class_name assignment_name
           assignment_submissions_path uname) (λ t,
      result_bind
        (resolve_targets env info class_name assignment_name
           assignment_submissions_path rest) (λ ts,
      Ok (t :: ts)))
  end.

(** What synchronising [t] does to the entry [d] of its local path, given
    the remotes: the outcome, the entry afterwards and the git commands
    run. *)
Definition entry_step (rem : gmap string string) (t : target)
    (d : option directory) : outcome * option directory * list git_call :=
  match d with
  | None =>
      match rem !! t_url t with
      | Some h =>
          (Cloned, Some (Repository (Some h)),
           [GitCloneRemote (t_url t) (t_path t)])
      | None =>
          (CloneError (GkeepException (t_url t)), None,
           [GitCloneRemote (t_url t) (t_path t)])
      end
  | Some PlainDirectory =>
      (NotARepository, d, [IsNonBareRepo (t_path t)])
  | Some (Repository None) =>
      (ReadError (GkeepException (t_path t)), d,
       [IsNonBareRepo (t_path t); GitHeadHash (t_path t)])
  | Some (Repository (Some h)) =>
      if bool_decide (h = t_hash t) then
        (UpToDate, d, [IsNonBareRepo (t_path t); GitHeadHash (t_path t)])
      else
        match rem !! t_url t with
        | Some h' =>
            (Pulled, Some (Repository (Some h')),
             [IsNonBareRepo (t_path t); GitHeadHash (t_path t);
              GitPull (t_path t) (t_url t)])
        | None =>
            (PullError (GkeepException (t_url t)), d,
             [IsNonBareRepo (t_path t); GitHeadHash (t_path t);
              GitPull (t_path t) (t_url t)])
        end
  end.

(** The world after [entry_step] on the path of [t]. *)
Definition after_step (t : target) (w : world) : world :=
  let '(_, d', calls) := entry_step (remotes w) t (directories w !! t_path t) in
  {| directories := partial_alter (λ _, d') (t_path t) (directories w);
     remotes := remotes w;
     hash_cache := hash_cache w;
     git_log := git_log w ++ calls |}.

Definition step_outcome (t : target) (w : world) : outcome :=
  (entry_step (remotes w) t (directories w !! t_path t)).1.1.

(** The outcomes of synchronising the targets one after the other. *)
Fixpoint batch_outcomes (ts : list target) (w : world) : list outcome :=
  match ts with
  | [] => []
  | t :: rest => step_outcome t w :: batch_outcomes rest (after_step t w)
  end.

Fixpoint after_batch (ts : list target) (w : world) : world :=
  match ts with
  | [] => w
  | t :: rest => after_batch rest (after_step t w)
  end.

(** The clone or pull that an outcome of [t] stands for, if any. *)
Definition transfer_of (t : target) (o : outcome) : option git_call :=
  match decision_of_outcome o with
  | Clone => Some (GitCloneRemote (t_url t) (t_path t))
  | Pull => Some (GitPull (t_path t) (t_url t))
  | NoOp => None
  end.

(** Two worlds with the same disk and the same remotes: they may differ in
    the log of git commands and in the hash cache. *)
Definition same_disk (w w' : world) : Prop :=
  directories w = directories w' ∧ remotes w = remotes w'.

(** ** The sync decision as the specification words it *)

(** For a local path that exists: no-op exactly when the local HEAD hash is
    the remote one, pull whenever it differs or cannot be read. *)
Definition decides_as_specified (local_repo_path remote_url
    remote_head_hash : string) (w : world) : Prop :=
  is_Some (directories w !! local_repo_path) →
  let d := decision_of
             (issued (pull_repo_if_updated local_repo_path remote_url
                        remote_head_hash) w) in
  (d = Some NoOp ↔ local_head w local_repo_path = Some remote_head_hash)
  ∧ (local_head w local_repo_path ≠ Some remote_head_hash → d = Some Pull).

(** ** Transport failure, and the second run as the specification words
    it *)

(** The transport call for [t] fails in [w]: a clone or a pull is due for
    its path, and its remote does not answer. *)
Definition transport_fails (t : target) (w : world) : Prop :=
  remotes w !! t_url t = None
  ∧ (directories w !! t_path t = None
     ∨ ∃ h, directories w !! t_path t = Some (Repository (Some h))
            ∧ h ≠ t_hash t).


(** ** Example inputs *)

Definition example_config : client_configuration :=
  {| server_username := "prof"; server_host := "cs.example.edu";
     server_ssh_port := Py.Int 2222 |}.

Definition example_env : environment :=
  {| config := example_config;
     user_home_dir := λ uname, "/home/" +:+ uname;
     student_assignment_repo_path := λ faculty class_name assignment home,
       home +:+ "/" +:+ faculty +:+ "/" +:+ class_name +:+ "/"
       +:+ assignment +:+ ".git" |}.

Definition example_info : JsonInfo :=
  {| info_dict :=
       [("cs101",
         {| j_students :=
              [("ada", {| j_last_first_username := "lovelace_ada_ada" |});
               ("bob", {| j_last_first_username := "builder_bob_bob" |});
               ("cy", {| j_last_first_username := "young_cy_cy" |})];
            j_assignments :=
              [("hw1",
                {| j_students_repos :=
                     [("ada", {| j_hash := "a1" |});
                      ("bob", {| j_hash := "b2" |});
                      ("cy", {| j_hash := "c3" |})] |})] |})] |}.

Definition example_usernames : list string := ["ada"; "bob"; "cy"].

Definition example_targets : list target :=
  [ {| t_path := "/grading/hw1/submissions/lovelace_ada_ada";
       t_url := "ssh://prof@cs.example.edu:2222//home/ada/prof/cs101/hw1.git";
       t_hash := "a1" |};
    {| t_path := "/grading/hw1/submissions/builder_bob_bob";
       t_url := "ssh://prof@cs.example.edu:2222//home/bob/prof/cs101/hw1.git";
       t_hash := "b2" |};
    {| t_path := "/grading/hw1/submissions/young_cy_cy";
       t_url := "ssh://prof@cs.example.edu:2222//home/cy/prof/cs101/hw1.git";
       t_hash := "c3" |} ].

(** Nothing fetched yet except an old copy of cy's repository; bob's remote
    does not answer. *)
Definition example_world : world :=
  {| directories :=
       {[ "/grading/hw1/submissions/young_cy_cy" := Repository (Some "c0") ]};
     remotes :=
       {[ "ssh://prof@cs.example.edu:2222//home/ada/prof/cs101/hw1.git"
            := "a1";
          "ssh://prof@cs.example.edu:2222//home/cy/prof/cs101/hw1.git"
            := "c3" ]};
     hash_cache := ∅;
     git_log := [] |}.


(** A submissions directory in which someone made a plain directory where
    a student's repository should be. *)
Definition example_plain_world : world :=
  {| directories :=
       {[ "/grading/hw1/submissions/lovelace_ada_ada" := PlainDirectory ]};
     remotes :=
       {[ "ssh://prof@cs.example.edu:2222//home/ada/prof/cs101/hw1.git"
            := "a1" ]};
     hash_cache := ∅;
     git_log := [] |}.

Definition example_submission : Submission :=
  {| fetched_path := Some "/grading/hw1/submissions/doe_jane_jdoe";
     server_hash := "4f2a" |}.

Definition example_gui_world : world :=
  {| directories :=
       {[ "/grading/hw1/submissions/doe_jane_jdoe" :=
            Repository (Some "4f2a") ]};
     remotes := ∅; hash_cache := ∅; git_log := [] |}.

(** A snapshot in which bob is a student of the class but has no repository
    for the assignment. *)
Definition example_info_without_bob : JsonInfo :=
  {| info_dict :=
       [("cs101",
         {| j_students :=
              [("ada", {| j_last_first_username := "lovelace_ada_ada" |});
               ("bob", {| j_last_first_username := "builder_bob_bob" |});
               ("cy", {| j_last_first_username := "young_cy_cy" |})];
            j_assignments :=
              [("hw1",
                {| j_students_repos :=
                     [("ada", {| j_hash := "a1" |});
                      ("cy", {| j_hash := "c3" |})] |})] |})] |}.

(** * More of the code *)

(** ** Further exception classes *)

(** What opening or reading a file can raise: an [OSError] from the file
    system, a [csv.Error] from the CSV reader, a [UnicodeDecodeError] (a
    subclass of [ValueError]) where the bytes of the file are not text in
    the expected encoding, or any other exception. *)
Inductive io_failure :=
  | OSFailure (detail : string)
  | CsvFailure (detail : string)
  | DecodeFailure (detail : string)
  | OtherFailure (e : exn).

(** The exceptions of the rest of the code: those above, and
    - [TypeError], from subscripting or measuring a value that has no items;
    - [OSError], from opening a file;
    - [JSONDecodeError], a subclass of [ValueError], from [json.load];
    - [UnicodeDecodeError], a subclass of [ValueError], from reading text;
    - [GuiException] and its subclass [GuiFileException] (which carries the
      missing path), both subclasses of [GkeepException];
    - [FacultyError(e)] for an [e] that is a [csv.Error] or an [OSError]. *)
Inductive py_exn :=
  | Builtin (e : exn)
  | TypeError
  | OSError (detail : string)
  | JSONDecodeError
  | UnicodeDecodeError (detail : string)
  | GuiException (message : string)
  | GuiFileException (path : string)
  | FacultyErrorFrom (cause : io_failure).

Inductive res (A : Type) :=
  | Return (a : A)
  | Throw (e : py_exn).
Arguments Return {A} a.
Arguments Throw {A} e.

Definition res_bind {A B} (r : res A) (k : A → res B) : res B :=
  match r with
  | Return a => k a
  | Throw e => Throw e
  end.

Definition res_of {A} (r : result A) : res A :=
  match r with
  | Ok a => Return a
  | Raise e => Throw (Builtin e)
  end.

(** ** [gkeepcore/faculty.py]: the rest *)

(** [Faculty.__repr__()] *)
Definition Faculty_repr (self : Faculty) : result string :=
  Py.format "{0}, {1} ({2}) <{3}>"
    [Py.Str (last_name self); Py.Str (first_name self);
     Py.Str (username self); Py.Str (email_address self)].

(** What [open(csv_path)] and [csv.reader] give: opening the file fails,
    or the reader yields rows and then either ends or fails. *)
Inductive csv_file :=
  | Unopenable (cause : io_failure)
  | Readable (rows : list (list string)) (breaks : option io_failure).

(** What leaves the [try] statement of [faculty_from_csv_file] when opening
    or reading fails: [except (csv.Error, OSError) as e] turns those two
    into [FacultyError(e)]; any other exception passes through as it is. *)
Definition reader_exception (cause : io_failure) : py_exn :=
  match cause with
  | OSFailure _ | CsvFailure _ => FacultyErrorFrom cause
  | DecodeFailure detail => UnicodeDecodeError detail
  | OtherFailure e => Builtin e
  end.

(** A generator, run to its end: what it yielded, and the exception that
    ended it if one did. *)
Definition generated (A : Type) : Type := list A * option py_exn.

(** The [for row in reader] loop of [faculty_from_csv_file]: blank lines are
    skipped, every other row goes through [from_csv_row], whose exception
    is none of those that the [except] clause names and so leaves the
    generator as it is. *)
Fixpoint faculty_from_rows (rows : list (list string))
    : list Faculty * option exn :=
  match rows with
  | [] => ([], None)
  | row :: rest =>
      if (0 <? length row)%nat then
        match from_csv_row row with
        | Ok f => let '(fs, e) := faculty_from_rows rest in (f :: fs, e)
        | Raise e => ([], Some e)
        end
      else faculty_from_rows rest
  end.

(** [faculty_from_csv_file(csv_path)], given what is at [csv_path]. *)
Definition faculty_from_csv_file (file : csv_file) : generated Faculty :=
  match file with
  | Unopenable cause => ([], Some (reader_exception cause))
  | Readable rows breaks =>
      match faculty_from_rows rows with
      | (fs, Some e) => (fs, Some (Builtin e))
      | (fs, None) =>
          match breaks with
          | Some cause => (fs, Some (reader_exception cause))
          | None => (fs, None)
          end
      end
  end.

(** ** [gkeepgui/submissions_json.py] *)

(** [key in d.keys()] *)
Definition has_key {V} (d : dict V) (key : string) : bool :=
  bool_decide (key ∈ keys d).

(** [d[key] = v]: an existing key keeps its place, a new one goes last. *)
Fixpoint setitem {V} (d : dict V) (key : string) (v : V) : dict V :=
  match d with
  | [] => [(key, v)]
  | (k, x) :: rest =>
      if String.eqb k key then (k, v) :: rest
      else (k, x) :: setitem rest key v
  end.

(** What is at [json_path]: not even the directory
    [~/.config/git-keeper] that the file belongs in, no file in that
    directory, a file of size zero, or the JSON text of a dictionary that
    maps class names to dictionaries from assignment names to paths.  The
    class writes nothing else into the file; writing into a directory that
    exists is taken to succeed. *)
Inductive json_file :=
  | NoDirectory
  | NoFile
  | EmptyFile
  | PathsFile (paths : dict (dict string)).

(** [SubmissionsPaths.json_exists()] *)
Definition json_exists (file : json_file) : bool :=
  match file with
  | NoDirectory | NoFile => false
  | _ => true
  end.

(** [with open(json_path, 'w'): pass]: the file is made or emptied; without
    the directory, [open] raises [FileNotFoundError], an [OSError]. *)
Definition open_for_writing (file : json_file) : res unit * json_file :=
  match file with
  | NoDirectory => (Throw (OSError "submissions_path.json"), NoDirectory)
  | _ => (Return tt, EmptyFile)
  end.

(** [os.path.getsize(json_path) == 0], for a file that exists. *)
Definition is_empty_file (file : json_file) : bool :=
  match file with
  | EmptyFile => true
  | _ => false
  end.

(** [SubmissionsPaths.create_json()], which the constructor runs: what it
    returns, and the file after it. *)
Definition create_json (file : json_file) : res unit * json_file :=
  let '(r, file) :=
    if negb (json_exists file) then open_for_writing file
    else (Return tt, file) in
  match r with
  | Throw e => (Throw e, file)
  | Return _ =>
      if is_empty_file file then (Return tt, PathsFile [])
      else (Return tt, file)
  end.

(** [with open(json_path, 'r') as f: paths = json.load(f)] *)
Definition load_paths (file : json_file) : res (dict (dict string)) :=
  match file with
  | NoDirectory | NoFile => Throw (OSError "submissions_path.json")
  | EmptyFile => Throw JSONDecodeError
  | PathsFile paths => Return paths
  end.

(** [SubmissionsPaths.get_path(assignment, class_name)] *)
Definition get_path (file : json_file) (assignment class_name : string)
    : res (option string) :=
  res_bind (load_paths file) (λ paths,
  if has_key paths class_name then
    res_bind (res_of (getitem paths class_name)) (λ of_class,
    if has_key of_class assignment then
      res_bind (res_of (getitem of_class assignment)) (λ path,
      Return (Some path))
    else Return None)
  else Return None).

(** [SubmissionsPaths.set_path(assignment, class_name, path)]: what it
    returns, and the file after it. *)
Definition set_path (file : json_file) (assignment class_name path : string)
    : res unit * json_file :=
  match load_paths file with
  | Throw e => (Throw e, file)
  | Return paths =>
      let paths :=
        if negb (has_key paths class_name) then setitem paths class_name []
        else paths in
      match getitem paths class_name with
      | Raise e => (Throw (Builtin e), file)
      | Ok of_class =>
          (Return tt,
           PathsFile
             (setitem paths class_name (setitem of_class assignment path)))
      end
  end.

(** ** Python lists and loops *)

(** [range(n)] *)
Definition py_range (n : Z) : list Z := Z.of_nat <$> seq 0 (Z.to_nat n).

(** The position that index [i] names in a list of [len] items; a negative
    index counts from the end. *)
Definition py_index (len : nat) (i : Z) : option nat :=
  if bool_decide (0 ≤ i < Z.of_nat len)%Z then Some (Z.to_nat i)
  else if bool_decide (- Z.of_nat len ≤ i < 0)%Z
       then Some (Z.to_nat (Z.of_nat len + i))
       else None.

(** [l[i]] *)
Definition list_getitem {A} (l : list A) (i : Z) : result A :=
  match py_index (length l) i with
  | Some n =>
      match l !! n with
      | Some x => Ok x
      | None => Raise IndexError
      end
  | None => Raise IndexError
  end.

(** [l[i] = x] *)
Definition list_setitem {A} (l : list A) (i : Z) (x : A) : result (list A) :=
  match py_index (length l) i with
  | Some n => Ok (<[n := x]> l)
  | None => Raise IndexError
  end.

(** [for x in items: body(x)] on a state, left as it is when the body
    raises. *)
Fixpoint for_each {S A} (items : list A) (body : A → S → res unit * S)
    (s : S) : res unit * S :=
  match items with
  | [] => (Return tt, s)
  | x :: rest =>
      match body x s with
      | (Return _, s') => for_each rest body s'
      | (Throw e, s') => (Throw e, s')
      end
  end.

(** ** [gkeepgui/window_info.py]: [Table] *)

(** The attributes of a [Table]; a cell holds text. *)
Record Table := {
  row_count : Z;
  col_count : Z;
  col_headers : list string;
  rows_content : list (list string);
  selected_row : option Z;
}.

(** [Table()] *)
Definition Table_init : Table :=
  {| row_count := 0; col_count := 0; col_headers := []; rows_content := [];
     selected_row := None |}.

Definition with_rows (rows : list (list string)) (t : Table) : Table :=
  {| row_count := row_count t; col_count := col_count t;
     col_headers := col_headers t; rows_content := rows;
     selected_row := selected_row t |}.

Definition with_headers (headers : list string) (t : Table) : Table :=
  {| row_count := row_count t; col_count := col_count t;
     col_headers := headers; rows_content := rows_content t;
     selected_row := selected_row t |}.

(** [Table.set_row_count(count)] *)
Definition set_row_count (count : Z) (t : Table) : Table :=
  {| row_count := count; col_count := col_count t;
     col_headers := col_headers t;
     rows_content := rows_content t ++ replicate (Z.to_nat count) [];
     selected_row := selected_row t |}.

(** [Table.set_column_count(count)] *)
Definition set_column_count (count : Z) (t : Table) : Table :=
  {| row_count := row_count t; col_count := count;
     col_headers := col_headers t ++ replicate (Z.to_nat count) "";
     rows_content :=
       (λ row, row ++ replicate (Z.to_nat count) "") <$> rows_content t;
     selected_row := selected_row t |}.

(** [Table.set_column_header(col, header)] *)
Definition set_column_header (col : Z) (header : string) (t : Table)
    : res unit * Table :=
  match list_setitem (col_headers t) col header with
  | Ok headers => (Return tt, with_headers headers t)
  | Raise e => (Throw (Builtin e), t)
  end.

(** [Table.set_column_headers(headers)] *)
Definition set_column_headers (headers : list string) (t : Table)
    : res unit * Table :=
  if bool_decide (Z.of_nat (length headers) ≠ col_count t) then
    (Throw (GuiException
              "Number of headers do not match number of columns"), t)
  else
    for_each (py_range (col_count t))
      (λ index t,
         match list_getitem headers index with
         | Ok header => set_column_header index header t
         | Raise e => (Throw (Builtin e), t)
         end) t.

(** [self.rows_content[row][col] = content_list[col]], one pass of the loop
    of [set_row_content]. *)
Definition set_cell (row : Z) (content_list : list string) (col : Z)
    (t : Table) : res unit * Table :=
  match list_getitem content_list col with
  | Raise e => (Throw (Builtin e), t)
  | Ok cell =>
      match list_getitem (rows_content t) row,
            py_index (length (rows_content t)) row with
      | Ok cells, Some n =>
          match list_setitem cells col cell with
          | Ok cells' =>
              (Return tt, with_rows (<[n := cells']> (rows_content t)) t)
          | Raise e => (Throw (Builtin e), t)
          end
      | _, _ => (Throw (Builtin IndexError), t)
      end
  end.

(** [Table.set_row_content(row, content_list)] *)
Definition set_row_content (row : Z) (content_list : list string)
    (t : Table) : res unit * Table :=
  if bool_decide (Z.of_nat (length content_list) ≠ col_count t) then
    (Throw (GuiException
              "Number of cells in this row do not matchnumber of columns"),
     t)
  else for_each (py_range (col_count t)) (set_cell row content_list) t.

(** [Table.select_row(row)] *)
Definition select_row (row : option Z) (t : Table) : Table :=
  {| row_count := row_count t; col_count := col_count t;
     col_headers := col_headers t; rows_content := rows_content t;
     selected_row := row |}.

(** [Table.get_selected_row_content()] *)
Definition get_selected_row_content (t : Table) : res (list string) :=
  match selected_row t with
  | None => Throw TypeError
  | Some row => res_of (list_getitem (rows_content t) row)
  end.

(** A table whose lists have the sizes that its counts say. *)
Definition well_shaped (t : Table) : Prop :=
  Z.of_nat (length (col_headers t)) = col_count t
  ∧ Z.of_nat (length (rows_content t)) = row_count t
  ∧ Forall (λ cells, Z.of_nat (length cells) = col_count t) (rows_content t).

(** ** Sorting *)

(** Where [sorted] puts [x] among items that are already in order and that
    came after [x] in the input: before the first one that need not
    precede it.  [lt] is [<] on keys. *)
Fixpoint insert_sorted {A K} (lt : K → K → bool) (key : A → K)
    (reverse : bool) (x : A) (l : list A) : list A :=
  match l with
  | [] => [x]
  | y :: ys =>
      if (if reverse then lt (key x) (key y) else lt (key y) (key x))
      then y :: insert_sorted lt key reverse x ys
      else x :: y :: ys
  end.

(** [sorted(items, key=key, reverse=reverse)]: the stable sort, ascending
    by key, or descending when [reverse]; items with equal keys keep the
    order of the input either way. *)
Definition sorted {A K} (lt : K → K → bool) (key : A → K) (reverse : bool)
    (items : list A) : list A :=
  foldr (insert_sorted lt key reverse) [] items.

(** ** [gkeepgui/window_info.py]: [AssignmentTable] *)

(** The attributes of an [Assignment] of the GUI that the table reads. *)
Record Assignment := {
  name : string;
  is_published : bool;
  students_submitted_count : Z;
}.

(** The attributes of a [FacultyClass] that the table reads;
    [get_assignment_list] is what the method of that name returns. *)
Record FacultyClass := {
  assignment_count : Z;
  get_assignment_list : list Assignment;
}.

(** An [AssignmentTable]: the attributes of its [Table], and its own. *)
Record AssignmentTable := {
  table : Table;
  _class : FacultyClass;
  current_assignment : option Assignment;
  sorting_order : option (Z * Z);
}.

Definition with_table (t : Table) (self : AssignmentTable)
    : AssignmentTable :=
  {| table := t; _class := _class self;
     current_assignment := current_assignment self;
     sorting_order := sorting_order self |}.

(** The cells of the row of an assignment. *)
Definition assignment_content (assignment : Assignment) : list string :=
  if is_published assignment then
    [name assignment; Py.str (Py.Int (students_submitted_count assignment))]
  else [name assignment; "Unpublished"].

(** [AssignmentTable.set_rows_content(assignments)] *)
Definition AssignmentTable_set_rows_content (assignments : list Assignment)
    (t : Table) : res unit * Table :=
  for_each (py_range (row_count t))
    (λ row t,
       match list_getitem assignments row with
       | Ok assignment =>
           set_row_content row (assignment_content assignment) t
       | Raise e => (Throw (Builtin e), t)
       end) t.

(** [AssignmentTable.set_sorting_order(col, order)] *)
Definition AssignmentTable_set_sorting_order (col order : Z)
    (self : AssignmentTable) : res unit * AssignmentTable :=
  let self := {| table := table self; _class := _class self;
                 current_assignment := current_assignment self;
                 sorting_order := Some (col, order) |} in
  let assignments :=
    if (col =? 0)%Z then
      if (order =? 0)%Z then
        sorted String.ltb name false (get_assignment_list (_class self))
      else sorted String.ltb name true (get_assignment_list (_class self))
    else
      if (order =? 0)%Z then
        sorted Z.ltb students_submitted_count false
          (get_assignment_list (_class self))
      else
        sorted Z.ltb students_submitted_count true
          (get_assignment_list (_class self)) in
  let '(r, t) := AssignmentTable_set_rows_content assignments (table self) in
  (r, with_table t self).

(** [AssignmentTable(a_class)] *)
Definition AssignmentTable_init (a_class : FacultyClass)
    : res unit * AssignmentTable :=
  let t := set_column_count 2
             (set_row_count (assignment_count a_class) Table_init) in
  let self := {| table := t; _class := a_class; current_assignment := None;
                 sorting_order := None |} in
  match set_column_headers ["Assignment Name"; "Students Submitted"] t with
  | (Return _, t) => AssignmentTable_set_sorting_order 0 0 (with_table t self)
  | (Throw e, t) => (Throw e, with_table t self)
  end.

(** The loop of [AssignmentTable.select_row]: the first assignment whose
    name is the first cell of the row becomes the current one. *)
Fixpoint select_assignment_loop (assignments : list Assignment) (row : Z)
    (self : AssignmentTable) : res unit * AssignmentTable :=
  match assignments with
  | [] => (Return tt, self)
  | assignment :: rest =>
      match res_bind (res_of (list_getitem (rows_content (table self)) row))
              (λ cells, res_of (list_getitem cells 0)) with
      | Throw e => (Throw e, self)
      | Return cell =>
          if bool_decide (name assignment = cell) then
            (Return tt,
             {| table := table self; _class := _class self;
                current_assignment := Some assignment;
                sorting_order := sorting_order self |})
          else select_assignment_loop rest row self
      end
  end.

(** [AssignmentTable.select_row(row)] *)
Definition AssignmentTable_select_row (row : option Z)
    (self : AssignmentTable) : res unit * AssignmentTable :=
  let self := with_table (select_row row (table self)) self in
  match row with
  | Some row =>
      select_assignment_loop (get_assignment_list (_class self)) row self
  | None =>
      (Return tt,
       {| table := table self; _class := _class self;
          current_assignment := None;
          sorting_order := sorting_order self |})
  end.

(** The attributes of a [ClassWindowInfo] that sorting the assignment
    table touches. *)
Record ClassWindowInfo := {
  window_sorting_order : Z * Z;
  current_assignment_table : AssignmentTable;
}.

(** [ClassWindowInfo.change_assignments_sorting_order(col)] *)
Definition change_assignments_sorting_order (col : Z)
    (self : ClassWindowInfo) : res unit * ClassWindowInfo :=
  let order :=
    if (fst (window_sorting_order self) =? col)%Z then
      if (snd (window_sorting_order self) =? 0)%Z then (col, 1%Z)
      else (col, 0%Z)
    else (col, 0%Z) in
  let '(r, tbl) :=
    AssignmentTable_set_sorting_order col (snd order)
      (current_assignment_table self) in
  (r, {| window_sorting_order := order; current_assignment_table := tbl |}).

(** The assignments in the order that [set_sorting_order(col, order)]
    shows them. *)
Definition shown_order (col order : Z) (assignments : list Assignment)
    : list Assignment :=
  if (col =? 0)%Z then sorted String.ltb name (negb (order =? 0)%Z) assignments
  else sorted Z.ltb students_submitted_count (negb (order =? 0)%Z) assignments.

(** An assignment table whose rows are there for the assignments of its
    class: two columns, and as many rows as assignments. *)
Definition fits_class (self : AssignmentTable) : Prop :=
  well_shaped (table self)
  ∧ col_count (table self) = 2%Z
  ∧ length (rows_content (table self))
    = length (get_assignment_list (_class self)).

(** [a] may come before [b] when the table is sorted by [col] in
    [order]: by name for column 0 and by the number of students who
    submitted for any other column, ascending for order 0 and descending
    for any other order. *)
Definition in_shown_order (col order : Z) (a b : Assignment) : Prop :=
  if (col =? 0)%Z then
    if (order =? 0)%Z then String.le (name a) (name b)
    else String.le (name b) (name a)
  else
    if (order =? 0)%Z
    then (students_submitted_count a ≤ students_submitted_count b)%Z
    else (students_submitted_count b ≤ students_submitted_count a)%Z.

(** [a] and [b] have the same key for the sort by [col]. *)
Definition same_key (col : Z) (a b : Assignment) : Prop :=
  if (col =? 0)%Z then name a = name b
  else students_submitted_count a = students_submitted_count b.

#[global] Instance same_key_dec (col : Z) (a b : Assignment) :
  Decision (same_key col a b).
Proof. unfold same_key. destruct (col =? 0)%Z; apply _. Defined.


Definition example_class : FacultyClass :=
  {| assignment_count := 3;
     get_assignment_list :=
       [ {| name := "hw2"; is_published := false;
            students_submitted_count := 0 |};
         {| name := "hw10"; is_published := true;
            students_submitted_count := 7 |};
         {| name := "hw1"; is_published := true;
            students_submitted_count := 12 |} ] |}.

(** ** [gkeepcore/user_interface.py]: [JsonInfo] on any info dictionary *)

(** What [json.load] builds, as far as the info dictionary goes: [None],
    booleans, integers, text and dictionaries with text keys.  Text is a
    sequence of characters, one [ascii] each. *)
Inductive json :=
  | JNull
  | JBool (b : bool)
  | JInt (z : Z)
  | JStr (s : string)
  | JDict (items : list (string * json)).

Definition res_map {A B} (f : A → B) (r : res A) : res B :=
  res_bind r (λ a, Return (f a)).

(** [v[key]] for a text key: only a dictionary has such items. *)
Definition py_getitem (v : json) (key : string) : res json :=
  match v with
  | JDict items => res_of (getitem items key)
  | _ => Throw TypeError
  end.

Fixpoint characters (s : string) : list string :=
  match s with
  | EmptyString => []
  | String c rest => String c EmptyString :: characters rest
  end.

(** [list(v)]: the keys of a dictionary, the characters of a text. *)
Definition py_list (v : json) : res (list string) :=
  match v with
  | JDict items => Return (keys items)
  | JStr s => Return (characters s)
  | _ => Throw TypeError
  end.

(** [len(v)] *)
Definition py_len (v : json) : res Z :=
  match v with
  | JDict items => Return (Z.of_nat (length items))
  | JStr s => Return (Z.of_nat (String.length s))
  | _ => Throw TypeError
  end.

(** [v != 0]: [False] is equal to [0], as is the integer [0]; nothing else
    here is. *)
Definition py_ne_zero (v : json) : bool :=
  match v with
  | JInt z => negb (z =? 0)%Z
  | JBool b => b
  | _ => true
  end.

(** [v is not None] *)
Definition py_is_not_None (v : json) : bool :=
  match v with
  | JNull => false
  | _ => true
  end.

(** [v[k1][k2]...] *)
Fixpoint py_path (v : json) (path : list string) : res json :=
  match path with
  | [] => Return v
  | key :: rest => res_bind (py_getitem v key) (λ v', py_path v' rest)
  end.

Module Info.




(** [JsonInfo.student_list(class_name)] *)
Definition student_list (info_dict : json) (class_name : string)
    : res (list string) :=
  res_bind (py_path info_dict [class_name; "students"]) py_list.

(** [JsonInfo.assignment_count(class_name)] *)
Definition assignment_count (info_dict : json) (class_name : string)
    : res Z :=
  res_bind (py_path info_dict [class_name; "assignments"]) py_len.

(** [JsonInfo.assignment_list(class_name)] *)
Definition assignment_list (info_dict : json) (class_name : string)
    : res (list string) :=
  res_bind (py_path info_dict [class_name; "assignments"]) py_list.

(** [JsonInfo.is_published(class_name, assignment)] *)
Definition is_published (info_dict : json) (class_name assignment : string)
    : res json :=
  py_path info_dict [class_name; assignment; "published"].

(** [JsonInfo.assignment_hash(class_name, assignment)] *)
Definition assignment_hash (info_dict : json)
    (class_name assignment : string) : res json :=
  py_path info_dict [class_name; assignment; "hash"].

(** [JsonInfo.assignment_path(class_name, assignment)] *)
Definition assignment_path (info_dict : json)
    (class_name assignment : string) : res json :=
  py_path info_dict [class_name; assignment; "path"].

(** [JsonInfo.submission_count(class_name, assignment, username)] *)
Definition submission_count (info_dict : json)
    (class_name assignment uname : string) : res json :=
  py_path info_dict
    [class_name; "assignments"; assignment; "students_repos"; uname;
     "submission_count"].

(** [JsonInfo.assignment_by_student_hash(class_name, assignment,
    username)] *)
Definition assignment_by_student_hash (info_dict : json)
    (class_name assignment uname : string) : res json :=
  py_path info_dict
    [class_name; "assignments"; assignment; "students_repos"; uname; "hash"].

(** The loop of [students_submitted_list] over the students still to
    look at; [student_submitted_count] runs the same loop and counts. *)
Fixpoint submitted_among (info_dict : json) (class_name assignment : string)
    (students : list string) : res (list string) :=
  match students with
  | [] => Return []
  | student :: rest =>
      res_bind (submission_count info_dict class_name assignment student)
        (λ count,
      res_bind (submitted_among info_dict class_name assignment rest)
        (λ submitted,
      Return (if py_ne_zero count then student :: submitted
              else submitted)))
  end.

(** [JsonInfo.students_submitted_list(class_name, assignment)] *)
Definition students_submitted_list (info_dict : json)
    (class_name assignment : string) : res (list string) :=
  res_bind (student_list info_dict class_name)
    (submitted_among info_dict class_name assignment).

Fixpoint count_submitted (info_dict : json) (class_name assignment : string)
    (students : list string) : res Z :=
  match students with
  | [] => Return 0%Z
  | student :: rest =>
      res_bind (submission_count info_dict class_name assignment student)
        (λ count,
      res_bind (count_submitted info_dict class_name assignment rest)
        (λ submitted,
      Return (if py_ne_zero count then (submitted + 1)%Z else submitted)))
  end.

(** [JsonInfo.student_submitted_count(class_name, assignment)] *)
Definition student_submitted_count (info_dict : json)
    (class_name assignment : string) : res Z :=
  res_bind (student_list info_dict class_name)
    (count_submitted info_dict class_name assignment).

(** The loop of [assignments_by_student_list]. *)
Fixpoint assigned_among (info_dict : json) (class_name uname : string)
    (assignments : list string) : res (list string) :=
  match assignments with
  | [] => Return []
  | an_assignment :: rest =>
      res_bind
        (py_path info_dict
           [class_name; "assignments"; an_assignment; "students_repos";
            uname])
        (λ student_assignment,
      res_bind (assigned_among info_dict class_name uname rest)
        (λ student_assignments,
      Return (if py_is_not_None student_assignment
              then an_assignment :: student_assignments
              else student_assignments)))
  end.

(** [JsonInfo.assignments_by_student_list(class_name, username)] *)
Definition assignments_by_student_list (info_dict : json)
    (class_name uname : string) : res (list string) :=
  res_bind (assignment_list info_dict class_name)
    (assigned_among info_dict class_name uname).

End Info.

Definition example_info_dict : json :=
  JDict
    [("cs101",
      JDict
        [("students",
          JDict [("ada", JDict [("last_first_username",
                                 JStr "lovelace_ada_ada")]);
                 ("bob", JDict [("last_first_username",
                                 JStr "builder_bob_bob")])]);
         ("assignments",
          JDict
            [("hw1",
              JDict
                [("published", JBool true);
                 ("students_repos",
                  JDict [("ada", JDict [("hash", JStr "a1");
                                        ("submission_count", JInt 2)]);
                         ("bob", JDict [("hash", JStr "b2");
                                        ("submission_count", JInt 0)])])])])])].

(** ** [gkeepgui/class_information.py]: where the GUI looks for a
    submission *)

(** [os.path.join(a, *p)] *)
Definition os_path_join (a : string) (p : list string) : string :=
  foldl Py.path_join a p.

(** State, with the exceptions of the GUI. *)
Definition MX (A : Type) : Type := world → res A * world.

(** Code that raises only the exceptions of the first part, run here. *)
Definition run_M {A} (m : M A) : MX A :=
  λ w, let '(r, w') := m w in (res_of r, w').

(** [Submission.set_fetched_path()], given the [fetched_path] of the
    submission's assignment and the [last_first_username] of its
    student. *)
Definition Submission_set_fetched_path
    (assignment_fetched_path : option string) (last_first : string)
    (self : Submission) : Submission :=
  match assignment_fetched_path with
  | Some path =>
      {| fetched_path := Some (os_path_join path ["submissions"; last_first]);
         server_hash := server_hash self |}
  | None => {| fetched_path := None; server_hash := server_hash self |}
  end.

(** The attributes of an [Assignment] that [set_fetched_path] reads and
    writes; [paths_submissions] is what [get_submission_list()] returns,
    each submission with the [last_first_username] of its student. *)
Record AssignmentPaths := {
  paths_name : string;
  paths_fetched_path : option string;
  paths_submissions : list (string * Submission);
}.

(** [Assignment.set_fetched_path(path)]: the assignment after it; when the
    path is not a directory, [GuiFileException] with that path is raised
    before anything is set. *)
Definition Assignment_set_fetched_path (path : string)
    (self : AssignmentPaths) : MX AssignmentPaths :=
  λ w,
    match os_path_isdir path w with
    | (Ok true, w') =>
        let fetched := os_path_join path [paths_name self] in
        (Return
           {| paths_name := paths_name self;
              paths_fetched_path := Some fetched;
              paths_submissions :=
                (λ '(last_first, submission),
                   (last_first,
                    Submission_set_fetched_path (Some fetched) last_first
                      submission))
                  <$> paths_submissions self |}, w')
    | (Ok false, w') => (Throw (GuiFileException path), w')
    | (Raise e, w') => (Throw (Builtin e), w')
    end.

(** Line 174 of [fetch_assignment_submissions]: the directory that it
    hands to [fetch_student_submission] for an assignment. *)
Definition assignment_submissions_path_of
    (class_submission_path assignment_name : string) : string :=
  os_path_join class_submission_path [assignment_name; "submissions"].

(** ** [gkeepgui/window_info.py]: the colour of a submission's row *)

(** [SubmissionTable.set_row_color(submission)], given the user name of
    the submission's student and its submission count: the dictionary
    [row_color] after it. *)
Definition set_row_color (uname : string) (count : Z)
    (submission : Submission) (row_color : dict Z) : MX (dict Z) :=
  λ w,
    if (count =? 0)%Z then (Return (setitem row_color uname 0%Z), w)
    else
      match run_M (is_fetched submission) w with
      | (Return true, w') => (Return (setitem row_color uname 1%Z), w')
      | (Return false, w') => (Return (setitem row_color uname 2%Z), w')
      | (Throw e, w') => (Throw e, w')
      end.

(** The example world with the destination directory in place. *)
Definition example_world_with_destination : world :=
  {| directories :=
       <["/grading" := PlainDirectory]> (directories example_world);
     remotes := remotes example_world;
     hash_cache := ∅;
     git_log := [] |}.

Definition example_assignment_paths : AssignmentPaths :=
  {| paths_name := "hw1";
     paths_fetched_path := None;
     paths_submissions :=
       [("lovelace_ada_ada", {| fetched_path := None; server_hash := "a1" |})]
  |}.

(** ** [gkeepclient/fetch_submissions.py]: the rest *)

(** [JsonInfo.assignment_list(class_name)] *)
Definition assignment_list (self : JsonInfo) (class_name : string)
    : result (list string) :=
  result_bind (getitem (info_dict self) class_name)
    (λ c, Ok (keys (j_assignments c))).

(** What is outside the program when directories are made:
    [confirmation] is the answer of the user to a prompt of
    [gkeepclient.text_ui.confirmation]; [leading_directories] are the
    directories on the way to a path, outermost first, which [os.makedirs]
    makes where they are missing; [makedirs_error] is the [OSError] that
    [os.makedirs] meets at a path, if it meets one, and
    [made_before_error] says how many of the leading directories it had
    got past by then. *)
Record terminal := {
  confirmation : string → bool;
  makedirs_error : string → option string;
  leading_directories : string → list string;
  made_before_error : string → nat;
}.

(** [JsonInfo.reports_path] and [JsonInfo.reports_hash], which
    [fetch_assignment_submissions] calls and the sources do not define:
    parameters. *)
Record reports_info := {
  reports_path : string → string → result string;
  reports_hash : string → string → result string;
}.

(** [os.mkdir(path)] where nothing is in the way; a directory that exists
    is left as it is. *)
Definition mkdir_missing (path : string) (d : gmap string directory)
    : gmap string directory :=
  match d !! path with
  | Some _ => d
  | None => <[path := PlainDirectory]> d
  end.

(** [os.makedirs(path)]: the missing directories on the way and the path
    itself become directories, or an [OSError] is met, given here as a
    value since the one caller catches it at once.  The leading
    directories made before the error stay.  A path that is a directory
    already is such an error, and nothing is made. *)
Definition os_makedirs (term : terminal) (path : string)
    : M (option string) :=
  w <- get_world ;;
  match directories w !! path, makedirs_error term path with
  | Some _, _ => ret (Some "File exists")
  | None, Some e =>
      modify_world
        (set_directories
           (λ d, foldr mkdir_missing d
                   (take (made_before_error term path)
                      (leading_directories term path))))
      ;;; ret (Some e)
  | None, None =>
      modify_world
        (set_directories
           (λ d, <[path := PlainDirectory]>
                   (foldr mkdir_missing d (leading_directories term path))))
      ;;; ret None
  end.

(** [create_dir_if_non_existent(dir_path, confirm)] *)
Definition create_dir_if_non_existent (term : terminal) (dir_path : string)
    (confirm : bool) : M unit :=
  is_dir <- os_path_isdir dir_path ;;
  if negb is_dir then
    if confirm
       && negb (confirmation term
                  (dir_path +:+ " does not exist. Create it now?"))
    then raise (GkeepException "Cannot fetch submissions")
    else
      failure <- os_makedirs term dir_path ;;
      match failure with
      | Some e => raise (GkeepException ("Error creating directory: " +:+ e))
      | None => ret tt
      end
  else ret tt.

(** [fetch_assignment_submissions(class_name, assignment_name,
    class_submission_path, info)]: the outcome for the reports repository,
    then those of the students. *)
Definition fetch_assignment_submissions (env : environment)
    (term : terminal) (reports : reports_info) (info : JsonInfo)
    (class_name assignment_name class_submission_path : string)
    : M (list outcome) :=
  let assignment_submissions_path :=
    os_path_join class_submission_path [assignment_name; "submissions"] in
  create_dir_if_non_existent term assignment_submissions_path false ;;;
  let assignment_reports_path :=
    os_path_join class_submission_path [assignment_name; "reports"] in
  remote_reports_path <-
    lift (reports_path reports class_name assignment_name) ;;
  remote_reports_hash <-
    lift (reports_hash reports class_name assignment_name) ;;
  remote_git_url <-
    lift (build_clone_url (config env) remote_reports_path) ;;
  is_dir <- os_path_isdir assignment_reports_path ;;
  o <- (if is_dir then
          pull_repo_if_updated assignment_reports_path remote_git_url
            remote_reports_hash
        else clone_repo assignment_reports_path remote_git_url) ;;
  os <- fetch_student_submissions env info class_name assignment_name
          assignment_submissions_path ;;
  ret (o :: os).

(** The loop [for assignment_name in assignments] of
    [fetch_submissions]. *)
Fixpoint fetch_each_assignment (env : environment) (term : terminal)
    (reports : reports_info) (info : JsonInfo)
    (class_name destination_path : string) (assignments : list string)
    : M (list (list outcome)) :=
  match assignments with
  | [] => ret []
  | assignment_name :: rest =>
      os <- fetch_assignment_submissions env term reports info class_name
              assignment_name destination_path ;;
      oss <- fetch_each_assignment env term reports info class_name
               destination_path rest ;;
      ret (os :: oss)
  end.

(** [fetch_submissions(class_name, assignment_name, destination_path)],
    for a parsed configuration, a connected server and a class that
    exists; [info] is what [server_interface.get_info()] returns. *)
Definition fetch_submissions (env : environment) (term : terminal)
    (reports : reports_info) (info : JsonInfo)
    (class_name assignment_name destination_path : string)
    : M (list (list outcome)) :=
  create_dir_if_non_existent term destination_path true ;;;
  assignments <-
    (if String.eqb assignment_name "all" then
       lift (assignment_list info class_name)
     else
       known <- lift (assignment_list info class_name) ;;
       if negb (bool_decide (assignment_name ∈ known)) then
         raise (GkeepException
                  ("Assignment " +:+ assignment_name
                   +:+ " does not exist in class " +:+ class_name))
       else ret [assignment_name]) ;;
  fetch_each_assignment env term reports info class_name destination_path
    assignments.

(** A user who agrees to everything, on a disk where directories can be
    made; and one who declines. *)
Definition example_terminal : terminal :=
  {| confirmation := λ _, true;
     makedirs_error := λ _, None;
     leading_directories := λ path,
       if String.eqb path "/grading/hw1/submissions"
       then ["/grading"; "/grading/hw1"] else [];
     made_before_error := λ _, 0%nat |}.

Definition example_declining_terminal : terminal :=
  {| confirmation := λ _, false;
     makedirs_error := λ _, None;
     leading_directories := λ _, [];
     made_before_error := λ _, 0%nat |}.

(** A disk on which [/grading] can be made but [/grading/hw1] cannot. *)
Definition example_failing_terminal : terminal :=
  {| confirmation := λ _, true;
     makedirs_error := λ path,
       if String.eqb path "/grading/hw1/submissions"
       then Some "[Errno 28] No space left on device: '/grading/hw1'"
       else None;
     leading_directories := λ path,
       if String.eqb path "/grading/hw1/submissions"
       then ["/grading"; "/grading/hw1"] else [];
     made_before_error := λ _, 1%nat |}.

(** The reports repository of the example: its remote does not answer. *)
Definition example_reports : reports_info :=
  {| reports_path := λ _ _, Ok "/home/prof/reports/cs101/hw1.git";
     reports_hash := λ _ _, Ok "r9" |}.

(** The class [JsonInfo] of [gkeepcore/user_interface.py] as it stands: it
    defines neither method, so looking one up on an instance raises
    [AttributeError]. *)
Definition JsonInfo_reports : reports_info :=
  {| reports_path := λ _ _, Raise (AttributeError "reports_path");
     reports_hash := λ _ _, Raise (AttributeError "reports_hash") |}.
(** * Properties *)

(** Propositional clean-up: split, destruct, and close with equalities. *)
Ltac settle :=
  repeat (intros; match goal with
          | |- _ ∧ _ => split
          | |- _ ↔ _ => split
          | H : _ ∧ _ |- _ => destruct H
          | H : ∃ _, _ |- _ => destruct H
          | H : _ ∨ _ |- _ => destruct H
          end);
  intros; simplify_eq/=; try done; try congruence; eauto.

(** ** Helper lemmas on strings *)

Lemma append_empty_r (s : string) : s +:+ "" = s.
Proof.
  induction s as [|c s IH]; [done |].
  change (String c (s +:+ "") = String c s). by f_equal.
Qed.

(** ** Clone URLs *)

Lemma build_clone_url_eq (config : client_configuration) (path : string) :
  build_clone_url config path
  = Ok ("ssh://" +:+ server_username config +:+ "@" +:+ server_host config
          +:+ ":" +:+ Py.str (server_ssh_port config) +:+ "/" +:+ path).
Proof.
  unfold build_clone_url, Py.format.
  cbv -[String.append Py.str server_username server_host server_ssh_port].
  cbn [Py.str]. by rewrite append_empty_r.
Qed.

(** C8. The clone URL is the text [ssh://], the user name, [@], the host,
    [:], the port as [str] prints it, [/] and then the server path exactly as
    given, for every configuration and every path; for user [prof], host
    [cs.example.edu], port 2222 and path [/home/prof/class/hw1] it is
    [ssh://prof@cs.example.edu:2222//home/prof/class/hw1], with the doubled
    slash kept. *)
Theorem build_clone_url_verbatim :
  (∀ username host port path,
     build_clone_url
       {| server_username := username; server_host := host;
          server_ssh_port := port |} path
     = Ok ("ssh://" +:+ username +:+ "@" +:+ host +:+ ":" +:+ Py.str port
             +:+ "/" +:+ path))
  ∧ build_clone_url
      {| server_username := "prof"; server_host := "cs.example.edu";
         server_ssh_port := Py.Int 2222 |} "/home/prof/class/hw1"
    = Ok "ssh://prof@cs.example.edu:2222//home/prof/class/hw1"
  ∧ build_clone_url
      {| server_username := "prof"; server_host := "cs.example.edu";
         server_ssh_port := Py.Str "2222" |} "/home/prof/class/hw1"
    = Ok "ssh://prof@cs.example.edu:2222//home/prof/class/hw1".
Proof.
  split; [| split; vm_compute; reflexivity].
  intros username host port path. apply build_clone_url_eq.
Qed.

(** ** Faculty rows *)

Lemma split_cons (sep : ascii) (s : string) :
  ∃ piece pieces, Py.split sep s = piece :: pieces.
Proof.
  destruct s as [|c s]; simpl; [by eauto |].
  destruct (Ascii.eqb c sep); [by eauto |].
  destruct (Py.split sep s); eauto.
Qed.

(** A single piece: the separator does not occur. *)
Lemma split_one (sep : ascii) (s d : string) :
  Py.split sep s = [d] ↔ d = s ∧ Py.contains sep s = false.
Proof.
  revert d. induction s as [|c s IH]; intros d; simpl.
  - settle.
  - destruct (Ascii.eqb c sep) eqn:Hc; simpl.
    + destruct (split_cons sep s) as (p & ps & Hs). rewrite Hs. settle.
    + destruct (Py.split sep s) as [|p ps] eqn:Hs.
      { destruct (split_cons sep s) as (? & ? & ?). congruence. }
      split.
      * intros [= <- ->]. destruct (IH p) as [[-> ?] _]; done.
      * intros [-> Hn]. destruct (IH s) as [_ IH2].
        specialize (IH2 (conj eq_refl Hn)). by simplify_eq.
Qed.

(** Two pieces: the separator occurs once, between them. *)
Lemma split_two (sep : ascii) (s u d : string) :
  Py.split sep s = [u; d] ↔
  s = u +:+ String sep d ∧ Py.contains sep u = false
  ∧ Py.contains sep d = false.
Proof.
  revert u. induction s as [|c s IH]; intros u; simpl.
  - split; [done |]. intros [H _]. by destruct u.
  - destruct (Ascii.eqb c sep) eqn:Hc.
    + apply Ascii.eqb_eq in Hc as ->. split.
      * intros [= <- Hs]. apply split_one in Hs as [-> ?]. done.
      * intros (Hs & Hu & Hd). destruct u as [|c' u].
        -- injection Hs as ->. f_equal. by apply split_one.
        -- injection Hs as <- _. simpl in Hu.
           by rewrite Ascii.eqb_refl in Hu.
    + destruct (Py.split sep s) as [|p ps] eqn:Hs.
      { destruct (split_cons sep s) as (? & ? & ?). congruence. }
      split.
      * intros [= <- ->]. destruct (IH p) as [IH1 _].
        destruct (IH1 eq_refl) as (-> & Hp & Hd).
        split_and!; [done | | done]. simpl. by rewrite Hc.
      * intros (Hsu & Hu & Hd). destruct u as [|c' u].
        -- injection Hsu as -> _. by rewrite Ascii.eqb_refl in Hc.
        -- injection Hsu as <- ->. simpl in Hu. rewrite Hc in Hu.
           destruct (IH u) as [_ IH2].
           specialize (IH2 (conj eq_refl (conj Hu Hd))). by simplify_eq.
Qed.

(** C10. [from_csv_row] returns a [Faculty] exactly for the rows with three
    fields whose e-mail address splits into two parts at [@]; the user name
    of that [Faculty] is then the part of the address before the [@] (and
    holds no [@]), and the other attributes are the fields of the row.  For
    every other row it raises [FacultyError]. *)
Theorem from_csv_row_spec (csv_row : list string) :
  (valid_faculty_row csv_row ↔ ∃ f, from_csv_row csv_row = Ok f)
  ∧ (∀ f, from_csv_row csv_row = Ok f →
       csv_row = [last_name f; first_name f; email_address f]
       ∧ ∃ domain,
           email_address f = username f +:+ "@" +:+ domain
           ∧ Py.contains "@" (username f) = false
           ∧ Py.contains "@" domain = false)
  ∧ (¬ valid_faculty_row csv_row →
       ∃ problem, from_csv_row csv_row = Raise (FacultyError problem)).
Proof.
  unfold from_csv_row, valid_faculty_row.
  destruct csv_row as [|last [|first [|email [|extra more]]]];
    simpl; try (split_and!; [settle | settle | by eauto]).
  assert (Hlen : ∀ n : nat,
            (3%nat = 3%nat ∧ ∃ email0, Some email = Some email0
                       ∧ length (Py.split "@" email0) = n)
            ↔ length (Py.split "@" email) = n).
  { intros n. split; [by intros (_ & ? & [= <-] & ?) | by eauto]. }
  rewrite Hlen. clear Hlen.
  destruct (Py.split "@" email) as [|u [|d [|x xs]]] eqn:Hs; simpl.
  - split_and!; [settle | settle | by eauto].
  - split_and!; [settle | settle | by eauto].
  - apply split_two in Hs as (He & Hu & Hd).
    split_and!; [settle | | settle].
    intros f [= <-]. simpl. split; [done |]. by exists d.
  - split_and!; [settle | settle | by eauto].
Qed.

(** ** The response poller *)

Lemma produce_Terminal (self : ServerResponsePoller)
    (source : list server_message) :
  produce self Terminal source = [].
Proof. by destruct source. Qed.

(** What a polling session produces: warnings, then one terminal
    response. *)
Lemma produce_Polling_shape (self : ServerResponsePoller)
    (source : list server_message) :
  ∃ warnings last,
    produce self Polling source = warnings ++ [last]
    ∧ Forall (λ r, response_type r = WARNING) warnings
    ∧ is_terminal (response_type last) = true.
Proof.
  induction source as [|m rest IH]; simpl.
  - by exists [], timeout_response.
  - destruct (negb _); [done |].
    destruct (_ <? _)%nat; [by exists [], timeout_response |].
    unfold next_state. destruct (msg_type m) eqn:Hm; simpl;
      rewrite ?produce_Terminal;
      try (exists [], (response_of m); simpl; by rewrite Hm).
    destruct IH as (ws & l & -> & Hws & Hl).
    exists (response_of m :: ws), l. split_and!; [done | | done].
    by constructor.
Qed.

Lemma nothing_after_terminal (warnings before after : list ServerResponse)
    (last r : ServerResponse) :
  Forall (λ r, response_type r = WARNING) warnings →
  warnings ++ [last] = before ++ r :: after →
  is_terminal (response_type r) = true →
  before = warnings ∧ r = last ∧ after = [].
Proof.
  intros Hws. revert before.
  induction Hws as [|w ws Hw Hws IH]; intros before Heq Hr.
  - destruct before as [|b [|b' before]]; simplify_eq/=; done.
  - destruct before as [|b before]; simplify_eq/=.
    + by rewrite Hw in Hr.
    + destruct (IH before) as (-> & -> & ->); done.
Qed.

(** C3. Every polling session surfaces warnings and then exactly one
    terminal response, so at most one terminal response, and nothing at all
    after it; WARNING is not terminal; and for a source that delivers
    WARNING, WARNING, SUCCESS for the tag in time the sequence is exactly
    those three responses. *)
Theorem response_generator_single_terminal :
  (∀ self source,
     length (filter (λ r, is_terminal (response_type r) = true)
               (response_generator self source)) ≤ 1
     ∧ ∀ before r after,
         response_generator self source = before ++ r :: after →
         is_terminal (response_type r) = true →
         after = [] ∧ Forall (λ r, response_type r = WARNING) before)
  ∧ is_terminal WARNING = false
  ∧ is_terminal SUCCESS = true ∧ is_terminal ERROR = true
  ∧ is_terminal TIMEOUT = true
  ∧ ∀ tag T t1 t2 t3 text1 text2 text3,
      (t1 ≤ T → t2 ≤ T → t3 ≤ T →
       response_generator {| operation_tag := tag; timeout := T |}
         [ {| arrival := t1; msg_tag := tag; msg_type := WARNING;
              msg_text := text1 |};
           {| arrival := t2; msg_tag := tag; msg_type := WARNING;
              msg_text := text2 |};
           {| arrival := t3; msg_tag := tag; msg_type := SUCCESS;
              msg_text := text3 |} ]
       = [ {| response_type := WARNING; message := Some text1 |};
           {| response_type := WARNING; message := Some text2 |};
           {| response_type := SUCCESS; message := Some text3 |} ])%nat.
Proof.
  split_and!; try done.
  - intros self source. unfold response_generator.
    destruct (produce_Polling_shape self source) as (ws & l & -> & Hws & Hl).
    split.
    + rewrite filter_app, length_app.
      assert (filter (λ r, is_terminal (response_type r) = true) ws = [])
        as ->.
      { induction Hws as [|w ws Hw Hws IH]; [done |].
        rewrite filter_cons, decide_False; [done |]. by rewrite Hw. }
      simpl. rewrite filter_cons. case_decide; simpl; lia.
    + intros before r after Heq Hr.
      by destruct (nothing_after_terminal _ _ _ _ _ Hws Heq Hr)
        as (-> & -> & ->).
  - intros tag T t1 t2 t3 text1 text2 text3 H1 H2 H3.
    unfold response_generator. simpl. rewrite String.eqb_refl. simpl.
    apply Nat.ltb_ge in H1, H2, H3. by rewrite H1, H2, H3.
Qed.

(** C4. When no message with the poller's tag arrives within the timeout,
    the poller produces the synthetic TIMEOUT response and nothing else; it
    is a response like the others, not an exception. *)
Theorem response_generator_timeout (self : ServerResponsePoller)
    (source : list server_message) :
  Forall (λ m, msg_tag m = operation_tag self →
               (timeout self < arrival m)%nat) source →
  response_generator self source = [timeout_response]
  ∧ response_type timeout_response = TIMEOUT
  ∧ is_terminal (response_type timeout_response) = true.
Proof.
  intros Hlate. split; [| done].
  unfold response_generator.
  induction Hlate as [|m rest Hm Hrest IH]; simpl; [done |].
  destruct (String.eqb_spec (msg_tag m) (operation_tag self)) as [Htag|];
    simpl; [| done].
  apply Hm, Nat.ltb_lt in Htag. by rewrite Htag.
Qed.

Lemma response_generator_timeout_witness :
  response_generator {| operation_tag := "PUBLISH"; timeout := 1 |}
    [ {| arrival := 0; msg_tag := "FETCH"; msg_type := SUCCESS;
         msg_text := "done" |};
      {| arrival := 2; msg_tag := "PUBLISH"; msg_type := SUCCESS;
         msg_text := "published" |} ]
  = [timeout_response]
  ∧ response_type timeout_response = TIMEOUT
  ∧ is_terminal (response_type timeout_response) = true.
Proof.
  apply response_generator_timeout.
  repeat constructor; simpl; intros; (congruence || lia).
Defined.

(** ** Running monadic code *)

Ltac unfold_monad :=
  unfold bind, ret, raise, lift, try_except, get_world, modify_world,
    run_git in *.

(** ** [Submission.is_fetched] and the hash cache *)

Lemma is_cached_spec (cache : FetchedHashCache_object) (path : string)
    (w : world) :
  is_cached cache path w
  = (Ok (bool_decide (is_Some (hash_cache w !! path))), w).
Proof. done. Qed.

Lemma is_fetched_on_path (self : Submission) (path : string) (w : world) :
  fetched_path self = Some path →
  is_fetched self w =
    if bool_decide (is_Some (hash_cache w !! path)) then
      (Raise (AttributeError "get_hash"), w)
    else
      let w1 := set_git_log (λ l, l ++ [GitHeadHash path]) w in
      match local_head w path with
      | Some h =>
          (Ok (bool_decide (h = server_hash self)),
           set_hash_cache (<[path := h]>) w1)
      | None => (Raise (GkeepException path), w1)
      end.
Proof.
  intros Hpath. unfold is_fetched. rewrite Hpath.
  unfold FetchedHashCache, is_cached, getattr_None, git_head_hash, set_hash,
    local_head.
  unfold_monad. simpl.
  case_bool_decide as Hc; [done |].
  destruct (directories w !! path) as [[|[h|]]|]; simpl; try done.
  assert (hash_cache w !! path = None) as Hnone.
  { destruct (hash_cache w !! path) eqn:E; [| done].
    exfalso. apply Hc. eauto. }
  unfold set_hash_cache. simpl. rewrite Hnone.
  f_equal. f_equal. apply bool_decide_ext. split; congruence.
Qed.

(** C9. With a fetched path for which the hash cache answers "cached",
    [is_fetched] looks up [get_hash] on [local_hash], which is still [None],
    and so raises instead of returning a boolean.  It returns a boolean only
    without a fetched path (then [False]) or when the path is not cached
    (then the comparison of the hash just read with the server's). *)
Theorem is_fetched_raises_when_cached (self : Submission) (w : world) :
  (∀ path,
     fetched_path self = Some path →
     is_cached {| cache_base_path := path |} path w = (Ok true, w) →
     is_fetched self w = (Raise (AttributeError "get_hash"), w))
  ∧ (∀ b w',
       is_fetched self w = (Ok b, w') →
       fetched_path self = None
       ∨ ∃ path,
           fetched_path self = Some path
           ∧ is_cached {| cache_base_path := path |} path w = (Ok false, w))
  ∧ (fetched_path self = None → is_fetched self w = (Ok false, w))
  ∧ (∀ path h,
       fetched_path self = Some path →
       is_cached {| cache_base_path := path |} path w = (Ok false, w) →
       local_head w path = Some h →
       ∃ w', is_fetched self w
             = (Ok (bool_decide (h = server_hash self)), w')).
Proof.
  split_and!.
  - intros path Hpath Hc. rewrite (is_fetched_on_path _ path) by done.
    rewrite is_cached_spec in Hc. by injection Hc as ->.
  - intros b w' Hrun. destruct (fetched_path self) as [path|] eqn:Hpath;
      [right | by left].
    exists path. split; [done |]. rewrite is_cached_spec.
    rewrite (is_fetched_on_path _ path) in Hrun by done.
    by case_bool_decide.
  - intros Hnone. unfold is_fetched. by rewrite Hnone.
  - intros path h Hpath Hc Hh. rewrite (is_fetched_on_path _ path) by done.
    rewrite is_cached_spec in Hc. injection Hc as ->. rewrite Hh. eauto.
Qed.

(** C7, as the code has it.  Whenever [is_fetched] returns for a fetched
    path it has run [git_head_hash] once and stored the hash; a second
    invocation for the same path then finds the path cached and raises
    [AttributeError], without a git command, rather than returning the
    cached value. *)
Theorem is_fetched_twice (self : Submission) (path : string) (w w1 : world)
    (b : bool) :
  fetched_path self = Some path →
  is_fetched self w = (Ok b, w1) →
  issued (is_fetched self) w = [GitHeadHash path]
  ∧ hash_cache w1 !! path = local_head w path
  ∧ is_Some (hash_cache w1 !! path)
  ∧ is_fetched self w1 = (Raise (AttributeError "get_hash"), w1)
  ∧ issued (is_fetched self) w1 = [].
Proof.
  intros Hpath Hrun.
  assert (Hrun' := Hrun).
  rewrite (is_fetched_on_path _ path) in Hrun' by done.
  case_bool_decide as Hc; [done |].
  destruct (local_head w path) as [h|] eqn:Hh; [| done].
  injection Hrun' as <- <-.
  assert (Hcached : hash_cache
            (set_hash_cache <[path:=h]>
               (set_git_log (λ l, l ++ [GitHeadHash path]) w)) !! path
          = Some h).
  { simpl. apply lookup_insert_eq. }
  assert (Hsecond :
    is_fetched self
      (set_hash_cache <[path:=h]>
         (set_git_log (λ l, l ++ [GitHeadHash path]) w))
    = (Raise (AttributeError "get_hash"),
       set_hash_cache <[path:=h]>
         (set_git_log (λ l, l ++ [GitHeadHash path]) w))).
  { rewrite (is_fetched_on_path _ path) by done.
    rewrite Hcached. by rewrite bool_decide_true by eauto. }
  split_and!.
  - unfold issued. rewrite Hrun. simpl. by rewrite drop_app_length.
  - done.
  - rewrite Hcached. eauto.
  - done.
  - unfold issued. rewrite Hsecond. simpl. by rewrite drop_all.
Qed.

Lemma is_fetched_twice_witness :
  let w1 := (is_fetched example_submission example_gui_world).2 in
  issued (is_fetched example_submission) example_gui_world
  = [GitHeadHash "/grading/hw1/submissions/doe_jane_jdoe"]
  ∧ hash_cache w1 !! "/grading/hw1/submissions/doe_jane_jdoe"
    = local_head example_gui_world "/grading/hw1/submissions/doe_jane_jdoe"
  ∧ is_Some (hash_cache w1 !! "/grading/hw1/submissions/doe_jane_jdoe")
  ∧ is_fetched example_submission w1
    = (Raise (AttributeError "get_hash"), w1)
  ∧ issued (is_fetched example_submission) w1 = [].
Proof.
  apply (is_fetched_twice example_submission
           "/grading/hw1/submissions/doe_jane_jdoe" example_gui_world _ true).
  - reflexivity.
  - vm_compute. reflexivity.
Defined.

(** ** One target *)

Lemma world_eq (d : gmap string directory) (r c : gmap string string)
    (l : list git_call) (w : world) :
  directories w = d → remotes w = r → hash_cache w = c → git_log w = l →
  w = {| directories := d; remotes := r; hash_cache := c; git_log := l |}.
Proof. destruct w. simpl. by intros -> -> -> ->. Qed.

(** [sync_target] never raises: it returns the outcome of [entry_step] and
    leaves the world of [after_step]. *)
Lemma sync_target_run (t : target) (w : world) :
  sync_target t w = (Ok (step_outcome t w), after_step t w).
Proof.
  unfold sync_target, step_outcome, after_step, entry_step.
  unfold os_path_isdir, pull_repo_if_updated, clone_repo, is_non_bare_repo,
    git_head_hash, git_pull, git_clone_remote.
  unfold_monad. simpl.
  destruct (directories w !! t_path t) as [[|[h|]]|] eqn:Hd;
    repeat (simpl; rewrite ?Hd); simpl.
  - f_equal. symmetry. apply world_eq; simpl; try done.
    rewrite <- Hd. apply partial_alter_self.
  - case_bool_decide; repeat (simpl; rewrite ?Hd); simpl.
    + f_equal. symmetry. apply world_eq; simpl; try done.
      * rewrite <- Hd. apply partial_alter_self.
      * by rewrite <- app_assoc.
    + destruct (remotes w !! t_url t) eqn:Hr; repeat (simpl; rewrite ?Hd); simpl.
      * f_equal. symmetry. apply world_eq; simpl; try done.
        by rewrite <- !app_assoc.
      * f_equal. symmetry. apply world_eq; simpl; try done.
        -- rewrite <- Hd. apply partial_alter_self.
        -- by rewrite <- !app_assoc.
  - f_equal. symmetry. apply world_eq; simpl; try done.
    + rewrite <- Hd. apply partial_alter_self.
    + by rewrite <- app_assoc.
  - destruct (remotes w !! t_url t) eqn:Hr; repeat (simpl; rewrite ?Hd); simpl.
    + f_equal.
    + f_equal. symmetry. apply world_eq; simpl; try done.
      rewrite <- Hd. apply partial_alter_self.
Qed.

Lemma clone_repo_run (local_repo_path remote_url : string) (w : world) :
  directories w !! local_repo_path = None →
  clone_repo local_repo_path remote_url w
  = sync_target {| t_path := local_repo_path; t_url := remote_url;
                   t_hash := "" |} w.
Proof.
  intros Hd. unfold sync_target, os_path_isdir. unfold_monad. simpl.
  rewrite Hd. by rewrite bool_decide_false by (by intros [? ?]).
Qed.

Lemma pull_repo_if_updated_run (local_repo_path remote_url
    remote_head_hash : string) (w : world) :
  is_Some (directories w !! local_repo_path) →
  pull_repo_if_updated local_repo_path remote_url remote_head_hash w
  = sync_target {| t_path := local_repo_path; t_url := remote_url;
                   t_hash := remote_head_hash |} w.
Proof.
  intros Hd. unfold sync_target, os_path_isdir. unfold_monad. simpl.
  by rewrite bool_decide_true.
Qed.

(** Called on a path that is not a directory, [pull_repo_if_updated] finds
    no repository and returns. *)
Lemma pull_repo_if_updated_absent (local_repo_path remote_url
    remote_head_hash : string) (w : world) :
  directories w !! local_repo_path = None →
  pull_repo_if_updated local_repo_path remote_url remote_head_hash w
  = (Ok NotARepository,
     set_git_log (λ l, l ++ [IsNonBareRepo local_repo_path]) w).
Proof.
  intros Hd. unfold pull_repo_if_updated, is_non_bare_repo.
  unfold_monad. simpl. by rewrite Hd.
Qed.

Lemma fetch_student_submission_run (env : environment)
    (class_name assignment_name assignment_submission_path remote_head_hash
     uname last_first : string) (w : world) :
  ∃ url,
    build_clone_url (config env)
      (student_assignment_repo_path env (server_username (config env))
         class_name assignment_name (user_home_dir env uname)) = Ok url
    ∧ fetch_student_submission env class_name assignment_name
        assignment_submission_path remote_head_hash uname last_first w
      = sync_target
          {| t_path := Py.path_join assignment_submission_path last_first;
             t_url := url; t_hash := remote_head_hash |} w.
Proof.
  eexists. split; [apply build_clone_url_eq |].
  unfold fetch_student_submission. rewrite build_clone_url_eq.
  reflexivity.
Qed.

(** With a snapshot that has an entry for every student, the loop is the
    batch of the resolved targets: it does not raise, and gives one outcome
    for each student, in order. *)
Lemma fetch_each_student_run (env : environment) (info : JsonInfo)
    (class_name assignment_name assignment_submissions_path : string)
    (usernames : list string) (ts : list target) (w : world) :
  resolve_targets env info class_name assignment_name
    assignment_submissions_path usernames = Ok ts →
  fetch_each_student env info class_name assignment_name
    assignment_submissions_path usernames w
  = (Ok (batch_outcomes ts w), after_batch ts w)
  ∧ length ts = length usernames.
Proof.
  revert ts w. induction usernames as [|u rest IH]; intros ts w Hres.
  - by injection Hres as <-.
  - cbn [resolve_targets] in Hres. unfold resolve_target in Hres.
    cbn [fetch_each_student]. unfold bind at 1, lift at 1.
    destruct (assignment_by_student_hash _ _ _ _) as [rh|]; [| done].
    cbn [result_bind] in Hres. unfold bind at 1, lift at 1.
    destruct (last_first_username _ _ _) as [lf|]; [| done].
    cbn [result_bind] in Hres.
    rewrite build_clone_url_eq in Hres. cbn [result_bind] in Hres.
    destruct (resolve_targets _ _ _ _ _ rest) as [ts'|] eqn:Hrest; [| done].
    cbn [result_bind] in Hres. injection Hres as <-.
    unfold bind at 1.
    destruct (fetch_student_submission_run env class_name
                assignment_name assignment_submissions_path rh u lf w)
      as (url & Hurl & ->).
    rewrite build_clone_url_eq in Hurl. injection Hurl as <-.
    rewrite sync_target_run. unfold bind at 1.
    destruct (IH ts' (after_step
      {| t_path := Py.path_join assignment_submissions_path lf;
         t_url := "ssh://" +:+ server_username (config env) +:+ "@"
                  +:+ server_host (config env) +:+ ":"
                  +:+ Py.str (server_ssh_port (config env)) +:+ "/"
                  +:+ student_assignment_repo_path env
                        (server_username (config env)) class_name
                        assignment_name (user_home_dir env u);
         t_hash := rh |} w) eq_refl) as [-> IHlen].
    simpl. by rewrite IHlen.
Qed.

(** ** Batches of targets *)

Lemma remotes_after_step (t : target) (w : world) :
  remotes (after_step t w) = remotes w.
Proof.
  unfold after_step.
  by destruct (entry_step (remotes w) t (directories w !! t_path t))
    as [[? ?] ?].
Qed.

Lemma directories_after_step (t : target) (w : world) :
  directories (after_step t w)
  = partial_alter
      (λ _, (entry_step (remotes w) t (directories w !! t_path t)).1.2)
      (t_path t) (directories w).
Proof.
  unfold after_step.
  by destruct (entry_step (remotes w) t (directories w !! t_path t))
    as [[? ?] ?].
Qed.

Lemma git_log_after_step (t : target) (w : world) :
  git_log (after_step t w)
  = git_log w
    ++ (entry_step (remotes w) t (directories w !! t_path t)).2.
Proof.
  unfold after_step.
  by destruct (entry_step (remotes w) t (directories w !! t_path t))
    as [[? ?] ?].
Qed.

Lemma remotes_after_batch (ts : list target) (w : world) :
  remotes (after_batch ts w) = remotes w.
Proof.
  revert w. induction ts as [|t ts IH]; intros w; simpl; [done |].
  by rewrite IH, remotes_after_step.
Qed.

Lemma length_batch_outcomes (ts : list target) (w : world) :
  length (batch_outcomes ts w) = length ts.
Proof.
  revert w. induction ts as [|t ts IH]; intros w; simpl; [done |].
  by rewrite IH.
Qed.

Lemma batch_outcomes_app (l1 l2 : list target) (w : world) :
  batch_outcomes (l1 ++ l2) w
  = batch_outcomes l1 w ++ batch_outcomes l2 (after_batch l1 w).
Proof.
  revert w. induction l1 as [|t l1 IH]; intros w; simpl; [done |].
  by rewrite IH.
Qed.

Lemma after_batch_app (l1 l2 : list target) (w : world) :
  after_batch (l1 ++ l2) w = after_batch l2 (after_batch l1 w).
Proof.
  revert w. induction l1 as [|t l1 IH]; intros w; simpl; [done |].
  by rewrite IH.
Qed.

Lemma step_same_disk (t : target) (w w' : world) :
  same_disk w w' →
  step_outcome t w = step_outcome t w'
  ∧ same_disk (after_step t w) (after_step t w').
Proof.
  intros [Hd Hr]. unfold step_outcome, same_disk.
  rewrite !directories_after_step, !remotes_after_step.
  by rewrite Hd, Hr.
Qed.

Lemma batch_same_disk (ts : list target) (w w' : world) :
  same_disk w w' →
  batch_outcomes ts w = batch_outcomes ts w'
  ∧ same_disk (after_batch ts w) (after_batch ts w').
Proof.
  revert w w'. induction ts as [|t ts IH]; intros w w' Hs; simpl; [done |].
  destruct (step_same_disk t w w' Hs) as [-> Hs'].
  by destruct (IH _ _ Hs') as [-> ?].
Qed.

(** A transport error leaves the disk as it was. *)
Lemma failed_step_same_disk (t : target) (w : world) :
  failed (step_outcome t w) = true → same_disk (after_step t w) w.
Proof.
  unfold step_outcome, same_disk.
  rewrite directories_after_step, remotes_after_step.
  intros Hf. split; [| done].
  unfold entry_step in *.
  destruct (directories w !! t_path t) as [[|[h|]]|] eqn:Hd; simpl in *;
    try done.
  - case_bool_decide; simpl in *; [done |].
    destruct (remotes w !! t_url t); simpl in *; [done |].
    rewrite <- Hd. apply partial_alter_self.
  - destruct (remotes w !! t_url t); simpl in *; [done |].
    rewrite <- Hd. apply partial_alter_self.
Qed.

(** Taking a failed target out of the batch changes no other outcome. *)
Lemma batch_without_failed (l1 l2 : list target) (t : target) (w : world) :
  failed (step_outcome t (after_batch l1 w)) = true →
  ∃ outs2,
    batch_outcomes (l1 ++ t :: l2) w
    = batch_outcomes l1 w ++ step_outcome t (after_batch l1 w) :: outs2
    ∧ batch_outcomes (l1 ++ l2) w = batch_outcomes l1 w ++ outs2.
Proof.
  intros Hf. rewrite !batch_outcomes_app. simpl.
  destruct (batch_same_disk l2 _ _ (failed_step_same_disk _ _ Hf))
    as [-> _].
  eauto.
Qed.

Lemma resolve_targets_app (env : environment) (info : JsonInfo)
    (class_name assignment_name assignment_submissions_path : string)
    (l1 l2 : list string) (ts : list target) :
  resolve_targets env info class_name assignment_name
    assignment_submissions_path (l1 ++ l2) = Ok ts →
  ∃ ts1 ts2,
    ts = ts1 ++ ts2
    ∧ length ts1 = length l1
    ∧ resolve_targets env info class_name assignment_name
        assignment_submissions_path l1 = Ok ts1
    ∧ resolve_targets env info class_name assignment_name
        assignment_submissions_path l2 = Ok ts2.
Proof.
  revert ts. induction l1 as [|u l1 IH]; intros ts Hres.
  - exists [], ts. simpl in *. done.
  - cbn [app resolve_targets] in *.
    destruct (resolve_target _ _ _ _ _ u) as [t|]; [| done].
    cbn [result_bind] in *.
    destruct (resolve_targets _ _ _ _ _ (l1 ++ l2)) as [ts'|]; [| done].
    cbn [result_bind] in *. injection Hres as <-.
    destruct (IH ts' eq_refl) as (ts1 & ts2 & -> & Hlen & -> & ->).
    exists (t :: ts1), ts2. simpl. by rewrite Hlen.
Qed.

Lemma resolve_targets_join (env : environment) (info : JsonInfo)
    (class_name assignment_name assignment_submissions_path : string)
    (l1 l2 : list string) (ts1 ts2 : list target) :
  resolve_targets env info class_name assignment_name
    assignment_submissions_path l1 = Ok ts1 →
  resolve_targets env info class_name assignment_name
    assignment_submissions_path l2 = Ok ts2 →
  resolve_targets env info class_name assignment_name
    assignment_submissions_path (l1 ++ l2) = Ok (ts1 ++ ts2).
Proof.
  revert ts1. induction l1 as [|u l1 IH]; intros ts1 H1 H2.
  - by injection H1 as <-.
  - cbn [app resolve_targets] in *.
    destruct (resolve_target _ _ _ _ _ u) as [t|]; [| done].
    cbn [result_bind] in *.
    destruct (resolve_targets _ _ _ _ _ l1) as [ts'|]; [| done].
    cbn [result_bind] in *. injection H1 as <-.
    by rewrite (IH ts' eq_refl H2).
Qed.

(** [clone_repo] turns the transport error of the clone into a report. *)
Lemma clone_repo_catches (local_repo_path remote_url : string)
    (w w1 : world) (e : exn) :
  git_clone_remote remote_url local_repo_path w = (Raise e, w1) →
  clone_repo local_repo_path remote_url w = (Ok (CloneError e), w1).
Proof.
  unfold clone_repo, git_clone_remote. unfold_monad. simpl.
  destruct (remotes w !! remote_url), (directories w !! local_repo_path);
    simpl; intros [= <- <-]; done.
Qed.

(** So does [pull_repo_if_updated] with the transport error of the pull,
    which runs in the world that the two queries before it left. *)
Lemma pull_repo_if_updated_catches (local_repo_path remote_url
    remote_head_hash h : string) (w w1 : world) (e : exn) :
  local_head w local_repo_path = Some h →
  h ≠ remote_head_hash →
  git_pull local_repo_path remote_url
    (git_head_hash local_repo_path
       (is_non_bare_repo local_repo_path w).2).2 = (Raise e, w1) →
  pull_repo_if_updated local_repo_path remote_url remote_head_hash w
  = (Ok (PullError e), w1).
Proof.
  unfold local_head, pull_repo_if_updated, is_non_bare_repo, git_head_hash,
    git_pull.
  unfold_monad. simpl.
  destruct (directories w !! local_repo_path) as [[|[h'|]]|] eqn:Hd;
    try done.
  intros [= ->] Hne. repeat (simpl; rewrite ?Hd).
  rewrite bool_decide_false by done. repeat (simpl; rewrite ?Hd).
  destruct (remotes w !! remote_url); simpl; intros [= <- <-]; done.
Qed.

Lemma clone_repo_returns (local_repo_path remote_url : string) (w : world) :
  ∃ o w', clone_repo local_repo_path remote_url w = (Ok o, w').
Proof.
  unfold clone_repo, git_clone_remote. unfold_monad. simpl.
  destruct (remotes w !! remote_url), (directories w !! local_repo_path);
    simpl; eauto.
Qed.

Lemma filter_failed_app_one (l1 l2 : list outcome) (o : outcome) :
  failed o = true →
  Forall (λ o, failed o = false) (l1 ++ l2) →
  length (filter (λ o, failed o = true) (l1 ++ o :: l2)) = 1.
Proof.
  intros Ho [H1 H2]%Forall_app.
  assert (Hnil : ∀ l, Forall (λ o, failed o = false) l →
                      filter (λ o, failed o = true) l = []).
  { intros l Hl. induction Hl as [|x l Hx Hl IH]; [done |].
    rewrite filter_cons, decide_False; [done | congruence]. }
  rewrite filter_app, filter_cons, decide_True by done.
  by rewrite (Hnil _ H1), (Hnil _ H2).
Qed.

(** ** The decision for one target *)

Lemma issued_ext {A} (m m' : M A) (w : world) :
  m w = m' w → issued m w = issued m' w.
Proof. unfold issued. by intros ->. Qed.

Lemma issued_sync_target (t : target) (w : world) :
  issued (sync_target t) w
  = (entry_step (remotes w) t (directories w !! t_path t)).2.
Proof.
  unfold issued. rewrite sync_target_run. simpl.
  by rewrite git_log_after_step, drop_app_length.
Qed.

(** C1, as the code has it.  [pull_repo_if_updated] always returns.  It
    runs [git pull] (on the path, from the URL) exactly when the path is a
    repository whose HEAD hash can be read and differs from the remote one.
    It runs neither pull nor clone when the hashes are the same, and also
    when the path is not a repository or its HEAD hash cannot be read: then
    it reports that and returns. *)
Theorem pull_repo_if_updated_decision (local_repo_path remote_url
    remote_head_hash : string) (w : world) :
  ∃ o w',
    pull_repo_if_updated local_repo_path remote_url remote_head_hash w
    = (Ok o, w')
    ∧ decision_of
        (issued (pull_repo_if_updated local_repo_path remote_url
                   remote_head_hash) w)
      = Some (decision_of_outcome o)
    ∧ (decision_of_outcome o = Pull ↔
       ∃ h, local_head w local_repo_path = Some h ∧ h ≠ remote_head_hash)
    ∧ (decision_of_outcome o = Pull →
       filter (λ c, mutates c = true)
         (issued (pull_repo_if_updated local_repo_path remote_url
                    remote_head_hash) w)
       = [GitPull local_repo_path remote_url])
    ∧ (decision_of_outcome o = NoOp ↔
       local_head w local_repo_path = Some remote_head_hash
       ∨ local_head w local_repo_path = None)
    ∧ (o = UpToDate ↔ local_head w local_repo_path = Some remote_head_hash)
    ∧ (local_head w local_repo_path = None ↔
       o = NotARepository ∨ ∃ e, o = ReadError e).
Proof.
  destruct (directories w !! local_repo_path) as [d|] eqn:Hd.
  - set (t := {| t_path := local_repo_path; t_url := remote_url;
                 t_hash := remote_head_hash |}).
    assert (Hrun : pull_repo_if_updated local_repo_path remote_url
                     remote_head_hash w = sync_target t w)
      by (apply pull_repo_if_updated_run; eauto).
    rewrite (issued_ext _ _ _ Hrun), Hrun, sync_target_run,
      issued_sync_target.
    exists (step_outcome t w), (after_step t w).
    unfold step_outcome, entry_step, local_head. subst t. simpl.
    rewrite Hd.
    destruct d as [|[h|]]; simpl.
    + split_and!; try done; try settle.
    + case_bool_decide; simpl.
      * split_and!; try done; settle.
      * destruct (remotes w !! remote_url); simpl;
          split_and!; try done; settle.
    + split_and!; try done; settle.
  - pose proof (pull_repo_if_updated_absent local_repo_path remote_url
                  remote_head_hash w Hd) as Hrun.
    unfold issued, local_head. rewrite Hrun, Hd. simpl.
    rewrite drop_app_length.
    exists NotARepository. eexists. split; [done |].
    split_and!; try done; settle.
Qed.

(** Counterexample for C1 as the specification words it: where the
    directory exists but is not a repository, the code reports that and
    does not pull. *)
Lemma decides_as_specified_fails :
  ¬ decides_as_specified "/grading/hw1/submissions/lovelace_ada_ada"
      "ssh://prof@cs.example.edu:2222//home/ada/prof/cs101/hw1.git" "a1"
      example_plain_world.
Proof.
  intros Hclaim. destruct Hclaim as [_ Hpull].
  - vm_compute. eauto.
  - assert (Hno : decision_of
                    (issued
                       (pull_repo_if_updated
                          "/grading/hw1/submissions/lovelace_ada_ada"
                          "ssh://prof@cs.example.edu:2222//home/ada/prof/cs101/hw1.git"
                          "a1") example_plain_world) = Some NoOp)
      by (vm_compute; reflexivity).
    rewrite Hno in Hpull.
    assert (Some NoOp = Some Pull) as [=]. apply Hpull.
    vm_compute. intros [=].
Qed.

(** C5. When the local path of a student's submission is not a directory,
    [fetch_student_submission] runs one git command, the clone of the
    student's clone URL into that path, and returns; the remote HEAD hash
    it was given plays no part. *)
Theorem fetch_student_submission_clones (env : environment)
    (class_name assignment_name assignment_submission_path remote_head_hash
     uname last_first : string) (w : world) :
  directories w !! Py.path_join assignment_submission_path last_first
  = None →
  ∃ url o w',
    build_clone_url (config env)
      (student_assignment_repo_path env (server_username (config env))
         class_name assignment_name (user_home_dir env uname)) = Ok url
    ∧ fetch_student_submission env class_name assignment_name
        assignment_submission_path remote_head_hash uname last_first w
      = (Ok o, w')
    ∧ issued
        (fetch_student_submission env class_name assignment_name
           assignment_submission_path remote_head_hash uname last_first) w
      = [GitCloneRemote url
           (Py.path_join assignment_submission_path last_first)]
    ∧ decision_of
        (issued
           (fetch_student_submission env class_name assignment_name
              assignment_submission_path remote_head_hash uname last_first)
           w)
      = Some Clone
    ∧ decision_of_outcome o = Clone
    ∧ ∀ other_hash,
        fetch_student_submission env class_name assignment_name
          assignment_submission_path other_hash uname last_first w
        = (Ok o, w').
Proof.
  intros Hd.
  destruct (fetch_student_submission_run env
              class_name assignment_name assignment_submission_path
              remote_head_hash uname last_first w) as (url & Hurl & Hrun).
  exists url. rewrite (issued_ext _ _ _ Hrun), Hrun, sync_target_run,
    issued_sync_target.
  eexists _, _. split; [done |]. split; [done |].
  assert (Hother : ∀ other_hash,
            fetch_student_submission env class_name assignment_name
              assignment_submission_path other_hash uname last_first w
            = sync_target
                {| t_path := Py.path_join assignment_submission_path
                               last_first;
                   t_url := url; t_hash := other_hash |} w).
  { intros other_hash.
    destruct (fetch_student_submission_run env
                class_name assignment_name assignment_submission_path
                other_hash uname last_first w) as (url' & Hurl' & ->).
    rewrite Hurl in Hurl'. by injection Hurl' as <-. }
  unfold step_outcome, after_step, entry_step. simpl. rewrite Hd.
  destruct (remotes w !! url) eqn:Hr; simpl; (split_and!; try done);
    intros other_hash; rewrite Hother, sync_target_run;
    unfold step_outcome, after_step, entry_step; simpl;
    by rewrite Hd, Hr.
Qed.

Lemma fetch_student_submission_clones_witness :
  ∃ o w',
    fetch_student_submission example_env "cs101" "hw1"
      "/grading/hw1/submissions" "a1" "ada" "lovelace_ada_ada" example_world
    = (Ok o, w')
    ∧ issued
        (fetch_student_submission example_env "cs101" "hw1"
           "/grading/hw1/submissions" "a1" "ada" "lovelace_ada_ada")
        example_world
      = [GitCloneRemote
           "ssh://prof@cs.example.edu:2222//home/ada/prof/cs101/hw1.git"
           "/grading/hw1/submissions/lovelace_ada_ada"].
Proof.
  destruct (fetch_student_submission_clones example_env "cs101" "hw1"
              "/grading/hw1/submissions" "a1" "ada" "lovelace_ada_ada"
              example_world)
    as (url & o & w' & Hurl & Hrun & Hissued & _).
  - vm_compute. reflexivity.
  - exists o, w'. split; [exact Hrun |].
    rewrite Hissued. f_equal.
    assert (Hu : build_clone_url (config example_env)
                   (student_assignment_repo_path example_env
                      (server_username (config example_env)) "cs101" "hw1"
                      (user_home_dir example_env "ada"))
                 = Ok "ssh://prof@cs.example.edu:2222//home/ada/prof/cs101/hw1.git")
      by (vm_compute; reflexivity).
    rewrite Hurl in Hu. injection Hu as ->. reflexivity.
Defined.

(** ** Running the batch twice *)

Lemma directories_after_batch_other (ts : list target) (w : world)
    (p : string) :
  p ∉ t_path <$> ts →
  directories (after_batch ts w) !! p = directories w !! p.
Proof.
  revert w. induction ts as [|t ts IH]; intros w Hp; simpl; [done |].
  rewrite fmap_cons in Hp. apply not_elem_of_cons in Hp as [Hne Hp].
  rewrite IH by done. rewrite directories_after_step.
  by rewrite lookup_partial_alter_ne.
Qed.

(** With distinct local paths, each target meets its path as the batch
    found it and leaves it as its own step made it. *)
Lemma batch_pointwise (ts : list target) (w : world) (i : nat) (t : target) :
  NoDup (t_path <$> ts) →
  ts !! i = Some t →
  batch_outcomes ts w !! i
  = Some (entry_step (remotes w) t (directories w !! t_path t)).1.1
  ∧ directories (after_batch ts w) !! t_path t
    = (entry_step (remotes w) t (directories w !! t_path t)).1.2.
Proof.
  revert w i. induction ts as [|t0 ts IH]; intros w i Hnd Hi; [done |].
  rewrite fmap_cons in Hnd. apply NoDup_cons in Hnd as [Hfresh Hnd].
  destruct i as [|i]; simpl in *.
  - injection Hi as ->. split; [done |].
    rewrite directories_after_batch_other by done.
    by rewrite directories_after_step, lookup_partial_alter_eq.
  - assert (Hne : t_path t0 ≠ t_path t).
    { intros Heq. apply Hfresh. rewrite Heq.
      apply list_elem_of_fmap. exists t. split; [done |].
      by eapply list_elem_of_lookup_2. }
    destruct (IH (after_step t0 w) i Hnd Hi) as [Ho Hdir].
    rewrite remotes_after_step, directories_after_step in Ho, Hdir.
    by rewrite lookup_partial_alter_ne in Ho, Hdir.
Qed.

Lemma transfers_of_step (rem : gmap string string) (t : target)
    (d : option directory) :
  filter (λ c, mutates c = true) (entry_step rem t d).2
  = option_list (transfer_of t (entry_step rem t d).1.1).
Proof.
  unfold entry_step, transfer_of.
  destruct d as [[|[h|]]|]; simpl; try done.
  - case_bool_decide; simpl; [done |].
    by destruct (rem !! t_url t).
  - by destruct (rem !! t_url t).
Qed.

Lemma git_log_after_batch (ts : list target) (w : world) :
  ∃ calls,
    git_log (after_batch ts w) = git_log w ++ calls
    ∧ filter (λ c, mutates c = true) calls
      = omap (λ '(t, o), transfer_of t o) (zip ts (batch_outcomes ts w)).
Proof.
  revert w. induction ts as [|t ts IH]; intros w; simpl.
  - exists []. by rewrite app_nil_r.
  - destruct (IH (after_step t w)) as (calls & -> & Hcalls).
    rewrite git_log_after_step, <- app_assoc.
    eexists. split; [done |].
    rewrite filter_app, Hcalls, transfers_of_step.
    unfold step_outcome.
    by destruct (transfer_of t _).
Qed.

Lemma hash_cache_after_batch (ts : list target) (w : world) :
  hash_cache (after_batch ts w) = hash_cache w.
Proof.
  revert w. induction ts as [|t ts IH]; intros w; simpl; [done |].
  rewrite IH. unfold after_step.
  by destruct (entry_step (remotes w) t (directories w !! t_path t))
    as [[? ?] ?].
Qed.

Lemma fmap_ext_elem_of {A B} (f g : A → B) (l : list A) :
  (∀ x, x ∈ l → f x = g x) → f <$> l = g <$> l.
Proof.
  induction l as [|x l IH]; intros Hfg; [done |].
  rewrite !fmap_cons. f_equal; [apply Hfg; left |].
  apply IH. intros y Hy. apply Hfg. by right.
Qed.

Lemma elem_of_concat {A} (x : A) (l : list A) (ls : list (list A)) :
  x ∈ l → l ∈ ls → x ∈ concat ls.
Proof.
  intros Hx Hl. induction Hl as [l ls | l l' ls Hl IH]; simpl;
    apply elem_of_app; [by left | right; by apply IH].
Qed.

(** With distinct local paths, the git commands of the batch are those of
    each target on its own, one target after the other. *)
Lemma git_log_after_batch_exact (ts : list target) (w : world) :
  NoDup (t_path <$> ts) →
  git_log (after_batch ts w)
  = git_log w
    ++ concat ((λ t, (entry_step (remotes w) t
                        (directories w !! t_path t)).2) <$> ts).
Proof.
  revert w. induction ts as [|t0 ts IH]; intros w Hnd; simpl.
  - by rewrite app_nil_r.
  - rewrite fmap_cons in Hnd. apply NoDup_cons in Hnd as [Hfresh Hnd].
    rewrite (IH _ Hnd), git_log_after_step, <- app_assoc.
    do 3 f_equal. apply fmap_ext_elem_of. intros t Ht.
    rewrite remotes_after_step, directories_after_step.
    rewrite lookup_partial_alter_ne; [done |].
    intros Heq. apply Hfresh. rewrite Heq.
    apply list_elem_of_fmap. by exists t.
Qed.

(** When a synchronisation ends in a transport error, and what it is
    then. *)
Lemma entry_step_failed (rem : gmap string string) (t : target)
    (d : option directory) :
  failed (entry_step rem t d).1.1 = true
  ↔ rem !! t_url t = None
    ∧ (d = None ∨ ∃ h, d = Some (Repository (Some h)) ∧ h ≠ t_hash t).
Proof.
  unfold entry_step.
  destruct d as [[|[h|]]|]; simpl.
  - split; [done |]. intros [_ [? | (h & ? & _)]]; done.
  - case_bool_decide as Hh; simpl.
    + split; [done |]. intros [_ [? | (h' & [= <-] & Hne)]]; done.
    + destruct (rem !! t_url t) as [h'|]; simpl.
      * split; [done |]. by intros [? _].
      * split; [| done]. intros _. split; [done |]. right. by exists h.
  - split; [done |]. intros [_ [? | (h & ? & _)]]; done.
  - destruct (rem !! t_url t) as [h'|]; simpl.
    + split; [done |]. by intros [? _].
    + split; [| done]. intros _. split; [done |]. by left.
Qed.

Lemma entry_step_failed_keeps (rem : gmap string string) (t : target)
    (d : option directory) :
  failed (entry_step rem t d).1.1 = true →
  (entry_step rem t d).1.2 = d.
Proof.
  unfold entry_step.
  destruct d as [[|[h|]]|]; simpl; try done.
  - case_bool_decide; simpl; [done |].
    by destruct (rem !! t_url t).
  - by destruct (rem !! t_url t).
Qed.

Lemma filter_failed_one (outs : list outcome) (k : nat) (o : outcome) :
  outs !! k = Some o →
  failed o = true →
  (∀ i o', outs !! i = Some o' → i ≠ k → failed o' = false) →
  length (filter (λ o, failed o = true) outs) = 1.
Proof.
  intros Hk Hf Hothers.
  rewrite <- (take_drop_middle outs k o Hk).
  apply filter_failed_app_one; [done |].
  pose proof (lookup_lt_Some _ _ _ Hk) as Hlt.
  apply Forall_app. split; apply Forall_lookup; intros i o' Hi.
  - apply lookup_take_Some in Hi as [Hi Hik].
    apply (Hothers i o' Hi). lia.
  - rewrite lookup_drop in Hi. apply (Hothers _ o' Hi). lia.
Qed.






(** ** One transport failure in a batch *)

(** With distinct local paths, the batch handles every target as
    [sync_target] handles it on its own in the world that the batch
    started from. *)
Lemma batch_is_pointwise (ts : list target) (w : world) :
  NoDup (t_path <$> ts) →
  (∀ i t,
     ts !! i = Some t →
     ∃ o w_t,
       sync_target t w = (Ok o, w_t)
       ∧ batch_outcomes ts w !! i = Some o
       ∧ directories (after_batch ts w) !! t_path t
         = directories w_t !! t_path t)
  ∧ git_log (after_batch ts w)
    = git_log w ++ concat ((λ t, issued (sync_target t) w) <$> ts).
Proof.
  intros Hnd. split.
  - intros i t Hi. rewrite sync_target_run.
    exists (step_outcome t w), (after_step t w).
    destruct (batch_pointwise ts w i t Hnd Hi) as [Ho Hd].
    split_and!; [done | done |].
    by rewrite Hd, directories_after_step, lookup_partial_alter_eq.
  - rewrite (git_log_after_batch_exact ts w Hnd). do 2 f_equal.
    apply fmap_ext_elem_of. intros t _. by rewrite issued_sync_target.
Qed.

(** C2. With a snapshot that has an entry for every student, the loop over
    the students does not raise: it returns one outcome for each student.
    It leaves the remotes, the hash cache and every path that is not a
    student's as they were, and the clones and pulls in its log are those
    that its outcomes stand for.  The transport error of a clone is caught
    inside [clone_repo], that of a pull inside [pull_repo_if_updated], and
    becomes the outcome.  When the outcome of a student is a failure, the
    loop without that student gives the same outcomes for all the others
    and leaves the same disk.

    With distinct local paths, every student is synchronised as on its
    own: outcome, local copy and git commands are those of [sync_target]
    for that student in the starting world, in the order of the list.  So
    when the transport call for student [k] fails and the remotes of the
    others answer, the outcome for [k] is the one failure of the batch;
    the path of [k] is as it was; and every other student has been
    processed: a missing local copy has been cloned and is at the HEAD of
    its remote, an outdated one has been pulled and is at that HEAD. *)
Theorem fetch_loop_isolates_failure (env : environment) (info : JsonInfo)
    (class_name assignment_name assignment_submissions_path : string)
    (usernames : list string) (ts : list target) (w : world) :
  student_list info class_name = Ok usernames →
  resolve_targets env info class_name assignment_name
    assignment_submissions_path usernames = Ok ts →
  let run :=
    fetch_student_submissions env info class_name assignment_name
      assignment_submissions_path in
  ∃ outs w',
    run w = (Ok outs, w')
    ∧ length outs = length usernames
    ∧ length ts = length usernames
    ∧ remotes w' = remotes w
    ∧ hash_cache w' = hash_cache w
    ∧ (∀ p, p ∉ t_path <$> ts → directories w' !! p = directories w !! p)
    ∧ filter (λ c, mutates c = true) (issued run w)
      = omap (λ '(t, o), transfer_of t o) (zip ts outs)
    ∧ (∀ path url w0,
         (∃ o w1, clone_repo path url w0 = (Ok o, w1))
         ∧ ∀ e w1, git_clone_remote url path w0 = (Raise e, w1) →
                   clone_repo path url w0 = (Ok (CloneError e), w1))
    ∧ (∀ path url remote_head_hash h w0 e w1,
         local_head w0 path = Some h →
         h ≠ remote_head_hash →
         git_pull path url
           (git_head_hash path (is_non_bare_repo path w0).2).2
         = (Raise e, w1) →
         pull_repo_if_updated path url remote_head_hash w0
         = (Ok (PullError e), w1))
    ∧ (∀ before uname after o,
         usernames = before ++ uname :: after →
         outs !! length before = Some o →
         failed o = true →
         ∃ outs_before outs_after w'',
           outs = outs_before ++ o :: outs_after
           ∧ length outs_before = length before
           ∧ length outs_after = length after
           ∧ fetch_each_student env info class_name assignment_name
               assignment_submissions_path (before ++ after) w
             = (Ok (outs_before ++ outs_after), w'')
           ∧ same_disk w' w'')
    ∧ (NoDup (t_path <$> ts) →
       (∀ i t,
          ts !! i = Some t →
          ∃ o w_t,
            sync_target t w = (Ok o, w_t)
            ∧ outs !! i = Some o
            ∧ directories w' !! t_path t = directories w_t !! t_path t)
       ∧ issued run w = concat ((λ t, issued (sync_target t) w) <$> ts)
       ∧ ∀ k t_k,
           ts !! k = Some t_k →
           transport_fails t_k w →
           (∀ i t, ts !! i = Some t → i ≠ k →
                   is_Some (remotes w !! t_url t)) →
           (∃ o, outs !! k = Some o
                 ∧ failed o = true
                 ∧ o = match directories w !! t_path t_k with
                       | None => CloneError (GkeepException (t_url t_k))
                       | Some _ => PullError (GkeepException (t_url t_k))
                       end)
           ∧ (∀ i o, outs !! i = Some o → i ≠ k → failed o = false)
           ∧ length (filter (λ o, failed o = true) outs) = 1
           ∧ directories w' !! t_path t_k = directories w !! t_path t_k
           ∧ ∀ i t h,
               ts !! i = Some t → i ≠ k →
               remotes w !! t_url t = Some h →
               (directories w !! t_path t = None →
                outs !! i = Some Cloned
                ∧ directories w' !! t_path t = Some (Repository (Some h))
                ∧ GitCloneRemote (t_url t) (t_path t) ∈ issued run w)
               ∧ (∀ h0,
                    directories w !! t_path t
                    = Some (Repository (Some h0)) →
                    h0 ≠ t_hash t →
                    outs !! i = Some Pulled
                    ∧ directories w' !! t_path t
                      = Some (Repository (Some h))
                    ∧ GitPull (t_path t) (t_url t) ∈ issued run w)).
Proof.
  intros Hlist Hres run.
  destruct (fetch_each_student_run _ _ _ _ _ _ _ w Hres) as [Hrun Hlen].
  assert (Hrun' : run w = (Ok (batch_outcomes ts w), after_batch ts w)).
  { unfold run, fetch_student_submissions, bind, lift. by rewrite Hlist. }
  assert (Hissued : ∀ calls,
            git_log (after_batch ts w) = git_log w ++ calls →
            issued run w = calls).
  { intros calls Hcalls. unfold issued. rewrite Hrun'. simpl.
    by rewrite Hcalls, drop_app_length. }
  exists (batch_outcomes ts w), (after_batch ts w). split_and!.
  - done.
  - by rewrite length_batch_outcomes.
  - done.
  - apply remotes_after_batch.
  - apply hash_cache_after_batch.
  - intros p Hp. by apply directories_after_batch_other.
  - destruct (git_log_after_batch ts w) as (calls & Hcalls & Hmut).
    by rewrite (Hissued calls Hcalls).
  - intros path url w0. split;
      [apply clone_repo_returns | intros; by apply clone_repo_catches].
  - intros. by eapply pull_repo_if_updated_catches.
  - intros before uname after o -> Ho Hf.
    destruct (resolve_targets_app _ _ _ _ _ _ _ _ Hres)
      as (ts1 & ts2' & -> & Hlen1 & Hres1 & Hres2').
    destruct (resolve_targets_app _ _ _ _ _ [uname] after ts2' Hres2')
      as (tk & ts2 & -> & Hlenk & Hresk & Hres2).
    destruct tk as [|t [|??]]; try done. simpl in *.
    assert (Hok : o = step_outcome t (after_batch ts1 w)).
    { rewrite batch_outcomes_app in Ho.
      rewrite lookup_app_r in Ho by (rewrite length_batch_outcomes; lia).
      rewrite length_batch_outcomes, Hlen1, Nat.sub_diag in Ho.
      simpl in Ho. by injection Ho as <-. }
    subst o.
    destruct (batch_without_failed ts1 ts2 t w Hf) as (outs2 & Hall & Hrest).
    pose proof (resolve_targets_join _ _ _ _ _ _ _ _ _ Hres1 Hres2) as Hres'.
    destruct (fetch_each_student_run _ _ _ _ _ _ _ w Hres') as [Hrunr _].
    exists (batch_outcomes ts1 w), outs2, (after_batch (ts1 ++ ts2) w).
    split_and!.
    + done.
    + by rewrite length_batch_outcomes.
    + apply (f_equal length) in Hrest.
      rewrite length_batch_outcomes, !length_app, length_batch_outcomes
        in Hrest.
      destruct (fetch_each_student_run _ _ _ _ _ _ _ w Hres2) as [_ Hlen2].
      lia.
    + by rewrite Hrunr, Hrest.
    + rewrite !after_batch_app. simpl.
      by apply batch_same_disk, failed_step_same_disk.
  - intros Hnd.
    destruct (batch_is_pointwise ts w Hnd) as [Hpoint Hlog].
    split_and!; [done | by apply Hissued |].
    intros k t_k Hk [Hsilent Hdue] Hanswer.
    destruct (batch_pointwise ts w k t_k Hnd Hk) as [Hok Hdk].
    assert (Hfk : failed (entry_step (remotes w) t_k
                            (directories w !! t_path t_k)).1.1 = true)
      by (by apply entry_step_failed).
    assert (Hothers : ∀ i o, batch_outcomes ts w !! i = Some o → i ≠ k →
                             failed o = false).
    { intros i o Hi Hik.
      assert (i < length ts) as Hlt.
      { apply lookup_lt_Some in Hi. by rewrite length_batch_outcomes in Hi. }
      destruct (lookup_lt_is_Some_2 ts i Hlt) as [t Ht].
      destruct (batch_pointwise ts w i t Hnd Ht) as [Hoi _].
      rewrite Hoi in Hi. injection Hi as <-.
      destruct (failed (entry_step (remotes w) t
                          (directories w !! t_path t)).1.1) eqn:Hfi;
        [| done].
      apply (entry_step_failed (remotes w) t) in Hfi as [Hnone _].
      destruct (Hanswer i t Ht Hik) as [h Hh]. by rewrite Hnone in Hh. }
    split_and!.
    + eexists. split_and!; [exact Hok | exact Hfk |].
      unfold entry_step. rewrite Hsilent.
      destruct Hdue as [-> | (h & -> & Hne)]; [done |].
      by rewrite bool_decide_false.
    + done.
    + by eapply filter_failed_one.
    + by rewrite Hdk, entry_step_failed_keeps.
    + intros i t h Hi Hik Hh.
      destruct (batch_pointwise ts w i t Hnd Hi) as [Hoi Hdi].
      assert (Hcalls : ∀ c,
                c ∈ (entry_step (remotes w) t
                       (directories w !! t_path t)).2 →
                c ∈ issued run w).
      { intros c Hc. rewrite (Hissued _ Hlog).
        apply (elem_of_concat c (issued (sync_target t) w)).
        - by rewrite issued_sync_target.
        - apply list_elem_of_fmap. exists t. split; [done |].
          by eapply list_elem_of_lookup_2. }
      split.
      * intros Habsent. rewrite Hoi, Hdi.
        revert Hcalls. unfold entry_step. rewrite Habsent, Hh.
        intros Hcalls. split_and!; [done | done |].
        apply Hcalls. simpl. left.
      * intros h0 Hrepo Hne. rewrite Hoi, Hdi.
        revert Hcalls. unfold entry_step. rewrite Hrepo, Hh.
        rewrite bool_decide_false by done.
        intros Hcalls. split_and!; [done | done |].
        apply Hcalls. simpl. do 2 right. left.
Qed.

Lemma fetch_loop_isolates_failure_witness :
  let run := fetch_student_submissions example_env example_info "cs101"
               "hw1" "/grading/hw1/submissions" in
  ∃ outs w',
    run example_world = (Ok outs, w')
    ∧ outs
      = [Cloned;
         CloneError
           (GkeepException
              "ssh://prof@cs.example.edu:2222//home/bob/prof/cs101/hw1.git");
         Pulled]
    ∧ length (filter (λ o, failed o = true) outs) = 1
    ∧ directories w' !! "/grading/hw1/submissions/lovelace_ada_ada"
      = Some (Repository (Some "a1"))
    ∧ directories w' !! "/grading/hw1/submissions/builder_bob_bob" = None
    ∧ directories w' !! "/grading/hw1/submissions/young_cy_cy"
      = Some (Repository (Some "c3"))
    ∧ GitCloneRemote
        "ssh://prof@cs.example.edu:2222//home/ada/prof/cs101/hw1.git"
        "/grading/hw1/submissions/lovelace_ada_ada" ∈ issued run example_world
    ∧ GitPull "/grading/hw1/submissions/young_cy_cy"
        "ssh://prof@cs.example.edu:2222//home/cy/prof/cs101/hw1.git"
        ∈ issued run example_world.
Proof.
  intros run.
  destruct (fetch_loop_isolates_failure example_env example_info "cs101"
              "hw1" "/grading/hw1/submissions" example_usernames
              example_targets example_world)
    as (outs & w' & Hrun & _ & _ & _ & _ & _ & _ & _ & _ & _ & Hdistinct).
  - vm_compute. reflexivity.
  - vm_compute. reflexivity.
  - destruct Hdistinct as (_ & _ & Hk).
    { apply (bool_decide_unpack _). vm_compute. exact I. }
    destruct (Hk 1%nat
                {| t_path := "/grading/hw1/submissions/builder_bob_bob";
                   t_url :=
                     "ssh://prof@cs.example.edu:2222//home/bob/prof/cs101/hw1.git";
                   t_hash := "b2" |})
      as ((o & Ho & _ & Hbob) & _ & Hone & Hkept & Hrest).
    { reflexivity. }
    { split; [vm_compute; reflexivity | left; vm_compute; reflexivity]. }
    { intros [|[|[|i]]] t Ht Hne; try done; simpl in Ht;
        injection Ht as <-; vm_compute; eauto. }
    destruct (Hrest 0%nat
                {| t_path := "/grading/hw1/submissions/lovelace_ada_ada";
                   t_url :=
                     "ssh://prof@cs.example.edu:2222//home/ada/prof/cs101/hw1.git";
                   t_hash := "a1" |} "a1") as [Hada _];
      [reflexivity | done | vm_compute; reflexivity |].
    destruct Hada as (Hada_o & Hada_d & Hada_c);
      [vm_compute; reflexivity |].
    destruct (Hrest 2%nat
                {| t_path := "/grading/hw1/submissions/young_cy_cy";
                   t_url :=
                     "ssh://prof@cs.example.edu:2222//home/cy/prof/cs101/hw1.git";
                   t_hash := "c3" |} "c3") as [_ Hcy];
      [reflexivity | done | vm_compute; reflexivity |].
    destruct (Hcy "c0") as (Hcy_o & Hcy_d & Hcy_c);
      [vm_compute; reflexivity | discriminate |].
    exists outs, w'. split; [exact Hrun |].
    assert (Houts : outs
                    = [Cloned;
                       CloneError
                         (GkeepException
                            "ssh://prof@cs.example.edu:2222//home/bob/prof/cs101/hw1.git");
                       Pulled]).
    { assert (Hlen : length outs = 3%nat).
      { assert (Hc : (run example_world).1
                     = Ok [Cloned;
                           CloneError
                             (GkeepException
                                "ssh://prof@cs.example.edu:2222//home/bob/prof/cs101/hw1.git");
                           Pulled]) by (vm_compute; reflexivity).
        unfold run in Hc. rewrite Hrun in Hc. simpl in Hc.
        by injection Hc as ->. }
      destruct outs as [|o0 [|o1 [|o2 [|o3 outs]]]]; try done.
      simpl in Hada_o, Ho, Hcy_o.
      injection Hada_o as ->. injection Ho as ->. injection Hcy_o as ->.
      by rewrite Hbob. }
    split; [exact Houts |].
    split; [exact Hone |].
    split; [exact Hada_d |].
    split; [simpl in Hkept; rewrite Hkept; vm_compute; reflexivity |].
    split; [exact Hcy_d |].
    split; [exact Hada_c | exact Hcy_c].
Defined.

(** * Further properties of the code *)

(** ** What the fetch loop touches, and how a snapshot error ends it *)

Lemma directories_after_batch_frame (ts : list target) (w : world) :
  remotes (after_batch ts w) = remotes w
  ∧ hash_cache (after_batch ts w) = hash_cache w
  ∧ (∃ calls, git_log (after_batch ts w) = git_log w ++ calls)
  ∧ ∀ p, p ∉ t_path <$> ts →
         directories (after_batch ts w) !! p = directories w !! p.
Proof.
  split_and!.
  - apply remotes_after_batch.
  - revert w. induction ts as [|t ts IH]; intros w; simpl; [done |].
    rewrite IH. unfold after_step.
    by destruct (entry_step (remotes w) t (directories w !! t_path t))
      as [[? ?] ?].
  - destruct (git_log_after_batch ts w) as (calls & ? & _). eauto.
  - intros p Hp. by apply directories_after_batch_other.
Qed.

(** The loop changes nothing but the local paths of its students: the
    remotes and the hash cache stay as they were, every other path keeps
    its entry, and the log of git commands only grows. *)
Theorem fetch_loop_frame (env : environment) (info : JsonInfo)
    (class_name assignment_name assignment_submissions_path : string)
    (usernames : list string) (ts : list target) (w : world) :
  student_list info class_name = Ok usernames →
  resolve_targets env info class_name assignment_name
    assignment_submissions_path usernames = Ok ts →
  let w' := (fetch_student_submissions env info class_name assignment_name
               assignment_submissions_path w).2 in
  remotes w' = remotes w
  ∧ hash_cache w' = hash_cache w
  ∧ (∃ calls, git_log w' = git_log w ++ calls)
  ∧ ∀ p, p ∉ t_path <$> ts → directories w' !! p = directories w !! p.
Proof.
  intros Hlist Hres.
  destruct (fetch_each_student_run _ _ _ _ _ _ _ w Hres) as [Hrun _].
  unfold fetch_student_submissions, bind, lift. rewrite Hlist, Hrun.
  simpl. apply directories_after_batch_frame.
Qed.

Lemma fetch_loop_frame_witness :
  let w' := (fetch_student_submissions example_env example_info "cs101"
               "hw1" "/grading/hw1/submissions" example_world).2 in
  remotes w' = remotes example_world
  ∧ hash_cache w' = hash_cache example_world
  ∧ (∃ calls, git_log w' = git_log example_world ++ calls)
  ∧ ∀ p, p ∉ t_path <$> example_targets →
         directories w' !! p = directories example_world !! p.
Proof.
  apply (fetch_loop_frame example_env example_info "cs101" "hw1"
           "/grading/hw1/submissions" example_usernames example_targets
           example_world).
  - vm_compute. reflexivity.
  - vm_compute. reflexivity.
Defined.

Lemma fetch_each_student_app (env : environment) (info : JsonInfo)
    (class_name assignment_name assignment_submissions_path : string)
    (l1 l2 : list string) (w : world) :
  fetch_each_student env info class_name assignment_name
    assignment_submissions_path (l1 ++ l2) w
  = match fetch_each_student env info class_name assignment_name
            assignment_submissions_path l1 w with
    | (Ok outs1, w1) =>
        match fetch_each_student env info class_name assignment_name
                assignment_submissions_path l2 w1 with
        | (Ok outs2, w2) => (Ok (outs1 ++ outs2), w2)
        | (Raise e, w2) => (Raise e, w2)
        end
    | (Raise e, w1) => (Raise e, w1)
    end.
Proof.
  revert w. induction l1 as [|u l1 IH]; intros w.
  - simpl. unfold ret.
    by destruct (fetch_each_student _ _ _ _ _ l2 w) as [[?|?] ?].
  - cbn [app fetch_each_student]. unfold bind, lift, ret.
    destruct (assignment_by_student_hash _ _ _ _) as [rh|]; [| done].
    destruct (last_first_username _ _ _) as [lf|]; [| done].
    destruct (fetch_student_submission _ _ _ _ _ _ _ w) as [[o|e] w1];
      [| done].
    rewrite IH.
    destruct (fetch_each_student _ _ _ _ _ l1 w1) as [[outs1|e] w2];
      [| done].
    destruct (fetch_each_student _ _ _ _ _ l2 w2) as [[outs2|e] w3]; done.
Qed.

Lemma getitem_missing {V} (d : dict V) (key : string) :
  key ∉ keys d → getitem d key = Raise (KeyError key).
Proof.
  unfold keys. induction d as [|[k v] d IH]; simpl; [done |].
  intros [Hne Hd]%not_elem_of_cons.
  destruct (String.eqb_spec k key); [done | by apply IH].
Qed.

Lemma getitem_present {V} (d : dict V) (key : string) :
  key ∈ keys d → ∃ v, getitem d key = Ok v ∧ (key, v) ∈ d.
Proof.
  unfold keys. induction d as [|[k v] d IH]; simpl.
  - by intros ?%elem_of_nil.
  - intros Hin. destruct (String.eqb_spec k key) as [->|Hne].
    + exists v. split; [done | apply list_elem_of_here].
    + apply elem_of_cons in Hin as [?|Hin]; [done |].
      destruct (IH Hin) as (v' & -> & ?). exists v'.
      split; [done | by apply list_elem_of_further].
Qed.

(** A student without an entry in the snapshot ends the loop, unlike a
    transport error: the exception of the failed lookup leaves the loop,
    the students before that one have been fetched, those after it are not
    looked at.  For a student missing from the assignment's
    [students_repos] the exception is [KeyError] with the user name. *)
Theorem fetch_loop_stops_at_snapshot_error (env : environment)
    (info : JsonInfo)
    (class_name assignment_name assignment_submissions_path : string)
    (before after : list string) (uname : string) (ts : list target)
    (e : exn) (w : world) :
  student_list info class_name = Ok (before ++ uname :: after) →
  resolve_targets env info class_name assignment_name
    assignment_submissions_path before = Ok ts →
  resolve_target env info class_name assignment_name
    assignment_submissions_path uname = Raise e →
  fetch_student_submissions env info class_name assignment_name
    assignment_submissions_path w
  = (Raise e,
     (fetch_each_student env info class_name assignment_name
        assignment_submissions_path before w).2)
  ∧ (fetch_each_student env info class_name assignment_name
       assignment_submissions_path before w).1
    = Ok (batch_outcomes ts w)
  ∧ (∀ c a,
       getitem (info_dict info) class_name = Ok c →
       getitem (j_assignments c) assignment_name = Ok a →
       uname ∉ keys (j_students_repos a) →
       e = KeyError uname).
Proof.
  intros Hlist Hres Hbad.
  destruct (fetch_each_student_run _ _ _ _ _ _ _ w Hres) as [Hrun _].
  split_and!.
  - unfold fetch_student_submissions, bind, lift. rewrite Hlist.
    rewrite fetch_each_student_app, Hrun.
    cbn [fetch_each_student fst snd]. unfold resolve_target in Hbad.
    unfold bind, lift.
    destruct (assignment_by_student_hash _ _ _ _) as [rh|];
      [| by injection Hbad as ->].
    cbn [result_bind] in Hbad.
    destruct (last_first_username _ _ _) as [lf|];
      [| by injection Hbad as ->].
    cbn [result_bind] in Hbad. by rewrite build_clone_url_eq in Hbad.
  - by rewrite Hrun.
  - intros c a Hc Ha Hu. unfold resolve_target in Hbad.
    unfold assignment_by_student_hash in Hbad.
    rewrite Hc in Hbad. cbn [result_bind] in Hbad.
    rewrite Ha in Hbad. cbn [result_bind] in Hbad.
    rewrite (getitem_missing _ _ Hu) in Hbad. cbn [result_bind] in Hbad.
    by injection Hbad as <-.
Qed.

Lemma fetch_loop_stops_at_snapshot_error_witness :
  (fetch_student_submissions example_env example_info_without_bob "cs101"
     "hw1" "/grading/hw1/submissions" example_world).1
  = Raise (KeyError "bob")
  ∧ directories
      (fetch_student_submissions example_env example_info_without_bob
         "cs101" "hw1" "/grading/hw1/submissions" example_world).2
    !! "/grading/hw1/submissions/lovelace_ada_ada"
    = Some (Repository (Some "a1")).
Proof.
  destruct (fetch_loop_stops_at_snapshot_error example_env
              example_info_without_bob "cs101" "hw1"
              "/grading/hw1/submissions" ["ada"] ["cy"] "bob"
              [ {| t_path := "/grading/hw1/submissions/lovelace_ada_ada";
                   t_url := "ssh://prof@cs.example.edu:2222//home/ada/prof/cs101/hw1.git";
                   t_hash := "a1" |} ]
              (KeyError "bob") example_world) as (Hrun & _ & _).
  - vm_compute. reflexivity.
  - vm_compute. reflexivity.
  - vm_compute. reflexivity.
  - rewrite Hrun. split; [reflexivity |]. vm_compute. reflexivity.
Defined.

(** ** Faculty files *)

Lemma append_assoc (s1 s2 s3 : string) :
  (s1 +:+ s2) +:+ s3 = s1 +:+ s2 +:+ s3.
Proof.
  induction s1 as [|c s1 IH]; [done |].
  change (String c ((s1 +:+ s2) +:+ s3) = String c (s1 +:+ s2 +:+ s3)).
  by f_equal.
Qed.

Lemma Faculty_repr_eq (self : Faculty) :
  Faculty_repr self
  = Ok (last_name self +:+ ", " +:+ first_name self +:+ " ("
          +:+ username self +:+ ") <" +:+ email_address self +:+ ">").
Proof.
  unfold Faculty_repr, Py.format.
  cbv -[String.append Py.str last_name first_name username email_address].
  cbn [Py.str]. reflexivity.
Qed.

Lemma from_csv_row_valid (last first user domain : string) :
  Py.contains "@" user = false →
  Py.contains "@" domain = false →
  from_csv_row [last; first; user +:+ "@" +:+ domain]
  = Ok {| last_name := last; first_name := first; username := user;
          email_address := user +:+ "@" +:+ domain |}.
Proof.
  intros Hu Hd. unfold from_csv_row. simpl.
  assert (Py.split "@" (user +:+ "@" +:+ domain) = [user; domain]) as ->.
  { apply split_two. split_and!; [reflexivity | done | done]. }
  done.
Qed.

(** A row [last, first, user@domain] gives a [Faculty] that prints as
    [last, first (user) <user@domain>]. *)
Theorem Faculty_repr_of_row (last first user domain : string) :
  Py.contains "@" user = false →
  Py.contains "@" domain = false →
  ∃ f,
    from_csv_row [last; first; user +:+ "@" +:+ domain] = Ok f
    ∧ Faculty_repr f
      = Ok (last +:+ ", " +:+ first +:+ " (" +:+ user +:+ ") <" +:+ user
              +:+ "@" +:+ domain +:+ ">").
Proof.
  intros Hu Hd. eexists. split; [by apply from_csv_row_valid |].
  rewrite Faculty_repr_eq. cbn [last_name first_name username email_address].
  by rewrite !append_assoc.
Qed.

Lemma Faculty_repr_of_row_witness :
  ∃ f,
    from_csv_row ["Hopper"; "Grace"; "ghopper@navy.example"] = Ok f
    ∧ Faculty_repr f = Ok "Hopper, Grace (ghopper) <ghopper@navy.example>".
Proof.
  apply (Faculty_repr_of_row "Hopper" "Grace" "ghopper" "navy.example");
    reflexivity.
Defined.

Lemma from_csv_row_cases (csv_row : list string) :
  (valid_faculty_row csv_row → ∃ f, from_csv_row csv_row = Ok f)
  ∧ (¬ valid_faculty_row csv_row →
     ∃ problem, from_csv_row csv_row = Raise (FacultyError problem)).
Proof.
  unfold from_csv_row, valid_faculty_row.
  destruct csv_row as [|last [|first [|email [|extra more]]]];
    simpl; try (split; [settle | by eauto]).
  assert (Hlen : ∀ n : nat,
            (3%nat = 3%nat ∧ ∃ email0, Some email = Some email0
                       ∧ length (Py.split "@" email0) = n)
            ↔ length (Py.split "@" email) = n).
  { intros n. split; [by intros (_ & ? & [= <-] & ?) | by eauto]. }
  rewrite Hlen. clear Hlen.
  destruct (Py.split "@" email) as [|u [|d [|x xs]]] eqn:Hs; simpl;
    (split; [settle | try done; by eauto]).
Qed.

Lemma faculty_from_rows_valid (rows : list (list string)) :
  Forall (λ row, row = [] ∨ valid_faculty_row row) rows →
  ∃ fs,
    faculty_from_rows rows = (fs, None)
    ∧ Forall2 (λ row f, from_csv_row row = Ok f)
        (filter (λ row, row ≠ []) rows) fs.
Proof.
  induction 1 as [|row rows Hrow Hrows (fs & IH & Hfs)]; simpl.
  - exists []. by split; [| constructor].
  - destruct row as [|x row]; simpl.
    + exists fs. rewrite filter_cons, decide_False by (by intros ?).
      done.
    + destruct Hrow as [? | Hvalid]; [done |].
      destruct (proj1 (from_csv_row_cases (x :: row)) Hvalid) as (f & Hf).
      rewrite Hf, IH. exists (f :: fs).
      rewrite filter_cons, decide_True by done.
      split; [done | by constructor].
Qed.

(** When every row that is not blank is a valid faculty row, the generator
    yields one [Faculty] for each of them, in the order of the file, and
    skips the blank ones.  It then ends normally if the reader did.  If
    the reader failed at that point, the generator ends with [FacultyError]
    around the reader's error when that is an [OSError] or a [csv.Error],
    and with the reader's error itself when it is anything else, such as
    the [UnicodeDecodeError] of a file that is not text. *)
Theorem faculty_from_csv_file_yields (rows : list (list string))
    (breaks : option io_failure) :
  Forall (λ row, row = [] ∨ valid_faculty_row row) rows →
  ∃ fs,
    faculty_from_csv_file (Readable rows breaks)
    = (fs,
       match breaks with
       | None => None
       | Some (OSFailure detail) =>
           Some (FacultyErrorFrom (OSFailure detail))
       | Some (CsvFailure detail) =>
           Some (FacultyErrorFrom (CsvFailure detail))
       | Some (DecodeFailure detail) => Some (UnicodeDecodeError detail)
       | Some (OtherFailure e) => Some (Builtin e)
       end)
    ∧ Forall2 (λ row f, from_csv_row row = Ok f)
        (filter (λ row, row ≠ []) rows) fs.
Proof.
  intros Hrows.
  destruct (faculty_from_rows_valid rows Hrows) as (fs & Hrun & Hfs).
  exists fs. split; [| done].
  unfold faculty_from_csv_file. rewrite Hrun.
  by destruct breaks as [[]|].
Qed.

Lemma faculty_from_csv_file_yields_witness :
  ∃ fs,
    faculty_from_csv_file
      (Readable [["Hopper"; "Grace"; "ghopper@navy.example"]; [];
                 ["Lovelace"; "Ada"; "ada@engine.example"]]
         (Some (DecodeFailure "invalid start byte")))
    = (fs, Some (UnicodeDecodeError "invalid start byte"))
    ∧ length fs = 2.
Proof.
  destruct (faculty_from_csv_file_yields
              [["Hopper"; "Grace"; "ghopper@navy.example"]; [];
               ["Lovelace"; "Ada"; "ada@engine.example"]]
              (Some (DecodeFailure "invalid start byte")))
    as (fs & Hrun & Hfs).
  - constructor; [right | constructor; [by left | constructor;
                                                    [right | constructor]]];
      (split; [reflexivity | eexists; split; reflexivity]).
  - exists fs. split; [exact Hrun |].
    apply Forall2_length in Hfs. rewrite <- Hfs. reflexivity.
Defined.

(** The first row that is neither blank nor valid ends the generator with
    the [FacultyError] of [from_csv_row]: the rows before it have been
    yielded, the rows after it are not read, and whether the reader would
    have failed later plays no part. *)
Theorem faculty_from_csv_file_stops (good rest : list (list string))
    (bad : list string) (breaks : option io_failure) :
  Forall (λ row, row = [] ∨ valid_faculty_row row) good →
  bad ≠ [] →
  ¬ valid_faculty_row bad →
  ∃ fs problem,
    faculty_from_csv_file (Readable (good ++ bad :: rest) breaks)
    = (fs, Some (Builtin (FacultyError problem)))
    ∧ from_csv_row bad = Raise (FacultyError problem)
    ∧ Forall2 (λ row f, from_csv_row row = Ok f)
        (filter (λ row, row ≠ []) good) fs.
Proof.
  intros Hgood Hnonblank Hbad.
  destruct (proj2 (from_csv_row_cases bad) Hbad) as (problem & Hraise).
  assert (Hrun : ∃ fs,
            faculty_from_rows (good ++ bad :: rest)
            = (fs, Some (FacultyError problem))
            ∧ Forall2 (λ row f, from_csv_row row = Ok f)
                (filter (λ row, row ≠ []) good) fs).
  { induction Hgood as [|row good Hrow Hgood (fs & IH & Hfs)]; simpl.
    - exists []. destruct bad as [|x bad]; [done |]. simpl in *.
      rewrite Hraise. by split; [| constructor].
    - destruct row as [|x row]; simpl.
      + exists fs. rewrite filter_cons, decide_False by (by intros ?).
        done.
      + destruct Hrow as [? | Hvalid]; [done |].
        destruct (proj1 (from_csv_row_cases (x :: row)) Hvalid)
          as (f & Hf).
        rewrite Hf, IH. exists (f :: fs).
        rewrite filter_cons, decide_True by done.
        split; [done | by constructor]. }
  destruct Hrun as (fs & Hrun & Hfs).
  exists fs, problem. split_and!; [| done | done].
  unfold faculty_from_csv_file. by rewrite Hrun.
Qed.

Lemma faculty_from_csv_file_stops_witness :
  ∃ fs problem,
    faculty_from_csv_file
      (Readable ([["Hopper"; "Grace"; "ghopper@navy.example"]; []]
                 ++ ["Lovelace"; "Ada"]
                 :: [["Turing"; "Alan"; "alan@bletchley.example"]])
         None)
    = (fs, Some (Builtin (FacultyError problem)))
    ∧ length fs = 1.
Proof.
  destruct (faculty_from_csv_file_stops
              [["Hopper"; "Grace"; "ghopper@navy.example"]; []]
              [["Turing"; "Alan"; "alan@bletchley.example"]]
              ["Lovelace"; "Ada"] None)
    as (fs & problem & Hrun & _ & Hfs).
  - constructor; [right | constructor; [by left | constructor]].
    split; [reflexivity | eexists; split; reflexivity].
  - done.
  - intros [Hlen _]. discriminate Hlen.
  - exists fs, problem. split; [exact Hrun |].
    apply Forall2_length in Hfs. rewrite <- Hfs. reflexivity.
Defined.

(** ** The file of fetched paths *)

Lemma keys_setitem {V} (d : dict V) (key k : string) (v : V) :
  k ∈ keys (setitem d key v) ↔ k = key ∨ k ∈ keys d.
Proof.
  unfold keys. induction d as [|[k0 x] d IH]; simpl.
  - rewrite elem_of_cons, elem_of_nil. tauto.
  - destruct (String.eqb_spec k0 key) as [->|Hne]; simpl.
    + rewrite elem_of_cons. tauto.
    + rewrite !elem_of_cons, IH. tauto.
Qed.

Lemma getitem_setitem_eq {V} (d : dict V) (key : string) (v : V) :
  getitem (setitem d key v) key = Ok v.
Proof.
  induction d as [|[k0 x] d IH]; simpl.
  - by rewrite String.eqb_refl.
  - destruct (String.eqb_spec k0 key) as [->|Hne]; simpl.
    + by rewrite String.eqb_refl.
    + by destruct (String.eqb_spec k0 key).
Qed.

Lemma getitem_setitem_ne {V} (d : dict V) (key k : string) (v : V) :
  k ≠ key → getitem (setitem d key v) k = getitem d k.
Proof.
  intros Hk. induction d as [|[k0 x] d IH]; simpl.
  - by destruct (String.eqb_spec key k).
  - destruct (String.eqb_spec k0 key) as [->|Hne]; simpl.
    + by destruct (String.eqb_spec key k).
    + by rewrite IH.
Qed.

Lemma has_key_setitem {V} (d : dict V) (key k : string) (v : V) :
  has_key (setitem d key v) k
  = bool_decide (k = key) || has_key d k.
Proof.
  unfold has_key. apply eq_true_iff_eq.
  rewrite orb_true_iff, !bool_decide_eq_true. apply keys_setitem.
Qed.

Lemma has_key_getitem {V} (d : dict V) (key : string) :
  has_key d key = false → getitem d key = Raise (KeyError key).
Proof.
  unfold has_key. intros H%bool_decide_eq_false. by apply getitem_missing.
Qed.

(** The path of an assignment as [get_path] reads it from the stored
    dictionary. *)
Lemma get_path_stored (paths : dict (dict string))
    (assignment class_name : string) :
  get_path (PathsFile paths) assignment class_name
  = Return
      (match getitem paths class_name with
       | Ok of_class =>
           match getitem of_class assignment with
           | Ok path => Some path
           | Raise _ => None
           end
       | Raise _ => None
       end).
Proof.
  unfold get_path. simpl.
  destruct (has_key paths class_name) eqn:Hc.
  - apply bool_decide_eq_true in Hc.
    destruct (getitem_present _ _ Hc) as (of_class & -> & _). simpl.
    destruct (has_key of_class assignment) eqn:Ha.
    + apply bool_decide_eq_true in Ha.
      by destruct (getitem_present _ _ Ha) as (path & -> & _).
    + by rewrite (has_key_getitem _ _ Ha).
  - by rewrite (has_key_getitem _ _ Hc).
Qed.

Lemma set_path_get_path_aux (paths : dict (dict string))
    (assignment class_name path : string) :
  ∃ paths',
    set_path (PathsFile paths) assignment class_name path
    = (Return tt, PathsFile paths')
    ∧ get_path (PathsFile paths') assignment class_name
      = Return (Some path)
    ∧ ∀ assignment' class_name',
        (assignment', class_name') ≠ (assignment, class_name) →
        get_path (PathsFile paths') assignment' class_name'
        = get_path (PathsFile paths) assignment' class_name'.
Proof.
  unfold set_path. simpl.
  set (paths1 := if negb (has_key paths class_name)
                 then setitem paths class_name [] else paths).
  assert (H1 : ∃ of_class,
            getitem paths1 class_name = Ok of_class
            ∧ (getitem paths class_name = Ok of_class
               ∨ (has_key paths class_name = false ∧ of_class = []))
            ∧ ∀ c, c ≠ class_name → getitem paths1 c = getitem paths c).
  { subst paths1. destruct (has_key paths class_name) eqn:Hc; simpl.
    - apply bool_decide_eq_true in Hc.
      destruct (getitem_present _ _ Hc) as (of_class & Hg & _).
      exists of_class. by split_and!; [| left |].
    - exists []. split_and!.
      + apply getitem_setitem_eq.
      + by right.
      + intros c Hne. by apply getitem_setitem_ne. }
  destruct H1 as (of_class & -> & Hwas & Hother).
  eexists. split; [done |]. split.
  - rewrite get_path_stored, getitem_setitem_eq.
    by rewrite getitem_setitem_eq.
  - intros a' c' Hne. rewrite !get_path_stored.
    destruct (decide (c' = class_name)) as [->|Hc].
    + rewrite getitem_setitem_eq.
      assert (Ha : a' ≠ assignment) by congruence.
      rewrite (getitem_setitem_ne _ _ _ _ Ha).
      destruct Hwas as [-> | [Hno ->]]; [done |].
      by rewrite (has_key_getitem _ _ Hno).
    + rewrite (getitem_setitem_ne _ _ _ _ Hc). by rewrite Hother.
Qed.

(** After [set_path(assignment, class_name, path)] on a file that holds
    paths, [get_path] gives that path back for the same assignment and
    class, and what it gave before for every other pair; [set_path] does
    not fail, whether or not the class or the assignment was there. *)
Theorem set_path_get_path (paths : dict (dict string))
    (assignment class_name path : string) :
  ∃ paths',
    set_path (PathsFile paths) assignment class_name path
    = (Return tt, PathsFile paths')
    ∧ get_path (PathsFile paths') assignment class_name
      = Return (Some path)
    ∧ ∀ assignment' class_name',
        (assignment', class_name') ≠ (assignment, class_name) →
        get_path (PathsFile paths') assignment' class_name'
        = get_path (PathsFile paths) assignment' class_name'.
Proof. apply set_path_get_path_aux. Qed.

Lemma create_json_run (file : json_file) :
  create_json file
  = match file with
    | NoDirectory => (Throw (OSError "submissions_path.json"), NoDirectory)
    | NoFile | EmptyFile => (Return tt, PathsFile [])
    | PathsFile paths => (Return tt, PathsFile paths)
    end.
Proof. by destruct file. Qed.

(** Constructing a [SubmissionsPaths] where the directory of the file is
    missing raises the [FileNotFoundError] of [open], and no file is made.
    With the directory in place, whatever is at the path (no file, an
    empty file, or stored paths), the constructor succeeds, [set_path]
    then succeeds, and a [SubmissionsPaths] constructed afterwards leaves
    the file as it is and still finds the path.  When there was no file or
    an empty one, every other pair has no path. *)
Theorem paths_survive_restart (file : json_file)
    (assignment class_name path : string) :
  create_json NoDirectory
  = (Throw (OSError "submissions_path.json"), NoDirectory)
  ∧ (file ≠ NoDirectory →
     ∃ file0 file',
       create_json file = (Return tt, file0)
       ∧ set_path file0 assignment class_name path = (Return tt, file')
       ∧ create_json file' = (Return tt, file')
       ∧ get_path file' assignment class_name = Return (Some path)
       ∧ (file = NoFile ∨ file = EmptyFile →
          ∀ assignment' class_name',
            (assignment', class_name') ≠ (assignment, class_name) →
            get_path file' assignment' class_name' = Return None)).
Proof.
  split; [done |]. intros Hdir.
  assert (Hc : ∃ paths, create_json file = (Return tt, PathsFile paths)
                        ∧ (file = NoFile ∨ file = EmptyFile → paths = [])).
  { rewrite create_json_run.
    destruct file as [| | |paths]; [done | | |]; eexists; (split; [done |]).
    - done.
    - done.
    - by intros [? | ?]. }
  destruct Hc as (paths & Hcreate & Hfresh).
  destruct (set_path_get_path_aux paths assignment class_name path)
    as (paths' & Hset & Hget & Hother).
  exists (PathsFile paths), (PathsFile paths').
  split_and!; [done | done | done | done |].
  intros Hf a' c' Hne.
  rewrite (Hother a' c' Hne), (Hfresh Hf). done.
Qed.

(** ** Tables *)

Lemma py_index_nat (len k : nat) :
  k < len → py_index len (Z.of_nat k) = Some k.
Proof.
  intros Hk. unfold py_index.
  rewrite bool_decide_true by lia. by rewrite Nat2Z.id.
Qed.

Lemma py_index_lt (len : nat) (i : Z) (n : nat) :
  py_index len i = Some n → n < len.
Proof.
  unfold py_index. repeat case_bool_decide; intros [= <-]; lia.
Qed.

Lemma py_index_range (len : nat) (i : Z) :
  py_index len i = None ↔ (i < - Z.of_nat len ∨ Z.of_nat len ≤ i)%Z.
Proof.
  unfold py_index. repeat case_bool_decide; split; (done || lia).
Qed.

Lemma list_getitem_nat {A} (l : list A) (k : nat) (x : A) :
  l !! k = Some x → list_getitem l (Z.of_nat k) = Ok x.
Proof.
  intros Hk. unfold list_getitem.
  rewrite py_index_nat by (by eapply lookup_lt_Some). by rewrite Hk.
Qed.

(** Overwriting position [k] of a list that agrees with [new] before [k]
    and with [old] from [k] on. *)
Lemma insert_take_drop {A} (new old : list A) (k : nat) (x : A) :
  new !! k = Some x →
  k < length old →
  <[k := x]> (take k new ++ drop k old)
  = take (S k) new ++ drop (S k) old.
Proof.
  intros Hx Hk.
  assert (Hlen : length (take k new) = k).
  { rewrite length_take. apply lookup_lt_Some in Hx. lia. }
  rewrite insert_app_r_alt by lia. rewrite Hlen, Nat.sub_diag.
  destruct (lookup_lt_is_Some_2 old k Hk) as [y Hy].
  rewrite (drop_S _ _ _ Hy). simpl.
  rewrite (take_S_r _ _ _ Hx). by rewrite <- app_assoc.
Qed.

Lemma with_rows_id (t : Table) : with_rows (rows_content t) t = t.
Proof. by destruct t. Qed.

Lemma with_headers_id (t : Table) : with_headers (col_headers t) t = t.
Proof. by destruct t. Qed.

Lemma set_cells_loop (row : Z) (content old : list string) (n m : nat) :
  ∀ (k : nat) (t : Table),
    py_index (length (rows_content t)) row = Some n →
    rows_content t !! n = Some (take k content ++ drop k old) →
    k + m = length content →
    length content ≤ length old →
    for_each (Z.of_nat <$> seq k m) (set_cell row content) t
    = (Return tt,
       with_rows
         (<[n := content ++ drop (length content) old]> (rows_content t)) t).
Proof.
  induction m as [|m IH]; intros k t Hrow Hcells Hkm Hlen; simpl.
  - assert (k = length content) as -> by lia.
    rewrite firstn_all in Hcells.
    rewrite list_insert_id by done. by rewrite with_rows_id.
  - destruct (lookup_lt_is_Some_2 content k) as [c Hc]; [lia |].
    unfold set_cell at 1. rewrite (list_getitem_nat _ _ _ Hc).
    unfold list_getitem at 1. rewrite Hrow, Hcells.
    assert (Hcl : length (take k content ++ drop k old) = length old).
    { rewrite length_app, length_take, length_drop. lia. }
    unfold list_setitem. rewrite py_index_nat by lia.
    rewrite insert_take_drop by (done || lia).
    rewrite IH; simpl.
    + by rewrite list_insert_insert_eq.
    + by rewrite length_insert.
    + apply list_lookup_insert_eq. by eapply py_index_lt.
    + lia.
    + done.
Qed.

Lemma set_row_content_run (t : Table) (row : Z) (n : nat)
    (content old : list string) :
  py_index (length (rows_content t)) row = Some n →
  rows_content t !! n = Some old →
  Z.of_nat (length content) = col_count t →
  length content ≤ length old →
  set_row_content row content t
  = (Return tt,
     with_rows
       (<[n := content ++ drop (length content) old]> (rows_content t)) t).
Proof.
  intros Hrow Hold Hcount Hlen.
  unfold set_row_content. rewrite bool_decide_false by lia.
  unfold py_range. rewrite <- Hcount, Nat2Z.id.
  apply (set_cells_loop row content old n (length content) O t); done.
Qed.

(** [set_row_content] on a row that is there and has room for the cells:
    the row becomes the new cells (followed by what it had beyond them),
    every other row and attribute stays, and selecting the row then gives
    the new cells back.  A negative [row] counts from the last row. *)
Theorem set_row_content_writes (t : Table) (row : Z) (n : nat)
    (content old : list string) :
  py_index (length (rows_content t)) row = Some n →
  rows_content t !! n = Some old →
  Z.of_nat (length content) = col_count t →
  length content ≤ length old →
  let t' := with_rows
              (<[n := content ++ drop (length content) old]> (rows_content t))
              t in
  set_row_content row content t = (Return tt, t')
  ∧ (well_shaped t →
     well_shaped t'
     ∧ rows_content t' = <[n := content]> (rows_content t)
     ∧ get_selected_row_content (select_row (Some row) t')
       = Return content).
Proof.
  intros Hrow Hold Hcount Hlen t'. split.
  - by apply set_row_content_run.
  - intros (Hh & Hr & Hcells).
    assert (Hold_len : length old = length content).
    { rewrite Forall_forall in Hcells.
      assert (Z.of_nat (length old) = col_count t)
        by (apply Hcells; by eapply list_elem_of_lookup_2).
      lia. }
    assert (Hfull : content ++ drop (length content) old = content).
    { rewrite <- Hold_len, drop_all. apply app_nil_r. }
    subst t'. rewrite Hfull. split_and!.
    + unfold well_shaped. simpl. rewrite length_insert.
      split_and!; [done | done |].
      apply Forall_insert; [done | lia].
    + done.
    + unfold get_selected_row_content, list_getitem. simpl.
      rewrite length_insert, Hrow.
      rewrite list_lookup_insert_eq by (by eapply py_index_lt). done.
Qed.

Lemma set_row_content_writes_witness :
  set_row_content (-1) ["hw2"; "Unpublished"]
    (set_column_count 2 (set_row_count 2 Table_init))
  = (Return tt,
     with_rows [[""; ""]; ["hw2"; "Unpublished"]]
       (set_column_count 2 (set_row_count 2 Table_init))).
Proof.
  apply (set_row_content_writes
           (set_column_count 2 (set_row_count 2 Table_init)) (-1) 1
           ["hw2"; "Unpublished"] [""; ""]); vm_compute; (done || lia).
Defined.

(** What [set_row_content] refuses, and what it lets through: a list of
    cells of the wrong length is refused with [GuiException] before
    anything is written; with the right length and at least one column, a
    row index outside the table raises [IndexError] and nothing is written;
    but in a table without columns the loop body never runs, so any row
    index at all is accepted. *)
Theorem set_row_content_refuses (t : Table) (row : Z)
    (content : list string) :
  (Z.of_nat (length content) ≠ col_count t →
   set_row_content row content t
   = (Throw (GuiException
               "Number of cells in this row do not matchnumber of columns"),
      t))
  ∧ (Z.of_nat (length content) = col_count t →
     content ≠ [] →
     py_index (length (rows_content t)) row = None →
     set_row_content row content t = (Throw (Builtin IndexError), t))
  ∧ (col_count t = 0%Z →
     set_row_content row [] t = (Return tt, t)).
Proof.
  unfold set_row_content. split_and!.
  - intros Hne. by rewrite bool_decide_true.
  - intros Heq Hnonempty Hrow. rewrite bool_decide_false by lia.
    destruct content as [|c content]; [done |].
    unfold py_range. rewrite <- Heq, Nat2Z.id. simpl.
    unfold set_cell, list_getitem. simpl. by rewrite Hrow.
  - intros Hzero. rewrite bool_decide_false by (simpl; lia).
    by rewrite Hzero.
Qed.

Lemma set_headers_loop (headers old : list string) (m : nat) :
  ∀ (k : nat) (t : Table),
    col_headers t = take k headers ++ drop k old →
    k + m = length headers →
    length headers ≤ length old →
    for_each (Z.of_nat <$> seq k m)
      (λ index t,
         match list_getitem headers index with
         | Ok header => set_column_header index header t
         | Raise e => (Throw (Builtin e), t)
         end) t
    = (Return tt,
       with_headers (headers ++ drop (length headers) old) t).
Proof.
  induction m as [|m IH]; intros k t Hcur Hkm Hlen; simpl.
  - assert (k = length headers) as -> by lia.
    rewrite firstn_all in Hcur. by rewrite <- Hcur, with_headers_id.
  - destruct (lookup_lt_is_Some_2 headers k) as [h Hh]; [lia |].
    rewrite (list_getitem_nat _ _ _ Hh).
    unfold set_column_header, list_setitem. rewrite Hcur.
    assert (Hcl : length (take k headers ++ drop k old) = length old).
    { rewrite length_app, length_take, length_drop. lia. }
    rewrite py_index_nat by lia.
    rewrite insert_take_drop by (done || lia).
    rewrite IH; simpl; (done || lia).
Qed.

Lemma setup_well_shaped (rows cols : nat) :
  let t := set_column_count (Z.of_nat cols)
             (set_row_count (Z.of_nat rows) Table_init) in
  well_shaped t
  ∧ rows_content t = replicate rows (replicate cols "")
  ∧ col_headers t = replicate cols "".
Proof.
  intros t. subst t. unfold set_column_count, set_row_count. simpl.
  rewrite !Nat2Z.id. split_and!.
  - unfold well_shaped. simpl. rewrite length_fmap, !length_replicate.
    split_and!; [done | done |].
    apply Forall_fmap, Forall_replicate. simpl.
    by rewrite length_replicate.
  - by rewrite fmap_replicate.
  - done.
Qed.

Lemma set_column_headers_run (headers : list string) (t : Table) :
  well_shaped t →
  length headers = Z.to_nat (col_count t) →
  set_column_headers headers t = (Return tt, with_headers headers t)
  ∧ well_shaped (with_headers headers t).
Proof.
  intros (Hh & Hr & Hcells) Hlen. unfold set_column_headers.
  rewrite bool_decide_false by lia. unfold py_range.
  rewrite <- Hlen.
  rewrite (set_headers_loop headers (col_headers t) (length headers)
             O t) by (done || lia).
  assert (length (col_headers t) = length headers) as <- by lia.
  rewrite drop_all, app_nil_r. split; [done |].
  unfold well_shaped. simpl. split_and!; [lia | done | done].
Qed.

(** A table set up the way the table constructors do it ([Table()], then
    [set_row_count], then [set_column_count], with counts that are not
    negative) has the sizes that its counts say, all cells and headers
    empty.  On any table with those sizes, [set_column_headers] stores
    exactly the headers given when there are as many as columns, and
    raises [GuiException] without storing any when there are not. *)
Theorem table_setup (rows cols : nat) (headers : list string) :
  let t := set_column_count (Z.of_nat cols)
             (set_row_count (Z.of_nat rows) Table_init) in
  well_shaped t
  ∧ rows_content t = replicate rows (replicate cols "")
  ∧ col_headers t = replicate cols ""
  ∧ ∀ t0,
      well_shaped t0 →
      (length headers = Z.to_nat (col_count t0) →
       set_column_headers headers t0
       = (Return tt, with_headers headers t0)
       ∧ well_shaped (with_headers headers t0))
      ∧ (Z.of_nat (length headers) ≠ col_count t0 →
         set_column_headers headers t0
         = (Throw (GuiException
                     "Number of headers do not match number of columns"),
            t0)).
Proof.
  intros t. destruct (setup_well_shaped rows cols) as (H1 & H2 & H3).
  split_and!; try done.
  intros t0 Hshape. split.
  - intros Hlen. by apply set_column_headers_run.
  - intros Hne. unfold set_column_headers. by rewrite bool_decide_true.
Qed.

(** ** Sorting *)

Section insertion.
Context {A K : Type} (lt : K → K → bool) (key : A → K) (reverse : bool).

(** [passes x y]: [y] goes before [x] when [x] is inserted. *)
Let passes (x y : A) : bool :=
  if reverse then lt (key x) (key y) else lt (key y) (key x).

Hypothesis passes_asym : ∀ x y, passes x y = true → passes y x = false.
Hypothesis stays_trans :
  ∀ x y z, passes x y = false → passes y z = false → passes x z = false.

Lemma insert_sorted_Permutation (x : A) (l : list A) :
  insert_sorted lt key reverse x l ≡ₚ x :: l.
Proof.
  induction l as [|y ys IH]; simpl; [done |].
  fold (passes x y). destruct (passes x y); [| done].
  rewrite IH. apply Permutation_swap.
Qed.

Lemma sorted_Permutation (l : list A) : sorted lt key reverse l ≡ₚ l.
Proof.
  induction l as [|x l IH]; simpl; [done |].
  unfold sorted in *. simpl.
  by rewrite insert_sorted_Permutation, IH.
Qed.

Lemma insert_sorted_StronglySorted (x : A) (l : list A) :
  StronglySorted (λ a b, passes a b = false) l →
  StronglySorted (λ a b, passes a b = false)
    (insert_sorted lt key reverse x l).
Proof.
  induction 1 as [|y ys Hys IH Hy]; simpl.
  - by repeat constructor.
  - fold (passes x y). destruct (passes x y) eqn:Hxy.
    + constructor; [done |].
      rewrite insert_sorted_Permutation. constructor; [| done].
      by apply passes_asym.
    + constructor; [by constructor |].
      constructor; [done |].
      eapply Forall_impl; [exact Hy |]. intros z Hz. simpl in Hz.
      by eapply stays_trans.
Qed.

Lemma sorted_StronglySorted (l : list A) :
  StronglySorted (λ a b, passes a b = false) (sorted lt key reverse l).
Proof.
  induction l as [|x l IH]; [constructor |].
  unfold sorted in *. simpl. by apply insert_sorted_StronglySorted.
Qed.

(** Items that never pass one another keep the order of the input. *)
Lemma sorted_stable (P : A → Prop) `{!∀ a, Decision (P a)} (l : list A) :
  (∀ x y, P x → P y → passes x y = false) →
  filter P (sorted lt key reverse l) = filter P l.
Proof.
  intros Hsame.
  assert (Hins : ∀ x l, filter P (insert_sorted lt key reverse x l)
                        = filter P (x :: l)).
  { intros x l'. induction l' as [|y ys IH]; simpl; [done |].
    fold (passes x y). destruct (passes x y) eqn:Hxy; [| done].
    rewrite (filter_cons _ y), IH, !filter_cons.
    destruct (decide (P x)) as [Hx|Hx], (decide (P y)) as [Hy|Hy];
      try done.
    by rewrite (Hsame x y Hx Hy) in Hxy. }
  induction l as [|x l IH]; [done |].
  unfold sorted in *. simpl. rewrite Hins, !filter_cons, IH. done.
Qed.
End insertion.

(** ** The assignment table *)

Lemma string_ltb_leb (a b : string) : String.ltb a b = negb (String.leb b a).
Proof.
  unfold String.ltb, String.leb. rewrite (String.compare_antisym b a).
  by destruct (String.compare a b).
Qed.

Lemma string_ltb_asym (a b : string) :
  String.ltb a b = true → String.ltb b a = false.
Proof.
  rewrite !string_ltb_leb. intros Hab%negb_true_iff.
  destruct (String.leb_total a b) as [H | H]; [by rewrite H | congruence].
Qed.

Lemma string_ltb_trans (a b c : string) :
  String.ltb a b = false → String.ltb b c = false → String.ltb a c = false.
Proof.
  rewrite !string_ltb_leb, !negb_false_iff.
  intros Hba Hcb. apply Is_true_true.
  apply Is_true_true in Hba, Hcb.
  by apply (transitivity (R := String.le) (y := b)).
Qed.

Lemma assignment_content_length (a : Assignment) :
  length (assignment_content a) = 2.
Proof. unfold assignment_content. by destruct (is_published a). Qed.

Lemma with_rows_with_rows (r1 r2 : list (list string)) (t : Table) :
  with_rows r2 (with_rows r1 t) = with_rows r2 t.
Proof. done. Qed.

Lemma assignment_rows_loop (assignments : list Assignment)
    (old : list (list string)) (m : nat) :
  ∀ (k : nat) (t : Table),
    col_count t = 2%Z →
    Forall (λ cells, length cells = 2) old →
    rows_content t
    = take k (assignment_content <$> assignments) ++ drop k old →
    k + m ≤ length assignments →
    k + m ≤ length old →
    for_each (Z.of_nat <$> seq k m)
      (λ row t,
         match list_getitem assignments row with
         | Ok assignment =>
             set_row_content row (assignment_content assignment) t
         | Raise e => (Throw (Builtin e), t)
         end) t
    = (Return tt,
       with_rows
         (take (k + m) (assignment_content <$> assignments)
          ++ drop (k + m) old) t).
Proof.
  induction m as [|m IH]; intros k t Hcols Hold Hrows Hka Hko; simpl.
  - rewrite Nat.add_0_r, <- Hrows. by rewrite with_rows_id.
  - destruct (lookup_lt_is_Some_2 assignments k) as [a Ha]; [lia |].
    destruct (lookup_lt_is_Some_2 old k) as [cells Hcells]; [lia |].
    rewrite (list_getitem_nat _ _ _ Ha).
    assert (Hlen : length (rows_content t) = length old).
    { rewrite Hrows, length_app, length_take, length_drop, length_fmap.
      lia. }
    assert (Hk : rows_content t !! k = Some cells).
    { rewrite Hrows, lookup_app_r; rewrite length_take, length_fmap;
        [| lia].
      rewrite lookup_drop. replace (k + (k - k `min` length assignments))
        with k by lia. done. }
    assert (Hc2 : length cells = 2).
    { rewrite Forall_forall in Hold. apply Hold.
      by eapply list_elem_of_lookup_2. }
    rewrite (set_row_content_run t (Z.of_nat k) k (assignment_content a)
               cells);
      [| apply py_index_nat; lia | done
       | rewrite assignment_content_length; lia
       | rewrite assignment_content_length; lia].
    rewrite assignment_content_length, <- Hc2, drop_all, app_nil_r.
    rewrite IH; simpl.
    + rewrite with_rows_with_rows.
      by replace (k + S m) with (S (k + m)) by lia.
    + done.
    + done.
    + rewrite Hrows. apply insert_take_drop; [| lia].
      by rewrite list_lookup_fmap, Ha.
    + lia.
    + lia.
Qed.

Lemma AssignmentTable_set_rows_content_run (assignments : list Assignment)
    (t : Table) :
  well_shaped t →
  col_count t = 2%Z →
  length (rows_content t) ≤ length assignments →
  AssignmentTable_set_rows_content assignments t
  = (Return tt,
     with_rows
       (assignment_content <$> take (length (rows_content t)) assignments)
       t).
Proof.
  intros (Hh & Hr & Hcells) Hcols Hlen.
  unfold AssignmentTable_set_rows_content, py_range.
  rewrite <- Hr, Nat2Z.id.
  rewrite (assignment_rows_loop assignments (rows_content t)
             (length (rows_content t)) O t); try done; try lia.
  - simpl. by rewrite drop_all, app_nil_r, fmap_take.
  - eapply Forall_impl; [exact Hcells |]. simpl. intros cells Hc. lia.
Qed.

Lemma StronglySorted_weaken {A} (R1 R2 : A → A → Prop) (l : list A) :
  (∀ a b, R1 a b → R2 a b) → StronglySorted R1 l → StronglySorted R2 l.
Proof.
  intros Himpl. induction 1 as [|x l Hl IH Hx]; constructor; [done |].
  eapply Forall_impl; [exact Hx | auto].
Qed.

Lemma string_ltb_false_le (a b : string) :
  String.ltb a b = false → String.le b a.
Proof.
  rewrite string_ltb_leb, negb_false_iff. intros H. by apply Is_true_true.
Qed.

Lemma z_ltb_asym (a b : Z) : (a <? b)%Z = true → (b <? a)%Z = false.
Proof. intros H%Z.ltb_lt. apply Z.ltb_ge. lia. Qed.

Lemma z_ltb_trans (a b c : Z) :
  (a <? b)%Z = false → (b <? c)%Z = false → (a <? c)%Z = false.
Proof. rewrite !Z.ltb_ge. lia. Qed.

Lemma string_ltb_irrefl (a : string) : String.ltb a a = false.
Proof.
  destruct (String.ltb a a) eqn:H; [| done].
  by rewrite (string_ltb_asym _ _ H) in H.
Qed.

(** What the order of [set_sorting_order] is: a rearrangement of the
    assignments, in order by the key of the column, in which assignments
    with the same key stand as they did. *)
Lemma shown_order_spec (col order : Z) (assignments : list Assignment) :
  shown_order col order assignments ≡ₚ assignments
  ∧ StronglySorted (in_shown_order col order)
      (shown_order col order assignments)
  ∧ ∀ a, filter (same_key col a) (shown_order col order assignments)
         = filter (same_key col a) assignments.
Proof.
  split_and!.
  - unfold shown_order. destruct (col =? 0)%Z; apply sorted_Permutation.
  - unfold shown_order, in_shown_order.
    destruct (col =? 0)%Z, (order =? 0)%Z; simpl.
    + eapply StronglySorted_weaken;
        [| apply (sorted_StronglySorted String.ltb name false)].
      * intros a b. apply string_ltb_false_le.
      * intros x y. apply string_ltb_asym.
      * intros x y z H1 H2. by eapply string_ltb_trans.
    + eapply StronglySorted_weaken;
        [| apply (sorted_StronglySorted String.ltb name true)].
      * intros a b. apply string_ltb_false_le.
      * intros x y. apply string_ltb_asym.
      * intros x y z H1 H2. by eapply string_ltb_trans.
    + eapply StronglySorted_weaken;
        [| apply (sorted_StronglySorted Z.ltb students_submitted_count
                    false)].
      * intros a b. simpl. rewrite Z.ltb_ge. lia.
      * intros x y. apply z_ltb_asym.
      * intros x y z H1 H2. by eapply z_ltb_trans.
    + eapply StronglySorted_weaken;
        [| apply (sorted_StronglySorted Z.ltb students_submitted_count
                    true)].
      * intros a b. simpl. rewrite Z.ltb_ge. lia.
      * intros x y. apply z_ltb_asym.
      * intros x y z H1 H2. by eapply z_ltb_trans.
  - intros a. unfold shown_order.
    destruct (col =? 0)%Z eqn:Hcol.
    + apply sorted_stable. intros x y Hx Hy.
      unfold same_key in Hx, Hy. rewrite Hcol in Hx, Hy.
      rewrite <- Hx, <- Hy.
      destruct (negb (order =? 0)%Z); apply string_ltb_irrefl.
    + apply sorted_stable. intros x y Hx Hy.
      unfold same_key in Hx, Hy. rewrite Hcol in Hx, Hy.
      rewrite <- Hx, <- Hy.
      destruct (negb (order =? 0)%Z); apply Z.ltb_irrefl.
Qed.

Lemma AssignmentTable_set_sorting_order_run (col order : Z)
    (self : AssignmentTable) :
  fits_class self →
  let self' :=
    {| table :=
         with_rows
           (assignment_content
              <$> shown_order col order (get_assignment_list (_class self)))
           (table self);
       _class := _class self;
       current_assignment := current_assignment self;
       sorting_order := Some (col, order) |} in
  AssignmentTable_set_sorting_order col order self = (Return tt, self')
  ∧ fits_class self'.
Proof.
  intros (Hshape & Hcols & Hrows) self'.
  destruct (shown_order_spec col order (get_assignment_list (_class self)))
    as (Hperm & _ & _).
  assert (Hlen : length (shown_order col order (get_assignment_list (_class self)))
                 = length (get_assignment_list (_class self)))
    by (by rewrite Hperm).
  split.
  - unfold AssignmentTable_set_sorting_order. simpl.
    assert (Heq : (if (col =? 0)%Z
                   then if (order =? 0)%Z
                        then sorted String.ltb name false
                               (get_assignment_list (_class self))
                        else sorted String.ltb name true
                               (get_assignment_list (_class self))
                   else if (order =? 0)%Z
                        then sorted Z.ltb students_submitted_count false
                               (get_assignment_list (_class self))
                        else sorted Z.ltb students_submitted_count true
                               (get_assignment_list (_class self)))
                  = shown_order col order (get_assignment_list (_class self))).
    { unfold shown_order. by destruct (col =? 0)%Z, (order =? 0)%Z. }
    rewrite Heq.
    rewrite AssignmentTable_set_rows_content_run by (done || lia).
    rewrite Hrows, <- Hlen, firstn_all. done.
  - destruct Hshape as (Hh & Hr & Hcells).
    unfold fits_class, well_shaped. subst self'. simpl.
    rewrite length_fmap, Hlen. split_and!; try done; try lia.
    apply Forall_fmap, Forall_forall. intros a _. simpl.
    rewrite assignment_content_length. lia.
Qed.

(** On a table that fits its class, [set_sorting_order(col, order)] does
    not fail and leaves one row for each assignment of the class, each
    assignment once: sorted by name for column 0 and by the number of
    students who submitted for any other column, ascending for order 0 and
    descending for any other order, with assignments of equal key in the
    order of the class's list.  The row of an assignment is its name and
    that number, or "Unpublished". *)
Theorem set_sorting_order_sorts (col order : Z) (self : AssignmentTable) :
  fits_class self →
  ∃ self' shown,
    AssignmentTable_set_sorting_order col order self = (Return tt, self')
    ∧ rows_content (table self') = assignment_content <$> shown
    ∧ shown ≡ₚ get_assignment_list (_class self)
    ∧ StronglySorted (in_shown_order col order) shown
    ∧ (∀ a, filter (same_key col a) shown
            = filter (same_key col a) (get_assignment_list (_class self)))
    ∧ sorting_order self' = Some (col, order)
    ∧ current_assignment self' = current_assignment self
    ∧ _class self' = _class self
    ∧ fits_class self'.
Proof.
  intros Hfits.
  destruct (AssignmentTable_set_sorting_order_run col order self Hfits)
    as [Hrun Hfits'].
  destruct (shown_order_spec col order (get_assignment_list (_class self)))
    as (Hperm & Hsorted & Hstable).
  eexists _, (shown_order col order (get_assignment_list (_class self))).
  split; [exact Hrun |]. by split_and!.
Qed.

Lemma for_each_app {S A} (l1 l2 : list A) (body : A → S → res unit * S)
    (s : S) :
  for_each (l1 ++ l2) body s
  = match for_each l1 body s with
    | (Return _, s') => for_each l2 body s'
    | (Throw e, s') => (Throw e, s')
    end.
Proof.
  revert s. induction l1 as [|x l1 IH]; intros s; simpl; [done |].
  destruct (body x s) as [[[]|e] s']; [apply IH | done].
Qed.

(** Constructing the table of a class whose assignment count is the length
    of its assignment list succeeds: the headers are "Assignment Name" and
    "Students Submitted", there is one row for each assignment, and the
    rows are in ascending order of name.  With a count larger than the
    list the constructor raises [IndexError]. *)
Theorem AssignmentTable_init_shows (a_class : FacultyClass) :
  (assignment_count a_class
   = Z.of_nat (length (get_assignment_list a_class)) →
   ∃ self shown,
     AssignmentTable_init a_class = (Return tt, self)
     ∧ col_headers (table self)
       = ["Assignment Name"; "Students Submitted"]
     ∧ rows_content (table self) = assignment_content <$> shown
     ∧ shown ≡ₚ get_assignment_list a_class
     ∧ StronglySorted (λ a b, String.le (name a) (name b)) shown
     ∧ sorting_order self = Some (0, 0)%Z
     ∧ current_assignment self = None
     ∧ fits_class self)
  ∧ ((Z.of_nat (length (get_assignment_list a_class))
      < assignment_count a_class)%Z →
     fst (AssignmentTable_init a_class) = Throw (Builtin IndexError)).
Proof.
  split.
  - intros Hcount. unfold AssignmentTable_init. rewrite Hcount.
    destruct (setup_well_shaped (length (get_assignment_list a_class)) 2)
      as (Hshape & Hrows & Hheaders).
    change (Z.of_nat 2) with 2%Z in *.
    destruct (set_column_headers_run
                ["Assignment Name"; "Students Submitted"] _ Hshape)
      as [-> Hshape']; [done |].
    match goal with
    | |- context [AssignmentTable_set_sorting_order 0 0 ?s] =>
        destruct (AssignmentTable_set_sorting_order_run 0 0 s)
          as [-> Hfits]
    end.
    { split_and!; [done | done |].
      change (length
                (rows_content
                   (set_column_count 2
                      (set_row_count
                         (Z.of_nat (length (get_assignment_list a_class)))
                         Table_init)))
              = length (get_assignment_list a_class)).
      rewrite Hrows. apply length_replicate. }
    destruct (shown_order_spec 0 0 (get_assignment_list a_class))
      as (Hperm & Hsorted & _).
    eexists _, (shown_order 0 0 (get_assignment_list a_class)).
    split; [done |]. by split_and!.
  - intros Hstale. unfold AssignmentTable_init.
    set (len := length (get_assignment_list a_class)) in *.
    set (n := Z.to_nat (assignment_count a_class)).
    assert (Hn : len < n) by lia.
    assert (Hcount : assignment_count a_class = Z.of_nat n) by lia.
    rewrite Hcount.
    destruct (setup_well_shaped n 2) as (Hshape & Hrows & Hheaders).
    change (Z.of_nat 2) with 2%Z in *.
    destruct (set_column_headers_run
                ["Assignment Name"; "Students Submitted"] _ Hshape)
      as [-> Hshape']; [done |].
    unfold AssignmentTable_set_sorting_order. simpl.
    match goal with
    | |- context [AssignmentTable_set_rows_content ?l ?t] =>
        set (shown := l); set (t0 := t)
    end.
    assert (Hlen : length shown = len).
    { subst shown.
      by rewrite (sorted_Permutation String.ltb name false). }
    unfold AssignmentTable_set_rows_content, py_range.
    assert (Hrc : row_count t0 = Z.of_nat n) by done.
    assert (Hrt : rows_content t0 = replicate n (replicate 2 ""))
      by exact Hrows.
    rewrite Hrc, Nat2Z.id.
    replace n with (len + (n - len)) at 1 by lia.
    rewrite seq_app, fmap_app, for_each_app.
    rewrite (assignment_rows_loop shown (rows_content t0) len O t0);
      [| done | | done | lia | ].
    + destruct (n - len) as [|m] eqn:Hm; [lia |]. simpl.
      unfold list_getitem. rewrite Hlen.
      assert (py_index len (Z.of_nat len) = None) as ->; [| done].
      apply py_index_range. lia.
    + rewrite Hrt. by apply Forall_replicate.
    + rewrite Hrt, length_replicate. lia.
Qed.

Lemma set_sorting_order_sorts_witness :
  ∃ self self',
    AssignmentTable_init example_class = (Return tt, self)
    ∧ rows_content (table self)
      = [["hw1"; "12"]; ["hw10"; "7"]; ["hw2"; "Unpublished"]]
    ∧ AssignmentTable_set_sorting_order 1 1 self = (Return tt, self')
    ∧ rows_content (table self')
      = [["hw1"; "12"]; ["hw10"; "7"]; ["hw2"; "Unpublished"]]
    ∧ sorting_order self' = Some (1, 1)%Z.
Proof.
  assert (Hinit : ∃ self, AssignmentTable_init example_class
                          = (Return tt, self)
                          ∧ fits_class self
                          ∧ rows_content (table self)
                            = [["hw1"; "12"]; ["hw10"; "7"];
                               ["hw2"; "Unpublished"]]
                          ∧ _class self = example_class).
  { eexists. split; [vm_compute; reflexivity |].
    split; [| split; reflexivity].
    split_and!; [| reflexivity | reflexivity].
    split_and!; [reflexivity | reflexivity |].
    repeat constructor. }
  destruct Hinit as (self & Hinit & Hfits & Hrows & Hclass).
  destruct (set_sorting_order_sorts 1 1 self Hfits)
    as (self' & shown & Hrun & Hrows' & _ & _ & _ & Hord & _).
  exists self, self'. split_and!; try done.
  assert (Hc : rows_content
                 (table (AssignmentTable_set_sorting_order 1 1
                           (AssignmentTable_init example_class).2).2)
               = [["hw1"; "12"]; ["hw10"; "7"]; ["hw2"; "Unpublished"]])
    by (vm_compute; reflexivity).
  rewrite Hinit in Hc. simpl in Hc. rewrite Hrun in Hc. exact Hc.
Defined.

(** Clicking a column header of the assignment table: the first click
    sorts by that column, descending if the window's sorting order was
    already that column ascending and ascending otherwise; a second click
    on the same column reverses the direction; a click on another column
    sorts by it, ascending. *)
Theorem change_assignments_sorting_order_toggles (col : Z)
    (self : ClassWindowInfo) :
  fits_class (current_assignment_table self) →
  let assignments :=
    get_assignment_list (_class (current_assignment_table self)) in
  let order1 := if bool_decide (window_sorting_order self = (col, 0%Z))
                then 1%Z else 0%Z in
  ∃ self1 self2,
    change_assignments_sorting_order col self = (Return tt, self1)
    ∧ window_sorting_order self1 = (col, order1)
    ∧ rows_content (table (current_assignment_table self1))
      = assignment_content <$> shown_order col order1 assignments
    ∧ change_assignments_sorting_order col self1 = (Return tt, self2)
    ∧ window_sorting_order self2 = (col, (1 - order1)%Z)
    ∧ rows_content (table (current_assignment_table self2))
      = assignment_content <$> shown_order col (1 - order1) assignments
    ∧ ∀ other,
        other ≠ col →
        ∃ self3,
          change_assignments_sorting_order other self1 = (Return tt, self3)
          ∧ window_sorting_order self3 = (other, 0%Z)
          ∧ rows_content (table (current_assignment_table self3))
            = assignment_content <$> shown_order other 0 assignments.
Proof.
  intros Hfits assignments order1.
  assert (Hstep : ∀ c (s : ClassWindowInfo),
            fits_class (current_assignment_table s) →
            let o := if bool_decide (window_sorting_order s = (c, 0%Z))
                     then 1%Z else 0%Z in
            ∃ s',
              change_assignments_sorting_order c s = (Return tt, s')
              ∧ window_sorting_order s' = (c, o)
              ∧ rows_content (table (current_assignment_table s'))
                = assignment_content
                    <$> shown_order c o
                          (get_assignment_list
                             (_class (current_assignment_table s)))
              ∧ _class (current_assignment_table s')
                = _class (current_assignment_table s)
              ∧ fits_class (current_assignment_table s')).
  { intros c s Hs o. unfold change_assignments_sorting_order.
    assert (Ho : (if (fst (window_sorting_order s) =? c)%Z
                  then if (snd (window_sorting_order s) =? 0)%Z
                       then (c, 1%Z) else (c, 0%Z)
                  else (c, 0%Z)) = (c, o)).
    { subst o. destruct (window_sorting_order s) as [c0 o0]. simpl.
      destruct (Z.eqb_spec c0 c) as [->|Hc], (Z.eqb_spec o0 0) as [->|Ho];
        case_bool_decide; congruence. }
    rewrite Ho. simpl.
    destruct (AssignmentTable_set_sorting_order_run c o
                (current_assignment_table s) Hs) as [-> Hfits'].
    eexists. by split_and!. }
  destruct (Hstep col self Hfits) as (self1 & Hrun1 & Hord1 & Hrows1 & Hc1
                                      & Hfits1).
  destruct (Hstep col self1 Hfits1) as (self2 & Hrun2 & Hord2 & Hrows2 & _).
  assert (Ho2 : (if bool_decide (window_sorting_order self1 = (col, 0%Z))
                 then 1%Z else 0%Z) = (1 - order1)%Z).
  { rewrite Hord1. subst order1.
    destruct (bool_decide (window_sorting_order self = (col, 0%Z)));
      [by rewrite bool_decide_false by congruence
      | by rewrite bool_decide_true by done]. }
  rewrite Ho2 in Hord2, Hrows2. rewrite Hc1 in Hrows2.
  exists self1, self2. split_and!; try done.
  intros other Hother.
  destruct (Hstep other self1 Hfits1) as (self3 & Hrun3 & Hord3 & Hrows3
                                          & _).
  rewrite bool_decide_false in Hord3, Hrows3
    by (rewrite Hord1; congruence).
  rewrite Hc1 in Hrows3. by exists self3.
Qed.

Lemma change_assignments_sorting_order_toggles_witness :
  ∃ self1 self2,
    change_assignments_sorting_order 0
      {| window_sorting_order := (0, 0)%Z;
         current_assignment_table := (AssignmentTable_init example_class).2 |}
    = (Return tt, self1)
    ∧ window_sorting_order self1 = (0, 1)%Z
    ∧ change_assignments_sorting_order 0 self1 = (Return tt, self2)
    ∧ window_sorting_order self2 = (0, 0)%Z.
Proof.
  destruct (change_assignments_sorting_order_toggles 0
              {| window_sorting_order := (0, 0)%Z;
                 current_assignment_table :=
                   (AssignmentTable_init example_class).2 |})
    as (self1 & self2 & H1 & H2 & _ & H3 & H4 & _).
  - split_and!; [| reflexivity | reflexivity].
    split_and!; [reflexivity | reflexivity |]. repeat constructor.
  - by exists self1, self2.
Defined.

Lemma select_assignment_loop_finds (assignments : list Assignment) (row : Z)
    (self : AssignmentTable) (cell : string) :
  res_bind (res_of (list_getitem (rows_content (table self)) row))
    (λ cells, res_of (list_getitem cells 0)) = Return cell →
  (∃ b, b ∈ assignments ∧ name b = cell) →
  ∃ a' before after,
    assignments = before ++ a' :: after
    ∧ Forall (λ b, name b ≠ cell) before
    ∧ name a' = cell
    ∧ select_assignment_loop assignments row self
      = (Return tt,
         {| table := table self; _class := _class self;
            current_assignment := Some a';
            sorting_order := sorting_order self |}).
Proof.
  intros Hcell. induction assignments as [|a l IH]; intros (b & Hb & Hname).
  - by apply elem_of_nil in Hb.
  - simpl. rewrite Hcell. case_bool_decide as Ha.
    + exists a, [], l. by split_and!.
    + destruct IH as (a' & before & after & -> & Hbefore & Ha' & Hrun).
      { apply elem_of_cons in Hb as [-> | Hb]; [done | by exists b]. }
      exists a', (a :: before), after. split_and!; try done.
      by constructor.
Qed.

(** Selecting a row of a table whose rows show a rearrangement of the
    class's assignments: the current assignment becomes an assignment with
    the name shown in that row, namely the first one with that name in the
    class's list, whatever the order of the rows; rows and sorting order
    stay.  A negative row counts from the last row. *)
Theorem AssignmentTable_select_row_finds (self : AssignmentTable)
    (row : Z) (n : nat) (shown : list Assignment) (a : Assignment) :
  rows_content (table self) = assignment_content <$> shown →
  shown ≡ₚ get_assignment_list (_class self) →
  py_index (length shown) row = Some n →
  shown !! n = Some a →
  ∃ self' a' before after,
    AssignmentTable_select_row (Some row) self = (Return tt, self')
    ∧ current_assignment self' = Some a'
    ∧ name a' = name a
    ∧ get_assignment_list (_class self) = before ++ a' :: after
    ∧ Forall (λ b, name b ≠ name a) before
    ∧ selected_row (table self') = Some row
    ∧ rows_content (table self') = rows_content (table self)
    ∧ sorting_order self' = sorting_order self.
Proof.
  intros Hrows Hperm Hrow Ha.
  unfold AssignmentTable_select_row.
  set (self0 := with_table (select_row (Some row) (table self)) self).
  assert (Hcell :
    res_bind (res_of (list_getitem (rows_content (table self0)) row))
      (λ cells, res_of (list_getitem cells 0)) = Return (name a)).
  { subst self0. simpl. rewrite Hrows. unfold list_getitem at 1.
    rewrite length_fmap, Hrow, list_lookup_fmap, Ha. simpl.
    unfold assignment_content. by destruct (is_published a). }
  destruct (select_assignment_loop_finds (get_assignment_list (_class self0))
              row self0 (name a) Hcell)
    as (a' & before & after & Hsplit & Hbefore & Hname & Hrun).
  { exists a. split; [| done]. subst self0. simpl. rewrite <- Hperm.
    by eapply list_elem_of_lookup_2. }
  rewrite Hrun. eexists _, a', before, after. split; [done |].
  by split_and!.
Qed.

Lemma AssignmentTable_select_row_finds_witness :
  ∃ self',
    AssignmentTable_select_row (Some (-1)%Z)
      (AssignmentTable_init example_class).2 = (Return tt, self')
    ∧ current_assignment self'
      = Some {| name := "hw2"; is_published := false;
                students_submitted_count := 0 |}.
Proof.
  destruct (AssignmentTable_select_row_finds
              (AssignmentTable_init example_class).2 (-1) 2
              [ {| name := "hw1"; is_published := true;
                   students_submitted_count := 12 |};
                {| name := "hw10"; is_published := true;
                   students_submitted_count := 7 |};
                {| name := "hw2"; is_published := false;
                   students_submitted_count := 0 |} ]
              {| name := "hw2"; is_published := false;
                 students_submitted_count := 0 |})
    as (self' & a' & before & after & Hrun & Hcur & _).
  - vm_compute. reflexivity.
  - change (get_assignment_list (_class (AssignmentTable_init example_class).2))
      with (get_assignment_list example_class).
    unfold example_class. simpl.
    etransitivity; [apply Permutation_swap |].
    etransitivity; [apply Permutation_skip, Permutation_swap |].
    apply Permutation_swap.
  - vm_compute. reflexivity.
  - reflexivity.
  - exists self'. split; [exact Hrun |].
    assert (Hc : current_assignment
                   (AssignmentTable_select_row (Some (-1)%Z)
                      (AssignmentTable_init example_class).2).2
                 = Some {| name := "hw2"; is_published := false;
                           students_submitted_count := 0 |})
      by (vm_compute; reflexivity).
    rewrite Hrun in Hc. exact Hc.
Defined.

(** ** The info dictionary *)





Lemma submitted_among_spec (info_dict : json)
    (class_name assignment : string) (students : list string) :
  Info.count_submitted info_dict class_name assignment students
  = res_map (λ l, Z.of_nat (length l))
      (Info.submitted_among info_dict class_name assignment students)
  ∧ ∀ l,
      Info.submitted_among info_dict class_name assignment students
      = Return l →
      l `sublist_of` students
      ∧ (∀ student, student ∈ students →
           ∃ count,
             Info.submission_count info_dict class_name assignment student
             = Return count
             ∧ (student ∈ l ↔ py_ne_zero count = true)).
Proof.
  induction students as [|student rest [IHc IHl]]; simpl.
  - split; [done |]. intros l [= <-]. split; [done |].
    by intros ? ?%elem_of_nil.
  - destruct (Info.submission_count _ _ _ student) as [count|e] eqn:Hc;
      simpl; [| done].
    rewrite IHc.
    destruct (Info.submitted_among _ _ _ rest) as [submitted|e];
      simpl; [| done].
    destruct (IHl submitted eq_refl) as [Hsub Hall].
    split.
    + destruct (py_ne_zero count); simpl; f_equal; lia.
    + intros l [= <-]. split.
      * destruct (py_ne_zero count);
          [by apply sublist_skip | by apply sublist_cons].
      * intros u [-> | Hu]%elem_of_cons.
        -- exists count. split; [done |].
           destruct (py_ne_zero count) eqn:Hnz.
           ++ split; [done | intros _; apply list_elem_of_here].
           ++ split; [| done]. intros Hin.
              destruct (Hall student) as (count' & Hc' & Hiff).
              { by eapply elem_of_sublist. }
              rewrite Hc in Hc'. injection Hc' as <-.
              rewrite <- Hnz. by apply Hiff.
        -- destruct (Hall u Hu) as (count' & Hc' & Hiff).
           exists count'. split; [done |].
           destruct (py_ne_zero count) eqn:Hnz; [| done].
           rewrite elem_of_cons. split.
           ++ intros [-> | Hin]; [| by apply Hiff].
              rewrite Hc in Hc'. by injection Hc' as <-.
           ++ intros Hnz'. right. by apply Hiff.
Qed.

(** [student_submitted_count] is the length of
    [students_submitted_list] and fails as it does.  That list is the
    student list of the class with some students left out, in the same
    order: a student is in it exactly when the submission count stored
    for the student is not zero. *)
Theorem students_submitted_spec (info_dict : json)
    (class_name assignment : string) :
  Info.student_submitted_count info_dict class_name assignment
  = res_map (λ l, Z.of_nat (length l))
      (Info.students_submitted_list info_dict class_name assignment)
  ∧ ∀ l,
      Info.students_submitted_list info_dict class_name assignment
      = Return l →
      ∃ students,
        Info.student_list info_dict class_name = Return students
        ∧ l `sublist_of` students
        ∧ ∀ student, student ∈ students →
            ∃ count,
              Info.submission_count info_dict class_name assignment student
              = Return count
              ∧ (student ∈ l ↔ py_ne_zero count = true).
Proof.
  unfold Info.student_submitted_count, Info.students_submitted_list.
  destruct (Info.student_list info_dict class_name) as [students|e];
    simpl; [| done].
  destruct (submitted_among_spec info_dict class_name assignment students)
    as [Hc Hl].
  split; [done |]. intros l Hrun. exists students.
  split; [done |]. by apply Hl.
Qed.

(** [is_published], [assignment_hash] and [assignment_path] look the
    assignment up in the entry of the class itself, not under its
    ["assignments"] key where [assignment_list] and the per-student methods
    read.  So for a class entry without a key of the assignment's name all
    three raise [KeyError] with that name, also for an assignment that
    [assignment_list] lists. *)
Theorem assignment_lookups_miss (info_dict : json)
    (class_name assignment : string) (entries : list (string * json)) :
  py_getitem info_dict class_name = Return (JDict entries) →
  assignment ∉ keys entries →
  Info.is_published info_dict class_name assignment
  = Throw (Builtin (KeyError assignment))
  ∧ Info.assignment_hash info_dict class_name assignment
    = Throw (Builtin (KeyError assignment))
  ∧ Info.assignment_path info_dict class_name assignment
    = Throw (Builtin (KeyError assignment))
  ∧ ∀ assignments,
      getitem entries "assignments" = Ok (JDict assignments) →
      assignment ∈ keys assignments →
      ∃ l, Info.assignment_list info_dict class_name = Return l
           ∧ assignment ∈ l.
Proof.
  intros Hclass Hmiss.
  unfold Info.is_published, Info.assignment_hash, Info.assignment_path,
    Info.assignment_list. simpl. rewrite Hclass. simpl.
  rewrite (getitem_missing _ _ Hmiss). simpl. split_and!; try done.
  intros assignments -> Hin. simpl. eauto.
Qed.

Lemma assignment_lookups_miss_witness :
  Info.is_published example_info_dict "cs101" "hw1"
  = Throw (Builtin (KeyError "hw1"))
  ∧ Info.assignment_list example_info_dict "cs101" = Return ["hw1"].
Proof.
  destruct (assignment_lookups_miss example_info_dict "cs101" "hw1"
              [("students",
                JDict [("ada", JDict [("last_first_username",
                                       JStr "lovelace_ada_ada")]);
                       ("bob", JDict [("last_first_username",
                                       JStr "builder_bob_bob")])]);
               ("assignments",
                JDict
                  [("hw1",
                    JDict
                      [("published", JBool true);
                       ("students_repos",
                        JDict [("ada", JDict [("hash", JStr "a1");
                                              ("submission_count", JInt 2)]);
                               ("bob", JDict [("hash", JStr "b2");
                                              ("submission_count",
                                               JInt 0)])])])])])
    as (H1 & _).
  - reflexivity.
  - apply (bool_decide_unpack _). vm_compute. exact I.
  - split; [exact H1 | reflexivity].
Defined.

Lemma assigned_among_spec (info_dict : json) (class_name uname : string)
    (assignments : list string) :
  ∀ l,
    Info.assigned_among info_dict class_name uname assignments = Return l →
    l `sublist_of` assignments
    ∧ ∀ a, a ∈ assignments →
        ∃ repo,
          py_path info_dict
            [class_name; "assignments"; a; "students_repos"; uname]
          = Return repo
          ∧ (a ∈ l ↔ repo ≠ JNull).
Proof.
  induction assignments as [|a0 rest IH]; simpl.
  - intros l [= <-]. split; [done |]. by intros ? ?%elem_of_nil.
  - intros l.
    destruct (res_bind (py_getitem info_dict class_name) _)
      as [repo0|e] eqn:Hrepo; simpl; [| done].
    destruct (Info.assigned_among _ _ _ rest) as [l'|e]; simpl; [| done].
    destruct (IH l' eq_refl) as [Hsub Hall]. intros [= <-].
    assert (Hnn : py_is_not_None repo0 = true ↔ repo0 ≠ JNull)
      by (by destruct repo0).
    split.
    + destruct (py_is_not_None repo0);
        [by apply sublist_skip | by apply sublist_cons].
    + intros a [-> | Ha]%elem_of_cons.
      * exists repo0. split; [done |]. rewrite <- Hnn.
        destruct (py_is_not_None repo0) eqn:Hp.
        -- split; [done | intros _; apply list_elem_of_here].
        -- split; [| done]. intros Hin.
           destruct (Hall a0) as (repo' & Hr' & Hiff).
           { by eapply elem_of_sublist. }
           simpl in Hr'. rewrite Hrepo in Hr'. injection Hr' as <-.
           apply Hiff in Hin. apply Hnn in Hin. congruence.
      * destruct (Hall a Ha) as (repo' & Hr' & Hiff).
        exists repo'. split; [done |].
        destruct (py_is_not_None repo0) eqn:Hp; [| done].
        rewrite elem_of_cons. split.
        -- intros [-> | Hin]; [| by apply Hiff].
           simpl in Hr'. rewrite Hrepo in Hr'. injection Hr' as <-.
           by apply Hnn.
        -- intros Hne. right. by apply Hiff.
Qed.

(** [assignments_by_student_list] gives the assignment list of the class
    with some left out, in the same order: an assignment is in it exactly
    when what is stored as the student's repository for it is not [None].
    It has no answer when an assignment has no entry at all for the
    student: it then raises [KeyError] with the user name. *)
Theorem assignments_by_student_spec (info_dict : json)
    (class_name uname : string) :
  (∀ l,
     Info.assignments_by_student_list info_dict class_name uname
     = Return l →
     ∃ assignments,
       Info.assignment_list info_dict class_name = Return assignments
       ∧ l `sublist_of` assignments
       ∧ ∀ a, a ∈ assignments →
           ∃ repo,
             py_path info_dict
               [class_name; "assignments"; a; "students_repos"; uname]
             = Return repo
             ∧ (a ∈ l ↔ repo ≠ JNull))
  ∧ (∀ a rest repos,
       Info.assignment_list info_dict class_name = Return (a :: rest) →
       py_path info_dict [class_name; "assignments"; a; "students_repos"]
       = Return (JDict repos) →
       uname ∉ keys repos →
       Info.assignments_by_student_list info_dict class_name uname
       = Throw (Builtin (KeyError uname))).
Proof.
  unfold Info.assignments_by_student_list. split.
  - destruct (Info.assignment_list info_dict class_name)
      as [assignments|e]; simpl; [| done].
    intros l Hrun. exists assignments. split; [done |].
    by apply assigned_among_spec.
  - intros a rest repos -> Hrepos Hmiss. simpl in *.
    destruct (py_getitem info_dict class_name) as [v1|]; simpl in *;
      [| done].
    destruct (py_getitem v1 "assignments") as [v2|]; simpl in *; [| done].
    destruct (py_getitem v2 a) as [v3|]; simpl in *; [| done].
    destruct (py_getitem v3 "students_repos") as [v4|]; simpl in *;
      [| done].
    injection Hrepos as ->. simpl.
    by rewrite (getitem_missing _ _ Hmiss).
Qed.

(** ** From a fetch to the GUI *)

Lemma succeeded_step_head (rem : gmap string string) (t : target)
    (d : option directory) :
  (∀ h, rem !! t_url t = Some h → h = t_hash t) →
  succeeded (entry_step rem t d).1.1 = true →
  (entry_step rem t d).1.2 = Some (Repository (Some (t_hash t))).
Proof.
  intros Hcur. unfold entry_step.
  destruct d as [[|[h|]]|]; simpl; try done.
  - case_bool_decide as Hh; simpl; [by rewrite Hh |].
    destruct (rem !! t_url t) as [h'|] eqn:Hr; simpl; [| done].
    by rewrite (Hcur h' eq_refl).
  - destruct (rem !! t_url t) as [h'|] eqn:Hr; simpl; [| done].
    by rewrite (Hcur h' eq_refl).
Qed.

(** What the fetch put on disk is what the GUI finds.  After
    [fetch_student_submission] succeeded for a student (cloned, pulled or
    up to date) in the submissions directory of an assignment under a
    destination, against a current snapshot: [Assignment.set_fetched_path]
    with that destination gives the student's submission the very path
    that was fetched into, and [is_fetched] on it, the first time, returns
    [True] when the submission carries the snapshot's hash. *)
Theorem fetched_submission_is_fetched (env : environment)
    (class_name assignment_name destination remote_head_hash uname
     last_first : string) (w w1 : world) (o : outcome)
    (assignment : AssignmentPaths) (i : nat) (submission : Submission) :
  fetch_student_submission env class_name assignment_name
    (assignment_submissions_path_of destination assignment_name)
    remote_head_hash uname last_first w = (Ok o, w1) →
  succeeded o = true →
  (∀ url h,
     build_clone_url (config env)
       (student_assignment_repo_path env (server_username (config env))
          class_name assignment_name (user_home_dir env uname)) = Ok url →
     remotes w !! url = Some h → h = remote_head_hash) →
  is_Some (directories w1 !! destination) →
  paths_name assignment = assignment_name →
  paths_submissions assignment !! i = Some (last_first, submission) →
  server_hash submission = remote_head_hash →
  hash_cache w
  !! Py.path_join
       (assignment_submissions_path_of destination assignment_name)
       last_first = None →
  ∃ assignment' submission' w2,
    Assignment_set_fetched_path destination assignment w1
    = (Return assignment', w1)
    ∧ paths_submissions assignment' !! i = Some (last_first, submission')
    ∧ fetched_path submission'
      = Some (Py.path_join
                (assignment_submissions_path_of destination assignment_name)
                last_first)
    ∧ server_hash submission' = remote_head_hash
    ∧ is_fetched submission' w1 = (Ok true, w2).
Proof.
  intros Hrun Hsucc Hcur Hdest Hname Hsub Hhash Hcache.
  destruct (fetch_student_submission_run env class_name assignment_name
              (assignment_submissions_path_of destination assignment_name)
              remote_head_hash uname last_first w) as (url & Hurl & Hrun').
  rewrite Hrun', sync_target_run in Hrun. injection Hrun as <- <-.
  set (t := {| t_path := Py.path_join
                           (assignment_submissions_path_of destination
                              assignment_name) last_first;
               t_url := url; t_hash := remote_head_hash |}) in *.
  assert (Hhead : local_head (after_step t w) (t_path t)
                  = Some remote_head_hash).
  { unfold local_head. rewrite directories_after_step.
    rewrite lookup_partial_alter_eq.
    rewrite (succeeded_step_head (remotes w) t) ; [done | | done].
    intros h Hh. by apply (Hcur url h). }
  assert (Hc : hash_cache (after_step t w) !! t_path t = None).
  { destruct (directories_after_batch_frame [t] w) as (_ & Hcw & _).
    simpl in Hcw. by rewrite Hcw. }
  unfold Assignment_set_fetched_path, os_path_isdir. unfold_monad. simpl.
  rewrite bool_decide_true by done.
  eexists _, (Submission_set_fetched_path
                (Some (os_path_join destination [paths_name assignment]))
                last_first submission), _.
  split; [done |]. split_and!.
  - simpl. rewrite list_lookup_fmap, Hsub. done.
  - simpl. by rewrite Hname.
  - done.
  - rewrite (is_fetched_on_path _ (t_path t)).
    + rewrite Hc. rewrite bool_decide_false by (by intros [? ?]).
      cbv zeta. rewrite Hhead. simpl. rewrite Hhash.
      by rewrite bool_decide_true.
    + simpl. by rewrite Hname.
Qed.

Lemma fetched_submission_is_fetched_witness :
  ∃ assignment' submission' w2,
    Assignment_set_fetched_path "/grading" example_assignment_paths
      (fetch_student_submission example_env "cs101" "hw1"
         (assignment_submissions_path_of "/grading" "hw1") "a1" "ada"
         "lovelace_ada_ada" example_world_with_destination).2
    = (Return assignment',
       (fetch_student_submission example_env "cs101" "hw1"
          (assignment_submissions_path_of "/grading" "hw1") "a1" "ada"
          "lovelace_ada_ada" example_world_with_destination).2)
    ∧ paths_submissions assignment' !! 0
      = Some ("lovelace_ada_ada", submission')
    ∧ fetched_path submission'
      = Some "/grading/hw1/submissions/lovelace_ada_ada"
    ∧ is_fetched submission'
        (fetch_student_submission example_env "cs101" "hw1"
           (assignment_submissions_path_of "/grading" "hw1") "a1" "ada"
           "lovelace_ada_ada" example_world_with_destination).2
      = (Ok true, w2).
Proof.
  destruct (fetched_submission_is_fetched example_env "cs101" "hw1"
              "/grading" "a1" "ada" "lovelace_ada_ada"
              example_world_with_destination
              (fetch_student_submission example_env "cs101" "hw1"
                 (assignment_submissions_path_of "/grading" "hw1") "a1"
                 "ada" "lovelace_ada_ada" example_world_with_destination).2
              Cloned example_assignment_paths 0
              {| fetched_path := None; server_hash := "a1" |})
    as (a' & s' & w2 & H1 & H2 & H3 & _ & H5).
  - vm_compute. reflexivity.
  - reflexivity.
  - intros url h Hurl. vm_compute in Hurl. injection Hurl as <-.
    vm_compute. congruence.
  - vm_compute. eauto.
  - reflexivity.
  - reflexivity.
  - reflexivity.
  - vm_compute. reflexivity.
  - exists a', s', w2. split_and!; try done.
Defined.

(** The colour of a submission's row.  A submission count of zero gives
    colour 0 without looking at the disk or running git.  Otherwise the
    colour comes from [is_fetched]: 2 without a fetched path; 1 or 2, for
    a path that is not cached and holds a repository with a readable HEAD,
    according to whether that HEAD is the server's hash; and for a path
    that is cached the [AttributeError] of [is_fetched] leaves
    [set_row_color], and no colour is set. *)
Theorem set_row_color_cases (uname : string) (count : Z)
    (submission : Submission) (row_color : dict Z) (w : world) :
  (count = 0%Z →
   set_row_color uname count submission row_color w
   = (Return (setitem row_color uname 0%Z), w))
  ∧ (count ≠ 0%Z →
     fetched_path submission = None →
     set_row_color uname count submission row_color w
     = (Return (setitem row_color uname 2%Z), w))
  ∧ (∀ path,
       count ≠ 0%Z →
       fetched_path submission = Some path →
       is_Some (hash_cache w !! path) →
       set_row_color uname count submission row_color w
       = (Throw (Builtin (AttributeError "get_hash")), w))
  ∧ (∀ path h,
       count ≠ 0%Z →
       fetched_path submission = Some path →
       hash_cache w !! path = None →
       local_head w path = Some h →
       ∃ w',
         set_row_color uname count submission row_color w
         = (Return
              (setitem row_color uname
                 (if bool_decide (h = server_hash submission)
                  then 1%Z else 2%Z)), w')
         ∧ issued (is_fetched submission) w = [GitHeadHash path]
         ∧ directories w' = directories w).
Proof.
  unfold set_row_color, run_M. split_and!.
  - by intros ->.
  - intros Hc Hnone. apply Z.eqb_neq in Hc. rewrite Hc.
    unfold is_fetched. by rewrite Hnone.
  - intros path Hc Hpath Hcached. apply Z.eqb_neq in Hc. rewrite Hc.
    rewrite (is_fetched_on_path _ path) by done.
    by rewrite bool_decide_true.
  - intros path h Hc Hpath Hcache Hhead. apply Z.eqb_neq in Hc.
    rewrite Hc. unfold issued.
    rewrite (is_fetched_on_path _ path) by done.
    rewrite Hcache, bool_decide_false by (by intros [? ?]).
    cbv zeta. rewrite Hhead. simpl.
    eexists. split_and!.
    + by case_bool_decide.
    + by rewrite drop_app_length.
    + done.
Qed.

(** ** Making directories and driving the fetch *)

Lemma create_dir_if_non_existent_run (term : terminal) (dir_path : string)
    (confirm : bool) (w : world) :
  create_dir_if_non_existent term dir_path confirm w
  = match directories w !! dir_path with
    | Some _ => (Ok tt, w)
    | None =>
        if confirm
           && negb (confirmation term
                      (dir_path +:+ " does not exist. Create it now?"))
        then (Raise (GkeepException "Cannot fetch submissions"), w)
        else
          match makedirs_error term dir_path with
          | Some e =>
              (Raise (GkeepException ("Error creating directory: " +:+ e)),
               set_directories
                 (λ d, foldr mkdir_missing d
                         (take (made_before_error term dir_path)
                            (leading_directories term dir_path))) w)
          | None =>
              (Ok tt,
               set_directories
                 (λ d, <[dir_path := PlainDirectory]>
                         (foldr mkdir_missing d
                            (leading_directories term dir_path))) w)
          end
    end.
Proof.
  unfold create_dir_if_non_existent, os_path_isdir, os_makedirs.
  unfold_monad. simpl.
  destruct (directories w !! dir_path) as [d|] eqn:Hd; simpl; [done |].
  destruct (confirm && negb _); [done |]. rewrite Hd.
  by destruct (makedirs_error term dir_path).
Qed.

Lemma lookup_mkdir_missing (ps : list string) (d : gmap string directory)
    (p : string) :
  foldr mkdir_missing d ps !! p
  = match d !! p with
    | Some x => Some x
    | None => if bool_decide (p ∈ ps) then Some PlainDirectory else None
    end.
Proof.
  induction ps as [|q ps IH]; simpl.
  - by destruct (d !! p).
  - unfold mkdir_missing at 1.
    destruct (decide (p = q)) as [->|Hne].
    + rewrite bool_decide_true by left.
      destruct (foldr mkdir_missing d ps !! q) as [x|] eqn:Hq.
      * rewrite Hq, IH in *. destruct (d !! q); [done |].
        by case_bool_decide; simplify_eq.
      * rewrite lookup_insert_eq. rewrite IH in Hq.
        by destruct (d !! q).
    + assert (bool_decide (p ∈ q :: ps) = bool_decide (p ∈ ps)) as ->.
      { apply bool_decide_ext. rewrite elem_of_cons. naive_solver. }
      destruct (foldr mkdir_missing d ps !! q);
        [| rewrite lookup_insert_ne by done]; apply IH.
Qed.

(** The cases of [create_dir_if_non_existent]. *)
Lemma create_dir_if_non_existent_cases (term : terminal)
    (dir_path : string) (confirm : bool) (w : world) :
  let r := create_dir_if_non_existent term dir_path confirm w in
  (r.1 = Ok tt ∨ ∃ detail, r.1 = Raise (GkeepException detail))
  ∧ (r.1 = Ok tt → is_Some (directories r.2 !! dir_path))
  ∧ (∀ e,
       directories w !! dir_path = None →
       confirm = false
       ∨ confirmation term (dir_path +:+ " does not exist. Create it now?")
         = true →
       makedirs_error term dir_path = Some e →
       r.1 = Raise (GkeepException ("Error creating directory: " +:+ e))
       ∧ ∀ p,
           directories r.2 !! p
           = match directories w !! p with
             | Some d => Some d
             | None =>
                 if bool_decide
                      (p ∈ take (made_before_error term dir_path)
                             (leading_directories term dir_path))
                 then Some PlainDirectory
                 else None
             end)
  ∧ (is_Some (directories w !! dir_path) → r = (Ok tt, w))
  ∧ (directories w !! dir_path = None →
     confirm = true →
     confirmation term (dir_path +:+ " does not exist. Create it now?")
     = false →
     r = (Raise (GkeepException "Cannot fetch submissions"), w))
  ∧ git_log r.2 = git_log w
  ∧ remotes r.2 = remotes w
  ∧ (∀ p d, directories w !! p = Some d → directories r.2 !! p = Some d)
  ∧ ∀ p, p ≠ dir_path → p ∉ leading_directories term dir_path →
         directories r.2 !! p = directories w !! p.
Proof.
  intros r. subst r. rewrite create_dir_if_non_existent_run.
  destruct (directories w !! dir_path) as [d|] eqn:Hd.
  - simpl. rewrite Hd. split_and!; try done; eauto.
  - assert (∀ p d,
              directories w !! p = Some d →
              (<[dir_path := PlainDirectory]>
                 (foldr mkdir_missing (directories w)
                    (leading_directories term dir_path))) !! p = Some d)
      as Hkeep.
    { intros p d Hp. rewrite lookup_insert_ne by congruence.
      by rewrite lookup_mkdir_missing, Hp. }
    assert (∀ p,
              p ≠ dir_path → p ∉ leading_directories term dir_path →
              (<[dir_path := PlainDirectory]>
                 (foldr mkdir_missing (directories w)
                    (leading_directories term dir_path))) !! p
              = directories w !! p) as Hframe.
    { intros p Hp Hnot. rewrite lookup_insert_ne by done.
      rewrite lookup_mkdir_missing, bool_decide_false by done.
      by destruct (directories w !! p). }
    assert (∀ p d,
              directories w !! p = Some d →
              foldr mkdir_missing (directories w)
                (take (made_before_error term dir_path)
                   (leading_directories term dir_path)) !! p = Some d)
      as Hkeep'.
    { intros p d Hp. by rewrite lookup_mkdir_missing, Hp. }
    assert (∀ p,
              p ≠ dir_path → p ∉ leading_directories term dir_path →
              foldr mkdir_missing (directories w)
                (take (made_before_error term dir_path)
                   (leading_directories term dir_path)) !! p
              = directories w !! p) as Hframe'.
    { intros p Hp Hnot. rewrite lookup_mkdir_missing.
      rewrite bool_decide_false; [by destruct (directories w !! p) |].
      intros Hin. apply Hnot.
      by eapply elem_of_sublist; [| apply sublist_take]. }
    destruct confirm, (confirmation term _) eqn:Hanswer,
      (makedirs_error term dir_path) eqn:Herr;
      simpl; split_and!; try done; eauto;
      try (by intros [? ?]);
      try (by rewrite lookup_insert_eq);
      try (by intros e' _ [? | ?]);
      intros e' _ _ [= <-]; (split; [done |]);
      intros p; apply lookup_mkdir_missing.
Qed.

(** [create_dir_if_non_existent] returns only with the directory in place,
    and raises nothing but [GkeepException].  It runs no git command,
    keeps every directory and repository that is there, and touches no
    path but the one asked for and those leading to it.  A directory that
    exists is left alone, without a prompt, and when the user declines
    nothing is made.  When making the directory fails, the error is
    reported as "Error creating directory: ..."; the leading directories
    made before the error stay, and nothing else changes. *)
Theorem create_dir_if_non_existent_ensures (term : terminal)
    (dir_path : string) (confirm : bool) (w : world) :
  let r := create_dir_if_non_existent term dir_path confirm w in
  (r.1 = Ok tt ∨ ∃ detail, r.1 = Raise (GkeepException detail))
  ∧ (r.1 = Ok tt → is_Some (directories r.2 !! dir_path))
  ∧ (∀ e,
       directories w !! dir_path = None →
       confirm = false
       ∨ confirmation term (dir_path +:+ " does not exist. Create it now?")
         = true →
       makedirs_error term dir_path = Some e →
       r.1 = Raise (GkeepException ("Error creating directory: " +:+ e))
       ∧ ∀ p,
           directories r.2 !! p
           = match directories w !! p with
             | Some d => Some d
             | None =>
                 if bool_decide
                      (p ∈ take (made_before_error term dir_path)
                             (leading_directories term dir_path))
                 then Some PlainDirectory
                 else None
             end)
  ∧ (is_Some (directories w !! dir_path) → r = (Ok tt, w))
  ∧ (directories w !! dir_path = None →
     confirm = true →
     confirmation term (dir_path +:+ " does not exist. Create it now?")
     = false →
     r = (Raise (GkeepException "Cannot fetch submissions"), w))
  ∧ git_log r.2 = git_log w
  ∧ remotes r.2 = remotes w
  ∧ (∀ p d, directories w !! p = Some d → directories r.2 !! p = Some d)
  ∧ ∀ p, p ≠ dir_path → p ∉ leading_directories term dir_path →
         directories r.2 !! p = directories w !! p.
Proof. apply create_dir_if_non_existent_cases. Qed.

(** [fetch_submissions] gives up early in two ways.  When the destination
    is not a directory and the user declines to create it, it raises
    "Cannot fetch submissions" and the world is as before.  When a single
    assignment is asked for that the class does not have, it raises
    "Assignment ... does not exist in class ..."; this comes after the
    destination was seen to, so a destination directory that was missing
    has been made by then, and no git command has run. *)
Theorem fetch_submissions_gives_up (env : environment) (term : terminal)
    (reports : reports_info) (info : JsonInfo)
    (class_name assignment_name destination_path : string) (w : world) :
  (directories w !! destination_path = None →
   confirmation term
     (destination_path +:+ " does not exist. Create it now?") = false →
   fetch_submissions env term reports info class_name assignment_name
     destination_path w
   = (Raise (GkeepException "Cannot fetch submissions"), w))
  ∧ (∀ known w0,
       create_dir_if_non_existent term destination_path true w
       = (Ok tt, w0) →
       assignment_name ≠ "all" →
       assignment_list info class_name = Ok known →
       assignment_name ∉ known →
       fetch_submissions env term reports info class_name assignment_name
         destination_path w
       = (Raise
            (GkeepException
               ("Assignment " +:+ assignment_name
                +:+ " does not exist in class " +:+ class_name)), w0)
       ∧ is_Some (directories w0 !! destination_path)
       ∧ git_log w0 = git_log w).
Proof.
  split.
  - intros Hd Hno. unfold fetch_submissions. unfold bind at 1.
    rewrite create_dir_if_non_existent_run, Hd, Hno. done.
  - intros known w0 Hdir Hnotall Hknown Hmiss.
    destruct (create_dir_if_non_existent_cases term destination_path
                true w) as (_ & Hex & _ & _ & _ & Hlog & _).
    rewrite Hdir in Hex, Hlog. simpl in *.
    split_and!; [| by apply Hex | done].
    unfold fetch_submissions. unfold bind at 1. rewrite Hdir.
    apply String.eqb_neq in Hnotall. rewrite Hnotall.
    unfold bind, lift, raise. rewrite Hknown.
    by rewrite bool_decide_false.
Qed.

(** [fetch_assignment_submissions] with a submissions directory that is
    there or can be made, and a snapshot that has the reports repository
    and every student: it does not raise.  It gives the outcome for the
    reports repository, as [pull_repo_if_updated] or [clone_repo] on
    [<class path>/<assignment>/reports] reports it, then one outcome for
    each student.  A transport error on the reports repository does not
    stop the students: their outcomes are those of the loop run without
    it. *)
Theorem fetch_assignment_submissions_reports_first (env : environment)
    (term : terminal) (reports : reports_info) (info : JsonInfo)
    (class_name assignment_name class_submission_path : string)
    (remote_reports_path remote_reports_hash : string)
    (usernames : list string) (ts : list target) (w : world) :
  let submissions :=
    os_path_join class_submission_path [assignment_name; "submissions"] in
  let reports_target :=
    {| t_path :=
         os_path_join class_submission_path [assignment_name; "reports"];
       t_url := "ssh://" +:+ server_username (config env) +:+ "@"
                +:+ server_host (config env) +:+ ":"
                +:+ Py.str (server_ssh_port (config env)) +:+ "/"
                +:+ remote_reports_path;
       t_hash := remote_reports_hash |} in
  is_Some (directories w !! submissions)
  ∨ makedirs_error term submissions = None →
  reports_path reports class_name assignment_name = Ok remote_reports_path →
  reports_hash reports class_name assignment_name = Ok remote_reports_hash →
  student_list info class_name = Ok usernames →
  resolve_targets env info class_name assignment_name submissions usernames
  = Ok ts →
  ∃ w0 o w1 outs w',
    create_dir_if_non_existent term submissions false w = (Ok tt, w0)
    ∧ sync_target reports_target w0 = (Ok o, w1)
    ∧ fetch_assignment_submissions env term reports info class_name
        assignment_name class_submission_path w
      = (Ok (o :: outs), w')
    ∧ length outs = length usernames
    ∧ (failed o = true →
       (fetch_student_submissions env info class_name assignment_name
          submissions w0).1 = Ok outs).
Proof.
  intros submissions reports_target Hdir Hpath Hhash Hlist Hres.
  assert (∃ w0, create_dir_if_non_existent term submissions false w
                = (Ok tt, w0)) as [w0 Hw0].
  { rewrite create_dir_if_non_existent_run.
    destruct (directories w !! submissions) as [d|] eqn:Hd; [by eexists |].
    destruct Hdir as [[? ?] | ->]; [done |]. simpl. by eexists. }
  destruct (fetch_each_student_run _ _ _ _ _ _ _
              (after_step reports_target w0) Hres) as [Hrun Hlen].
  exists w0, (step_outcome reports_target w0), (after_step reports_target w0),
    (batch_outcomes ts (after_step reports_target w0)),
    (after_batch ts (after_step reports_target w0)).
  split_and!.
  - done.
  - apply sync_target_run.
  - unfold fetch_assignment_submissions. fold submissions.
    unfold bind at 1. rewrite Hw0.
    unfold bind at 1, lift at 1. rewrite Hpath.
    unfold bind at 1, lift at 1. rewrite Hhash.
    unfold bind at 1, lift at 1. rewrite build_clone_url_eq.
    pose proof (sync_target_run reports_target w0) as Hsync.
    unfold sync_target in Hsync. cbn [t_path t_url t_hash reports_target]
      in Hsync.
    unfold bind at 1 in Hsync. unfold bind at 1.
    destruct (os_path_isdir _ w0) as [[is_dir|e] w0'] eqn:Hisdir.
    + unfold bind at 1. rewrite Hsync.
      unfold fetch_student_submissions. unfold bind, lift, ret.
      rewrite Hlist. unfold bind, lift, ret in Hrun. by rewrite Hrun.
    + unfold os_path_isdir in Hisdir. by unfold_monad.
  - by rewrite length_batch_outcomes.
  - intros Hf.
    destruct (fetch_each_student_run _ _ _ _ _ _ _ w0 Hres) as [Hrun0 _].
    unfold fetch_student_submissions, bind, lift. rewrite Hlist, Hrun0.
    simpl. f_equal.
    by destruct (batch_same_disk ts _ _
                   (failed_step_same_disk reports_target w0 Hf)) as [-> _].
Qed.

Lemma fetch_assignment_submissions_reports_first_witness :
  let submissions := os_path_join "/grading" ["hw1"; "submissions"] in
  let reports_target :=
    {| t_path := os_path_join "/grading" ["hw1"; "reports"];
       t_url := "ssh://" +:+ server_username (config example_env) +:+ "@"
                +:+ server_host (config example_env) +:+ ":"
                +:+ Py.str (server_ssh_port (config example_env)) +:+ "/"
                +:+ "/home/prof/reports/cs101/hw1.git";
       t_hash := "r9" |} in
  ∃ w0 o w1 outs w',
    create_dir_if_non_existent example_terminal submissions false
      example_world = (Ok tt, w0)
    ∧ sync_target reports_target w0 = (Ok o, w1)
    ∧ fetch_assignment_submissions example_env example_terminal
        example_reports example_info "cs101" "hw1" "/grading" example_world
      = (Ok (o :: outs), w')
    ∧ length outs = length example_usernames
    ∧ (failed o = true →
       (fetch_student_submissions example_env example_info "cs101" "hw1"
          submissions w0).1 = Ok outs).
Proof.
  apply (fetch_assignment_submissions_reports_first example_env
           example_terminal example_reports example_info "cs101" "hw1"
           "/grading" "/home/prof/reports/cs101/hw1.git" "r9"
           example_usernames example_targets example_world).
  - right. reflexivity.
  - reflexivity.
  - reflexivity.
  - vm_compute. reflexivity.
  - vm_compute. reflexivity.
Defined.

Lemma fetch_assignment_submissions_no_reports (env : environment)
    (term : terminal) (info : JsonInfo)
    (class_name assignment_name class_submission_path : string) (w : world) :
  fetch_assignment_submissions env term JsonInfo_reports info class_name
    assignment_name class_submission_path w
  = match
      create_dir_if_non_existent term
        (os_path_join class_submission_path [assignment_name; "submissions"])
        false w
    with
    | (Ok _, w0) => (Raise (AttributeError "reports_path"), w0)
    | (Raise e, w0) => (Raise e, w0)
    end.
Proof.
  unfold fetch_assignment_submissions, bind, lift. cbv zeta.
  by destruct (create_dir_if_non_existent _ _ _ _) as [[[]|e] w0].
Qed.

Lemma fetch_each_assignment_no_reports (env : environment)
    (term : terminal) (info : JsonInfo)
    (class_name destination_path : string) (assignments : list string)
    (w : world) :
  let r := fetch_each_assignment env term JsonInfo_reports info class_name
             destination_path assignments w in
  git_log r.2 = git_log w
  ∧ match assignments with
    | [] => r.1 = Ok []
    | _ :: _ => ∃ e, r.1 = Raise e
    end.
Proof.
  destruct assignments as [|a rest]; [done |].
  cbn [fetch_each_assignment]. unfold bind.
  rewrite fetch_assignment_submissions_no_reports.
  destruct (create_dir_if_non_existent_cases term
              (os_path_join destination_path [a; "submissions"]) false w)
    as (_ & _ & _ & _ & _ & Hlog & _).
  destruct (create_dir_if_non_existent _ _ _ _) as [[[]|e] w0];
    simpl in *; eauto.
Qed.

Lemma fetch_submissions_run (env : environment) (term : terminal)
    (reports : reports_info) (info : JsonInfo)
    (class_name assignment_name destination_path : string) (w : world) :
  fetch_submissions env term reports info class_name assignment_name
    destination_path w
  = match create_dir_if_non_existent term destination_path true w with
    | (Raise e, w0) => (Raise e, w0)
    | (Ok _, w0) =>
        match assignment_list info class_name with
        | Raise e => (Raise e, w0)
        | Ok known =>
            if String.eqb assignment_name "all" then
              fetch_each_assignment env term reports info class_name
                destination_path known w0
            else if bool_decide (assignment_name ∈ known) then
              fetch_each_assignment env term reports info class_name
                destination_path [assignment_name] w0
            else
              (Raise
                 (GkeepException
                    ("Assignment " +:+ assignment_name
                     +:+ " does not exist in class " +:+ class_name)), w0)
        end
    end.
Proof.
  unfold fetch_submissions, bind, lift, ret, raise.
  destruct (create_dir_if_non_existent _ _ _ _) as [[[]|e] w0]; [| done].
  destruct (String.eqb assignment_name "all");
    destruct (assignment_list info class_name) as [known|e]; try done.
  by case_bool_decide.
Qed.

(** With an info object of the class [JsonInfo] as
    [gkeepcore/user_interface.py] defines it, [fetch_submissions] fetches
    nothing: it runs no git command, and returns only when "all" is asked
    of a class without assignments.  For an assignment of the class, with
    the destination in place and the submissions directory there or made,
    it raises the [AttributeError] of [info.reports_path], and the
    submissions directory of the assignment has been made by then. *)
Theorem fetch_submissions_needs_reports (env : environment) (term : terminal)
    (info : JsonInfo) (class_name assignment_name destination_path : string)
    (w : world) :
  let submissions :=
    os_path_join destination_path [assignment_name; "submissions"] in
  let r := fetch_submissions env term JsonInfo_reports info class_name
             assignment_name destination_path w in
  git_log r.2 = git_log w
  ∧ (∀ outs, r.1 = Ok outs →
             outs = [] ∧ assignment_name = "all"
             ∧ assignment_list info class_name = Ok [])
  ∧ (∀ known,
       is_Some (directories w !! destination_path) →
       assignment_name ≠ "all" →
       assignment_list info class_name = Ok known →
       assignment_name ∈ known →
       is_Some (directories w !! submissions)
       ∨ makedirs_error term submissions = None →
       r.1 = Raise (AttributeError "reports_path")
       ∧ is_Some (directories r.2 !! submissions)).
Proof.
  intros submissions r. subst r. rewrite fetch_submissions_run.
  destruct (create_dir_if_non_existent_cases term destination_path true w)
    as (_ & _ & _ & Hthere & _ & Hlog & _).
  destruct (create_dir_if_non_existent term destination_path true w)
    as [[[]|e] w0] eqn:Hw0; simpl in Hlog.
  - destruct (assignment_list info class_name) as [known|e] eqn:Hknown.
    + destruct (String.eqb assignment_name "all") eqn:Hall.
      * apply String.eqb_eq in Hall.
        destruct (fetch_each_assignment_no_reports env term info class_name
                    destination_path known w0) as [Hlog' Hres].
        split_and!; [congruence | | done].
        intros outs Houts. destruct known as [|a rest].
        -- rewrite Hres in Houts. by injection Houts as <-.
        -- destruct Hres as [e He]. congruence.
      * apply String.eqb_neq in Hall.
        case_bool_decide as Hin.
        -- destruct (fetch_each_assignment_no_reports env term info
                       class_name destination_path [assignment_name] w0)
             as [Hlog' [e He]].
           split_and!; [congruence | intros; congruence |].
           intros known' Hdest _ [= <-] _ Hsub.
           pose proof (Hthere Hdest) as Hsame. injection Hsame as ->.
           cbn [fetch_each_assignment]. unfold bind.
           rewrite fetch_assignment_submissions_no_reports.
           fold submissions.
           destruct (create_dir_if_non_existent_cases term submissions
                       false w) as (_ & Hex & _).
           rewrite create_dir_if_non_existent_run in *.
           destruct (directories w !! submissions) as [d|] eqn:Hd.
           ++ simpl. by rewrite Hd.
           ++ destruct Hsub as [[? ?] | Hmk]; [done |].
              rewrite Hmk in *. simpl in *. split; [done |]. by apply Hex.
        -- simpl. split_and!; [done | done |].
           by intros known' _ _ [= <-] Hin'.
    + simpl. by split_and!.
  - simpl. split_and!; [done | done |].
    intros known Hdest. by specialize (Hthere Hdest).
Qed.

Lemma fetch_submissions_gives_up_witness :
  fetch_submissions example_env example_declining_terminal example_reports
    example_info "cs101" "hw1" "/grading" example_world
  = (Raise (GkeepException "Cannot fetch submissions"), example_world)
  ∧ ∃ w0,
      fetch_submissions example_env example_terminal example_reports
        example_info "cs101" "hw7" "/grading" example_world
      = (Raise
           (GkeepException
              ("Assignment " +:+ "hw7" +:+ " does not exist in class "
               +:+ "cs101")), w0)
      ∧ is_Some (directories w0 !! "/grading")
      ∧ git_log w0 = git_log example_world.
Proof.
  split.
  - apply (proj1 (fetch_submissions_gives_up example_env
                    example_declining_terminal example_reports example_info
                    "cs101" "hw1" "/grading" example_world)).
    + vm_compute. reflexivity.
    + reflexivity.
  - eexists.
    apply (proj2 (fetch_submissions_gives_up example_env example_terminal
                    example_reports example_info "cs101" "hw7" "/grading"
                    example_world) ["hw1"]).
    + vm_compute. reflexivity.
    + discriminate.
    + vm_compute. reflexivity.
    + vm_compute. intros H. inversion H as [|? ? ? H']. inversion H'.
Defined.

Lemma fetch_submissions_needs_reports_witness :
  let r := fetch_submissions example_env example_terminal JsonInfo_reports
             example_info "cs101" "hw1" "/grading"
             example_world_with_destination in
  r.1 = Raise (AttributeError "reports_path")
  ∧ is_Some (directories r.2 !! os_path_join "/grading" ["hw1"; "submissions"]).
Proof.
  apply (proj2 (proj2 (fetch_submissions_needs_reports example_env
                         example_terminal example_info "cs101" "hw1"
                         "/grading" example_world_with_destination))
           ["hw1"]).
  - vm_compute. eauto.
  - discriminate.
  - vm_compute. reflexivity.
  - vm_compute. left.
  - right. reflexivity.
Defined.

(** ** The cases above on the examples *)

Lemma set_row_content_refuses_witness :
  let t := set_column_count 2 (set_row_count 1 Table_init) in
  set_row_content 0 ["hw1"] t
  = (Throw (GuiException
              "Number of cells in this row do not matchnumber of columns"),
     t)
  ∧ set_row_content 5 ["hw1"; "12"] t = (Throw (Builtin IndexError), t)
  ∧ set_row_content 5 [] Table_init = (Return tt, Table_init).
Proof.
  intros t. split_and!.
  - apply (proj1 (set_row_content_refuses t 0 ["hw1"])). discriminate.
  - apply (proj1 (proj2 (set_row_content_refuses t 5 ["hw1"; "12"]))).
    + reflexivity.
    + discriminate.
    + vm_compute. reflexivity.
  - apply (proj2 (proj2 (set_row_content_refuses Table_init 5 []))).
    reflexivity.
Defined.

Lemma AssignmentTable_init_shows_witness :
  (∃ self shown,
     AssignmentTable_init example_class = (Return tt, self)
     ∧ col_headers (table self) = ["Assignment Name"; "Students Submitted"]
     ∧ rows_content (table self) = assignment_content <$> shown
     ∧ shown ≡ₚ get_assignment_list example_class
     ∧ StronglySorted (λ a b, String.le (name a) (name b)) shown
     ∧ sorting_order self = Some (0, 0)%Z
     ∧ current_assignment self = None
     ∧ fits_class self)
  ∧ fst (AssignmentTable_init
           {| assignment_count := 4;
              get_assignment_list := get_assignment_list example_class |})
    = Throw (Builtin IndexError).
Proof.
  split.
  - apply (proj1 (AssignmentTable_init_shows example_class)). reflexivity.
  - apply (proj2 (AssignmentTable_init_shows
                    {| assignment_count := 4;
                       get_assignment_list :=
                         get_assignment_list example_class |})).
    reflexivity.
Defined.

Lemma set_row_color_cases_witness :
  set_row_color "jdoe" 0 example_submission [] example_gui_world
  = (Return (setitem [] "jdoe" 0%Z), example_gui_world)
  ∧ ∃ w',
      set_row_color "jdoe" 3 example_submission [] example_gui_world
      = (Return
           (setitem [] "jdoe"
              (if bool_decide ("4f2a" = server_hash example_submission)
               then 1%Z else 2%Z)), w')
      ∧ issued (is_fetched example_submission) example_gui_world
        = [GitHeadHash "/grading/hw1/submissions/doe_jane_jdoe"]
      ∧ directories w' = directories example_gui_world.
Proof.
  split.
  - apply (proj1 (set_row_color_cases "jdoe" 0 example_submission []
                    example_gui_world)). reflexivity.
  - apply (proj2 (proj2 (proj2 (set_row_color_cases "jdoe" 3
                                  example_submission [] example_gui_world)))
             "/grading/hw1/submissions/doe_jane_jdoe" "4f2a").
    + discriminate.
    + reflexivity.
    + vm_compute. reflexivity.
    + vm_compute. reflexivity.
Defined.

Lemma create_dir_if_non_existent_ensures_witness :
  create_dir_if_non_existent example_declining_terminal "/grading" true
    example_world
  = (Raise (GkeepException "Cannot fetch submissions"), example_world)
  ∧ let r := create_dir_if_non_existent example_failing_terminal
               "/grading/hw1/submissions" false example_world in
    r.1 = Raise (GkeepException
                   ("Error creating directory: "
                    +:+ "[Errno 28] No space left on device: '/grading/hw1'"))
    ∧ directories r.2 !! "/grading" = Some PlainDirectory
    ∧ directories r.2 !! "/grading/hw1" = None
    ∧ directories r.2 !! "/grading/hw1/submissions" = None.
Proof.
  split.
  - apply (create_dir_if_non_existent_ensures example_declining_terminal
             "/grading" true example_world).
    + vm_compute. reflexivity.
    + reflexivity.
    + reflexivity.
  - destruct (proj1 (proj2 (proj2
                (create_dir_if_non_existent_ensures example_failing_terminal
                   "/grading/hw1/submissions" false example_world)))
                "[Errno 28] No space left on device: '/grading/hw1'")
      as [Hraise Hdisk].
    + vm_compute. reflexivity.
    + by left.
    + reflexivity.
    + split_and!; [exact Hraise | | |]; rewrite Hdisk;
        vm_compute; reflexivity.
Defined.

Lemma students_submitted_spec_witness :
  ∃ students,
    Info.student_list example_info_dict "cs101" = Return students
    ∧ ["ada"] `sublist_of` students
    ∧ ∀ student, student ∈ students →
        ∃ count,
          Info.submission_count example_info_dict "cs101" "hw1" student
          = Return count
          ∧ (student ∈ ["ada"] ↔ py_ne_zero count = true).
Proof.
  apply (proj2 (students_submitted_spec example_info_dict "cs101" "hw1")
           ["ada"]).
  vm_compute. reflexivity.
Defined.

Lemma assignments_by_student_spec_witness :
  (∃ assignments,
     Info.assignment_list example_info_dict "cs101" = Return assignments
     ∧ ["hw1"] `sublist_of` assignments
     ∧ ∀ a, a ∈ assignments →
         ∃ repo,
           py_path example_info_dict
             ["cs101"; "assignments"; a; "students_repos"; "ada"]
           = Return repo
           ∧ (a ∈ ["hw1"] ↔ repo ≠ JNull))
  ∧ Info.assignments_by_student_list example_info_dict "cs101" "zed"
    = Throw (Builtin (KeyError "zed")).
Proof.
  split.
  - apply (proj1 (assignments_by_student_spec example_info_dict "cs101"
                    "ada") ["hw1"]).
    vm_compute. reflexivity.
  - apply (proj2 (assignments_by_student_spec example_info_dict "cs101"
                    "zed") "hw1" []
             [("ada", JDict [("hash", JStr "a1");
                             ("submission_count", JInt 2)]);
              ("bob", JDict [("hash", JStr "b2");
                             ("submission_count", JInt 0)])]).
    + vm_compute. reflexivity.
    + vm_compute. reflexivity.
    + vm_compute. intros H.
      repeat (inversion H as [|? ? ? H']; clear H; rename H' into H).
Defined.

Lemma table_setup_witness :
  let t := set_column_count 2 (set_row_count 1 Table_init) in
  set_column_headers ["Assignment Name"; "Students Submitted"] t
  = (Return tt,
     with_headers ["Assignment Name"; "Students Submitted"] t)
  ∧ set_column_headers ["Assignment Name"] t
    = (Throw (GuiException
                "Number of headers do not match number of columns"), t).
Proof.
  intros t. split.
  - apply (proj2 (proj2 (proj2 (table_setup 1 2
                                  ["Assignment Name"; "Students Submitted"])))
             t).
    + apply (proj1 (table_setup 1 2 [])).
    + reflexivity.
  - apply (proj2 (proj2 (proj2 (table_setup 1 2 ["Assignment Name"]))) t).
    + apply (proj1 (table_setup 1 2 [])).
    + discriminate.
Defined.

Lemma paths_survive_restart_witness :
  ∃ file0 file',
    create_json NoFile = (Return tt, file0)
    ∧ set_path file0 "hw1" "cs101" "/grading" = (Return tt, file')
    ∧ create_json file' = (Return tt, file')
    ∧ get_path file' "hw1" "cs101" = Return (Some "/grading")
    ∧ get_path file' "hw2" "cs101" = Return None.
Proof.
  destruct (proj2 (paths_survive_restart NoFile "hw1" "cs101" "/grading"))
    as (file0 & file' & Hcreate & Hset & Hagain & Hget & Hother).
  - discriminate.
  - exists file0, file'. split_and!; [done | done | done | done |].
    apply Hother; [by left | discriminate].
Defined.
